(** * SpendSmart: the insight / nudge engine of [server/src/services/aiService.js]

    A shallow embedding of the [AIService] class together with the parts of
    the JavaScript runtime, of moment.js and of the Mongoose collections it
    relies on, followed by the properties of the engine.

    Conventions of the embedding.
    - A JavaScript [Number] that holds money, an average, a ratio or a
      percentage is what it is in the engine, an IEEE 754 binary64 double
      ([float]): sums, quotients and products round to the nearest double,
      comparisons with [NaN] are false.  The store adds amounts up in the
      order of the collection.  Counters, streak lengths, scores and epoch
      milliseconds are integers ([Z]); the quotient of two integers that is
      rounded at once is taken exactly ([Q]).
    - A [Date] is its number of milliseconds since the epoch.
    - An [async] method is a computation in the monad [M] below: it reads the
      wall clock, queries the store, and either returns or throws.  The
      clock and the faults of the store are given from outside, reading by
      reading and query by query; [console.error] leaves no trace.
    - The local zone of the process is UTC. *)

From Stdlib Require Import ZArith QArith Qround Qabs Lia Lqa Bool List.
From Stdlib Require Import String Ascii Sorted Permutation.
From Stdlib Require Import DecimalString DecimalZ DecimalN DecimalPos.
From Stdlib Require Import Floats.
Import ListNotations.

Set Implicit Arguments.
Set Warnings "-inexact-float".

(* ================================================================== *)
(** * The JavaScript runtime *)
(* ================================================================== *)

Module JS.

(** ** Numbers: IEEE 754 binary64 *)

Local Open Scope float_scope.

Definition NaN : float := nan.

(** Relational operators; every one is false when an operand is [NaN]. *)
Definition gt (x y : float) : bool := y <? x.
Definition ge (x y : float) : bool := y <=? x.
Definition lt (x y : float) : bool := x <? y.
Definition le (x y : float) : bool := x <=? y.
Definition strict_eq (x y : float) : bool := x =? y.

(** [!x]: zero of either sign and [NaN] are falsy. *)
Definition falsy (x : float) : bool := (x =? 0) || negb (x =? x).

(** [x || 0]. *)
Definition or_zero (x : float) : float := if falsy x then 0 else x.

Definition Math_abs (x : float) : float := abs x.

(** The double nearest to an integer, ties to even. *)
Definition of_Z (z : Z) : float :=
  SF2Prim (binary_normalize prec emax z 0 false).

(** The double nearest to a quotient of two positive integers. *)
Definition of_ratio (num den : positive) : float :=
  SF2Prim (SFdiv prec emax (S754_finite false num 0) (S754_finite false den 0)).

(** The sign bit, and the rational a finite double stands for. *)
Definition sign (x : float) : bool :=
  match Prim2SF x with
  | S754_zero s | S754_infinity s | S754_finite s _ _ => s
  | S754_nan => false
  end.

Definition value (x : float) : option Q :=
  match Prim2SF x with
  | S754_zero _ => Some 0%Q
  | S754_finite s m e =>
      Some (inject_Z (if s then Zneg m else Zpos m) * 2 ^ e)%Q
  | _ => None
  end.

(** [array.reduce((sum, e) => sum + f(e), 0)]. *)
Definition reduce_sum {A} (f : A -> float) (l : list A) : float :=
  fold_left (fun sum e => sum + f e) l 0.

(** [Math.round] of a double: the nearest integer, halves going up; a
    result of zero keeps the sign of the argument. *)
Definition Math_round_double (x : float) : float :=
  match value x with
  | Some q =>
      let k := Qfloor (q + (1 # 2)) in
      if (k =? 0)%Z then (if sign x then (-0) else 0) else of_Z k
  | None => x
  end.

(** [Math.round] and [Math.floor] of the exact quotient of two integers. *)
Definition Math_round (x : Q) : Z := Qfloor (x + (1 # 2)).
Definition Math_floor (x : Q) : Z := Qfloor x.

(** [String(n)] for an integer [n]. *)
Definition Number_toString (n : Z) : string :=
  NilZero.string_of_int (Z.to_int n).

Fixpoint repeat_zero (n : nat) : string :=
  match n with
  | O => EmptyString
  | S k => String "0" (repeat_zero k)
  end.

Fixpoint string_take (n : nat) (s : string) : string :=
  match n, s with
  | S k, String c r => String c (string_take k r)
  | _, _ => EmptyString
  end.

Fixpoint string_drop (n : nat) (s : string) : string :=
  match n, s with
  | S k, String _ r => string_drop k r
  | _, _ => s
  end.

(** The number [n] of decimal digits before the point of a positive
    rational: [10^(n-1) <= q < 10^n]. *)
Fixpoint count_digits (fuel : nat) (z : Z) : Z :=
  match fuel with
  | O => 0
  | S k => if (z <? 10)%Z then 1 else (1 + count_digits k (z / 10))%Z
  end.

Definition decimal_digits (p : positive) : Z :=
  count_digits (Pos.size_nat p) (Zpos p).

Definition power10 (n : Z) : Q :=
  if (0 <=? n)%Z then inject_Z (10 ^ n) else (1 # Z.to_pos (10 ^ (- n))).

Definition decimal_exponent (q : Q) : Z :=
  let n := (decimal_digits (Z.to_pos (Qnum q)) - decimal_digits (Qden q))%Z in
  if Qle_bool (power10 n) q then (n + 1)%Z else n.

(** The double nearest to [s * 10^e], for a positive integer [s]. *)
Definition of_decimal (s : positive) (e : Z) : float :=
  if (0 <=? e)%Z then of_ratio (s * Z.to_pos (10 ^ e)) 1
  else of_ratio s (Z.to_pos (10 ^ (- e))).

(** The shortest digits that read back as the double: the least [k] for
    which an integer [s] of [k] digits and an [n] exist with
    [s * 10^(n-k)] rounding to [x]; of two such [s] the nearer to [x], the
    even one on a tie. *)
Fixpoint shortest_digits (fuel : nat) (k : Z) (x : float) (q : Q) (n : Z)
  : Z * Z :=
  let scaled := (q / power10 (n - k))%Q in
  let lo := Qfloor scaled in
  let hi := (lo + 1)%Z in
  let ok s := (0 <? s)%Z && (of_decimal (Z.to_pos s) (n - k) =? x) in
  let pick s := if (s =? 10 ^ k)%Z then (10 ^ (k - 1), n + 1)%Z else (s, n) in
  match fuel with
  | O => pick lo
  | S fuel' =>
      match ok lo, ok hi with
      | true, true =>
          let dlo := (scaled - inject_Z lo)%Q in
          let dhi := (inject_Z hi - scaled)%Q in
          if Qeq_bool dlo dhi then pick (if Z.even lo then lo else hi)
          else if Qle_bool dlo dhi then pick lo else pick hi
      | true, false => pick lo
      | false, true => pick hi
      | false, false => shortest_digits fuel' (k + 1) x q n
      end
  end.

(** [String(x)] for a double (Number::toString). *)
Definition Double_toString (x : float) : string :=
  match value x with
  | None =>
      if x =? x then (if sign x then "-Infinity" else "Infinity")%string
      else "NaN"%string
  | Some v =>
      if Qeq_bool v 0 then "0"%string
      else
        let q := Qabs v in
        let '(s, n) := shortest_digits 17 1 (abs x) q (decimal_exponent q) in
        let ds := Number_toString s in
        let k := Z.of_nat (String.length ds) in
        let body :=
          if ((k <=? n) && (n <=? 21))%Z then
            (ds ++ repeat_zero (Z.to_nat (n - k)))%string
          else if ((0 <? n) && (n <=? 21))%Z then
            (string_take (Z.to_nat n) ds ++ "."
             ++ string_drop (Z.to_nat n) ds)%string
          else if ((-6 <? n) && (n <=? 0))%Z then
            ("0." ++ repeat_zero (Z.to_nat (- n)) ++ ds)%string
          else
            let e := (n - 1)%Z in
            let mantissa :=
              if (k =? 1)%Z then ds
              else (string_take 1 ds ++ "." ++ string_drop 1 ds)%string in
            (mantissa ++ "e" ++ (if (0 <=? e)%Z then "+" else "-")
             ++ Number_toString (Z.abs e))%string in
        if sign x then String "-" body else body
  end.

(** [x.toFixed(d)]: for a finite [x] below [10^21] in magnitude the sign is
    split off, the magnitude is scaled by [10^d] and rounded to the nearest
    integer (the larger one on a tie), and the digits are printed with [d]
    of them after the point; any other [x] is printed as [String(x)]. *)
Definition toFixed_scaled (d : nat) (v : Q) : Z :=
  Qfloor (Qabs v * inject_Z (10 ^ Z.of_nat d) + (1 # 2)).

Definition fixed_range (x : float) : option Q :=
  match value x with
  | Some v => if Qle_bool (inject_Z (10 ^ 21)) (Qabs v) then None else Some v
  | None => None
  end.

Definition toFixed (d : nat) (x : float) : string :=
  match fixed_range x with
  | None => Double_toString x
  | Some v =>
      let digits := Number_toString (toFixed_scaled d v) in
      let padded :=
        (repeat_zero (S d - String.length digits) ++ digits)%string in
      let k := (String.length padded - d)%nat in
      let body :=
        match d with
        | O => padded
        | S _ => (string_take k padded ++ "." ++ string_drop k padded)%string
        end in
      if x <? 0 then String "-" body else body
  end.

(** [parseFloat(x.toFixed(d))]: the double nearest to what the printed
    digits denote. *)
Definition roundTo (d : nat) (x : float) : float :=
  match fixed_range x with
  | None => x
  | Some v =>
      match toFixed_scaled d v with
      | Zpos n =>
          let r := of_ratio n (Z.to_pos (10 ^ Z.of_nat d)) in
          if x <? 0 then - r else r
      | _ => if x <? 0 then (-0) else 0
      end
  end.

Local Close Scope float_scope.

(** [s.split(sep)] for a separator of one character. *)
Fixpoint split (sep : ascii) (s : string) : list string :=
  match s with
  | EmptyString => [EmptyString]
  | String c r =>
      if Ascii.eqb c sep then EmptyString :: split sep r
      else match split sep r with
           | [] => [String c EmptyString]
           | h :: t => String c h :: t
           end
  end.

(** [array.pop()]: the last element, [undefined] on an empty array. *)
Fixpoint pop (l : list string) : option string :=
  match l with
  | [] => None
  | [x] => Some x
  | _ :: r => pop r
  end.

Definition is_digit (c : ascii) : bool :=
  let n := nat_of_ascii c in (48 <=? n)%nat && (n <=? 57)%nat.

Definition is_space (c : ascii) : bool :=
  let n := nat_of_ascii c in
  (n =? 32)%nat || ((9 <=? n)%nat && (n <=? 13)%nat).

Fixpoint skip_spaces (s : string) : string :=
  match s with
  | String c r => if is_space c then skip_spaces r else s
  | EmptyString => s
  end.

Fixpoint take_digits (s : string) : string :=
  match s with
  | String c r => if is_digit c then String c (take_digits r) else EmptyString
  | EmptyString => EmptyString
  end.

Definition hex_value (c : ascii) : option Z :=
  let n := nat_of_ascii c in
  if (48 <=? n)%nat && (n <=? 57)%nat then Some (Z.of_nat (n - 48))
  else if (65 <=? n)%nat && (n <=? 70)%nat then Some (Z.of_nat (n - 55))
  else if (97 <=? n)%nat && (n <=? 102)%nat then Some (Z.of_nat (n - 87))
  else None.

Fixpoint parse_hex (s : string) (acc : option Z) : option Z :=
  match s with
  | String c r =>
      match hex_value c with
      | Some v =>
          parse_hex r (Some (16 * match acc with Some a => a | None => 0 end + v)%Z)
      | None => acc
      end
  | EmptyString => acc
  end.

Definition has_hex_prefix (s : string) : bool :=
  match s with
  | String c1 (String c2 _) =>
      Ascii.eqb c1 "0" && (Ascii.eqb c2 "x" || Ascii.eqb c2 "X")
  | _ => false
  end.

(** The magnitude read by [parseInt] without a radix: hexadecimal after a
    [0x] prefix, otherwise the longest prefix of decimal digits; [None] is
    [NaN]. *)
Definition parse_magnitude (s : string) : option Z :=
  if has_hex_prefix s then parse_hex (string_drop 2 s) None
  else
    let ds := take_digits s in
    if String.eqb ds EmptyString then None
    else
      match NilEmpty.uint_of_string ds with
      | Some u => Some (Z.of_N (N.of_uint u))
      | None => None
      end.

(** [parseInt(s)], with [undefined] (printed as a word without digits)
    giving [NaN]. *)
Definition parseInt (s : option string) : option Z :=
  match s with
  | None => None
  | Some s =>
      match skip_spaces s with
      | String "-" r => option_map Z.opp (parse_magnitude r)
      | String "+" r => parse_magnitude r
      | r => parse_magnitude r
      end
  end.

(** A comparator returns a number or [NaN] ([None]); [Array.prototype.sort]
    moves [a] behind [b] only when [compare(a, b) > 0]. *)
Definition positive (v : option Q) : bool :=
  match v with
  | Some q => negb (Qle_bool q 0)
  | None => false
  end.

(** [Array.prototype.sort(compare)].  ECMAScript requires the sort to be
    stable, so for a consistent comparator the result is the one stable
    sorted arrangement of the array, which insertion computes. *)
Fixpoint sort_insert {A} (compare : A -> A -> option Q) (x : A) (l : list A)
  : list A :=
  match l with
  | [] => [x]
  | y :: r =>
      if positive (compare x y) then y :: sort_insert compare x r
      else x :: l
  end.

Fixpoint sort {A} (compare : A -> A -> option Q) (l : list A) : list A :=
  match l with
  | [] => []
  | x :: r => sort_insert compare x (sort compare r)
  end.

(** The same for a comparator whose results are doubles. *)
Fixpoint sort_insert_numbers {A} (compare : A -> A -> float) (x : A)
    (l : list A) : list A :=
  match l with
  | [] => [x]
  | y :: r =>
      if gt (compare x y) 0 then y :: sort_insert_numbers compare x r
      else x :: l
  end.

Fixpoint sort_numbers {A} (compare : A -> A -> float) (l : list A) : list A :=
  match l with
  | [] => []
  | x :: r => sort_insert_numbers compare x (sort_numbers compare r)
  end.

(** [array.slice(0, n)]. *)
Definition slice0 {A} (n : nat) (l : list A) : list A := firstn n l.

End JS.

(* ================================================================== *)
(** * moment.js, for a process whose local zone is UTC *)
(* ================================================================== *)

Module Moment.

Local Open Scope Z_scope.

Definition msPerDay : Z := 86400000.

(** Days since the epoch of the first day of month [m] of year [y], and
    back (the proleptic Gregorian calendar). *)
Definition days_from_civil (y m d : Z) : Z :=
  let y' := if m <=? 2 then y - 1 else y in
  let era := y' / 400 in
  let yoe := y' - era * 400 in
  let mp := if 2 <? m then m - 3 else m + 9 in
  let doy := (153 * mp + 2) / 5 + d - 1 in
  let doe := yoe * 365 + yoe / 4 - yoe / 100 + doy in
  era * 146097 + doe - 719468.

Definition civil_from_days (z : Z) : Z * Z * Z :=
  let z' := z + 719468 in
  let era := z' / 146097 in
  let doe := z' - era * 146097 in
  let yoe := (doe - doe / 1460 + doe / 36524 - doe / 146096) / 365 in
  let doy := doe - (365 * yoe + yoe / 4 - yoe / 100) in
  let mp := (5 * doy + 2) / 153 in
  let d := doy - (153 * mp + 2) / 5 + 1 in
  let m := if mp <? 10 then mp + 3 else mp - 9 in
  let y := yoe + era * 400 in
  ((if m <=? 2 then y + 1 else y), m, d).

(** [moment(t).day()]: 0 is Sunday, 6 is Saturday. *)
Definition day (t : Z) : Z := (t / msPerDay + 4) mod 7.

Definition startOf_day (t : Z) : Z := t - t mod msPerDay.
Definition endOf_day (t : Z) : Z := startOf_day t + msPerDay - 1.

Definition startOf_month (t : Z) : Z :=
  let '(y, m, _) := civil_from_days (t / msPerDay) in
  days_from_civil y m 1 * msPerDay.

Definition endOf_month (t : Z) : Z :=
  let '(y, m, _) := civil_from_days (t / msPerDay) in
  let '(y', m') := if m =? 12 then (y + 1, 1) else (y, m + 1) in
  days_from_civil y' m' 1 * msPerDay - 1.

(** [moment(t).subtract(n, 'days')]. *)
Definition subtract_days (t n : Z) : Z := t - n * msPerDay.

(** [moment(a).diff(moment(b), 'days')]: whole days, truncated toward
    zero. *)
Definition diff_days (a b : Z) : Z := Z.quot (a - b) msPerDay.

End Moment.

(* ================================================================== *)
(** * [config/constants.js] *)
(* ================================================================== *)

Inductive NUDGE_TYPES : Set :=
| WEEKEND_SPENDING
| BUDGET_OVERAGE
| SPENDING_TREND
| STREAK_CELEBRATION
| CATEGORY_PATTERN
| SAVINGS_MILESTONE.

Inductive NUDGE_PRIORITY : Set := HIGH | MEDIUM | LOW.

Definition NUDGE_TYPES_value (t : NUDGE_TYPES) : string :=
  match t with
  | WEEKEND_SPENDING => "weekend_spending"
  | BUDGET_OVERAGE => "budget_overage"
  | SPENDING_TREND => "spending_trend"
  | STREAK_CELEBRATION => "streak_celebration"
  | CATEGORY_PATTERN => "category_pattern"
  | SAVINGS_MILESTONE => "savings_milestone"
  end.

Definition NUDGE_PRIORITY_value (p : NUDGE_PRIORITY) : string :=
  match p with
  | HIGH => "high"
  | MEDIUM => "medium"
  | LOW => "low"
  end.

Definition NUDGE_TYPES_eqb (a b : NUDGE_TYPES) : bool :=
  String.eqb (NUDGE_TYPES_value a) (NUDGE_TYPES_value b).

(* ================================================================== *)
(** * Documents of the store and records of the engine *)
(* ================================================================== *)

Definition ObjectId : Set := string.

(** [models/Category.js]; an absent [monthlyBudget] is [None]. *)
Module Category.
Record t : Set := mk {
  _id : ObjectId;
  userId : ObjectId;
  name : string;
  color : string;
  monthlyBudget : option float;
  isActive : bool
}.
End Category.

(** What [populate('categoryId', 'name color')] leaves in an expense. *)
Module CategoryRef.
Record t : Set := mk {
  _id : ObjectId;
  name : string;
  color : string
}.
End CategoryRef.

(** [models/Expense.js], over the type of the [categoryId] field: an
    [ObjectId] in the collection, a populated reference (or [null]) in a
    query result. *)
Module Expense.
Record t (C : Set) : Set := mk {
  userId : ObjectId;
  amount : float;
  categoryId : C;
  date : Z;
  isActive : bool
}.
End Expense.

Definition StoredExpense : Set := Expense.t ObjectId.
Definition GatheredExpense : Set := Expense.t (option CategoryRef.t).

(** [models/User.js], the fields the engine reads. *)
Module User.
Record streak_t : Set := mkStreak {
  current : Z;
  longest : Z;
  lastActiveDate : option Z
}.
Record t : Set := mk {
  _id : ObjectId;
  streak : streak_t
}.
End User.

Module Store.
Record t : Set := mk {
  expenses : list StoredExpense;
  categories : list Category.t;
  users : list User.t
}.
End Store.

(** The [metadata] object of a nudge, one shape per place that builds it;
    a field that a place leaves out is [None]. *)
Inductive Metadata : Set :=
| WeekendMeta (ratio weekendAvg weekdayAvg : float)
| BudgetMeta (categoryId categoryName : string)
    (budget spent percentage : float)
    (remainingDays : option Z)
| TrendMeta
    (currentPeriodTotal previousPeriodTotal changePercentage : float)
| StreakMeta (streakDays : Z) (personalBest : option bool)
| SmallPurchasesMeta (categoryId categoryName : string) (count : nat)
    (totalAmount : float)
| SpikeMeta (categoryId categoryName : string)
    (largestExpense medianExpense : float).

Module Nudge.
Record t : Set := mk {
  id : string;
  type : NUDGE_TYPES;
  title : string;
  message : string;
  priority : NUDGE_PRIORITY;
  actionable : bool;
  promptTemplate : string;
  metadata : Metadata
}.
End Nudge.

Module SpendingPatterns.
Record t : Set := mk {
  isIncreasing : bool;
  trend : string;
  changePercentage : float;
  currentPeriod : float;
  previousPeriod : float
}.
End SpendingPatterns.

Module CategoryAlert.
Record t : Set := mk {
  categoryId : ObjectId;
  name : string;
  spent : float;
  budget : float;
  percentage : float;
  overBudget : bool
}.
End CategoryAlert.

Module Insights.
Record t : Set := mk {
  spendingPatterns : SpendingPatterns.t;
  categoryAlerts : list CategoryAlert.t;
  streakInfo : User.streak_t
}.
End Insights.

Module Period.
Record t : Set := mk { start : Z; end_ : Z }.
End Period.

Module InsightResult.
Record t : Set := mk {
  nudges : list Nudge.t;
  insights : Insights.t;
  period : Period.t
}.
End InsightResult.

(* ================================================================== *)
(** * Computations: the wall clock, the store, and exceptions *)
(* ================================================================== *)

Inductive Error : Set :=
| StoreError (query : nat)   (* the rejection of the given store query *)
| TypeError.                 (* a property read on [null] *)

Inductive Result (A : Type) : Type :=
| Ok (a : A)
| Throw (e : Error).

Arguments Ok {A} a.
Arguments Throw {A} e.

(** How many times the clock has been read and the store queried. *)
Record World : Set := mkWorld { reads : nat; queries : nat }.

Definition M (A : Type) : Type := World -> Result A * World.

Definition ret {A} (a : A) : M A := fun w => (Ok a, w).

Definition throw {A} (e : Error) : M A := fun w => (Throw e, w).

Definition bind {A B} (c : M A) (k : A -> M B) : M B :=
  fun w =>
    match c w with
    | (Ok a, w') => k a w'
    | (Throw e, w') => (Throw e, w')
    end.

Notation "x <- c ;; k" := (bind c (fun x => k))
  (at level 61, c at next level, right associativity).

(** [for (const x of xs) { ... nudges.push(...) }]: the elements pushed by
    each turn of the loop, in order; a throw abandons the loop. *)
Fixpoint for_of {A B} (xs : list A) (body : A -> M (list B)) : M (list B) :=
  match xs with
  | [] => ret []
  | x :: r =>
      pushed <- body x ;;
      more <- for_of r body ;;
      ret (pushed ++ more)
  end.

(** [await Promise.all([a, b])]: both computations are started; the first
    rejection, if any, is thrown. *)
Definition Promise_all2 {A B} (a : M A) (b : M B) : M (A * B) :=
  fun w =>
    let '(ra, w1) := a w in
    let '(rb, w2) := b w1 in
    match ra, rb with
    | Ok x, Ok y => (Ok (x, y), w2)
    | Throw e, _ => (Throw e, w2)
    | _, Throw e => (Throw e, w2)
    end.

Definition Promise_all3 {A B C} (a : M A) (b : M B) (c : M C)
  : M (A * B * C) :=
  fun w =>
    let '(ra, w1) := a w in
    let '(rb, w2) := b w1 in
    let '(rc, w3) := c w2 in
    match ra, rb, rc with
    | Ok x, Ok y, Ok z => (Ok (x, y, z), w3)
    | Throw e, _, _ => (Throw e, w3)
    | _, Throw e, _ => (Throw e, w3)
    | _, _, Throw e => (Throw e, w3)
    end.

(* ================================================================== *)
(** * [services/aiService.js] *)
(* ================================================================== *)

Section AIService.

(** The environment of a request: [clock n] is what the [n]-th reading of
    the wall clock gives, [outage n] tells whether the [n]-th store query is
    rejected, [db] is the content of the collections (the engine only reads
    it), and [Document_toString] is Mongoose's [toString] on a populated
    sub-document. *)
Variable clock : nat -> Z.
Variable outage : nat -> bool.
Variable db : Store.t.
Variable Document_toString : CategoryRef.t -> string.

Local Open Scope float_scope.
Local Open Scope string_scope.

(** [Date.now()] and [moment()]. *)
Definition Date_now : M Z :=
  fun w => (Ok (clock (reads w)), mkWorld (S (reads w)) (queries w)).

Definition moment_now : M Z := Date_now.

(** A store query with the given answer. *)
Definition query {A} (answer : A) : M A :=
  fun w =>
    let w' := mkWorld (reads w) (S (queries w)) in
    if outage (queries w) then (Throw (StoreError (queries w)), w')
    else (Ok answer, w').

Definition in_range (startDate endDate d : Z) : bool :=
  ((startDate <=? d) && (d <=? endDate))%Z.

Definition populate (e : StoredExpense) : GatheredExpense :=
  let ref :=
    match
      find (fun c => Category._id c =? Expense.categoryId e)
        (Store.categories db)
    with
    | Some c =>
        Some (CategoryRef.mk (Category._id c) (Category.name c)
                (Category.color c))
    | None => None
    end in
  Expense.mk (Expense.userId e) (Expense.amount e) ref (Expense.date e)
    (Expense.isActive e).

(** [Expense.aggregate([{ $match }, { $group: { _id: null, total: { $sum:
    '$amount' } } }])]: no group when nothing matches. *)
Definition aggregate_total (matches : StoredExpense -> bool) : list float :=
  match filter matches (Store.expenses db) with
  | [] => []
  | docs => [JS.reduce_sum (@Expense.amount _) docs]
  end.

Definition Expense_aggregate_total (matches : StoredExpense -> bool)
  : M (list float) :=
  query (aggregate_total matches).

(** [result[0]?.total || 0]. *)
Definition total_or_zero (result : list float) : float :=
  match result with
  | [] => 0
  | total :: _ => JS.or_zero total
  end.

(** ** Helper methods *)

(** The filters of the queries. *)
Definition expenseMatch (userId : ObjectId) (startDate endDate : Z)
    (e : StoredExpense) : bool :=
  (Expense.userId e =? userId) && Expense.isActive e
  && in_range startDate endDate (Expense.date e).

Definition categoryExpenseMatch (userId categoryId : ObjectId)
    (startDate endDate : Z) (e : StoredExpense) : bool :=
  (Expense.userId e =? userId) && (Expense.categoryId e =? categoryId)
  && Expense.isActive e
  && in_range startDate endDate (Expense.date e).

Definition categoryMatch (userId : ObjectId) (c : Category.t) : bool :=
  (Category.userId c =? userId) && Category.isActive c.

Definition getUserExpenses (userId : ObjectId) (startDate endDate : Z)
  : M (list GatheredExpense) :=
  query
    (map populate
       (filter (expenseMatch userId startDate endDate) (Store.expenses db))).

Definition getUserCategories (userId : ObjectId) : M (list Category.t) :=
  query (filter (categoryMatch userId) (Store.categories db)).

Definition getUserInfo (userId : ObjectId) : M (option User.t) :=
  query (find (fun u => User._id u =? userId) (Store.users db)).

Definition getTotalSpending (userId : ObjectId) (startDate endDate : Z)
  : M float :=
  result <-
    Expense_aggregate_total (expenseMatch userId startDate endDate) ;;
  ret (total_or_zero result).

Definition getCategorySpending (userId categoryId : ObjectId)
    (startDate endDate : Z) : M float :=
  result <-
    Expense_aggregate_total
      (categoryExpenseMatch userId categoryId startDate endDate) ;;
  ret (total_or_zero result).

Definition getCategorySpendingThisMonth (userId categoryId : ObjectId)
  : M float :=
  now1 <- moment_now ;;
  let startOfMonth := Moment.startOf_month now1 in
  now2 <- moment_now ;;
  let endOfMonth := Moment.endOf_month now2 in
  getCategorySpending userId categoryId startOfMonth endOfMonth.

(** ** Weekend spending *)

Definition isWeekend (e : GatheredExpense) : bool :=
  let dayOfWeek := Moment.day (Expense.date e) in
  ((dayOfWeek =? 0) || (dayOfWeek =? 6))%Z.

Definition isWeekday (e : GatheredExpense) : bool :=
  let dayOfWeek := Moment.day (Expense.date e) in
  ((1 <=? dayOfWeek) && (dayOfWeek <=? 5))%Z.

(** [l.reduce((sum, e) => sum + e.amount, 0) / l.length]. *)
Definition average (l : list GatheredExpense) : float :=
  JS.reduce_sum (@Expense.amount _) l / JS.of_Z (Z.of_nat (List.length l)).

Definition detectWeekendSpending (userId : ObjectId)
    (expenses : list GatheredExpense) : M (option Nudge.t) :=
  let weekendExpenses := filter isWeekend expenses in
  let weekdayExpenses := filter isWeekday expenses in
  if ((List.length weekendExpenses =? 0) || (List.length weekdayExpenses =? 0))%nat
  then ret None
  else
    let weekendAvg := average weekendExpenses in
    let weekdayAvg := average weekdayExpenses in
    let ratio := weekendAvg / weekdayAvg in
    if JS.gt ratio 1.8 then
      now <- Date_now ;;
      ret (Some
        (Nudge.mk
           ("weekend_spending_" ++ JS.Number_toString now)
           WEEKEND_SPENDING
           "Weekend Spending Alert"
           ("Your weekend spending is " ++ JS.toFixed 1 ratio
            ++ "× weekday average — try a low-cost activity or set a ₹"
            ++ JS.Double_toString (JS.Math_round_double weekendAvg)
            ++ " limit this weekend.")
           (if JS.gt ratio 2.5 then HIGH else MEDIUM)
           true
           "User weekend spending is {ratio}× weekday. Give 1 friendly 20–30 word actionable suggestion to reduce weekend expenses without sacrificing enjoyment."
           (WeekendMeta (JS.roundTo 2 ratio) (JS.roundTo 2 weekendAvg)
              (JS.roundTo 2 weekdayAvg))))
    else ret None.

(** ** Budget overspending *)

(** One turn of the loop of [detectBudgetOverspend]: what it pushes. *)
Definition budgetNudgesFor (userId : ObjectId) (category : Category.t)
  : M (list Nudge.t) :=
  match Category.monthlyBudget category with
  | None => ret []
  | Some monthlyBudget =>
      if JS.falsy monthlyBudget || JS.le monthlyBudget 0 then ret []
      else
        spentThisMonth <-
          getCategorySpendingThisMonth userId (Category._id category) ;;
        let percentage := spentThisMonth / monthlyBudget * 100 in
        if JS.ge percentage 100 then
          now <- Date_now ;;
          ret [Nudge.mk
                 ("budget_overage_" ++ Category._id category ++ "_"
                  ++ JS.Number_toString now)
                 BUDGET_OVERAGE
                 (Category.name category ++ " Budget Exceeded")
                 ("You've exceeded your " ++ Category.name category
                  ++ " budget by "
                  ++ JS.Double_toString
                       (JS.Math_round_double (percentage - 100))
                  ++ "%. Pause non-essentials & reallocate funds.")
                 HIGH
                 true
                 "User exceeded {category} budget by {percentage}%. Provide 1 encouraging 20–30 word suggestion for getting back on track this month."
                 (BudgetMeta (Category._id category) (Category.name category)
                    monthlyBudget spentThisMonth (JS.roundTo 1 percentage)
                    None)]
        else if JS.ge percentage 80 then
          now1 <- moment_now ;;
          now2 <- moment_now ;;
          let remainingDays :=
            Moment.diff_days (Moment.endOf_month now1) now2 in
          let dailyAverageAllowed :=
            (monthlyBudget - spentThisMonth)
            / JS.of_Z (Z.max 1 remainingDays) in
          now <- Date_now ;;
          ret [Nudge.mk
                 ("budget_warning_" ++ Category._id category ++ "_"
                  ++ JS.Number_toString now)
                 BUDGET_OVERAGE
                 (Category.name category ++ " Budget Warning")
                 ("You're approaching your " ++ Category.name category
                  ++ " budget limit. ₹"
                  ++ JS.Double_toString
                       (JS.Math_round_double (monthlyBudget - spentThisMonth))
                  ++ " remaining for " ++ JS.Number_toString remainingDays
                  ++ " days.")
                 MEDIUM
                 true
                 "User approaching {category} budget limit with {remaining} remaining for {days} days. Give 1 preventive 20–30 word spending tip."
                 (BudgetMeta (Category._id category) (Category.name category)
                    monthlyBudget spentThisMonth (JS.roundTo 1 percentage)
                    (Some remainingDays))]
        else ret []
  end.

Definition detectBudgetOverspend (userId : ObjectId)
    (categories : list Category.t) (startDate endDate : Z)
  : M (list Nudge.t) :=
  for_of categories (budgetNudgesFor userId).

(** ** Spending trend, for a nudge *)

Definition previousPeriodStart (startDate endDate : Z) : Z :=
  Moment.subtract_days startDate (Moment.diff_days endDate startDate).

Definition previousPeriodEnd (startDate : Z) : Z :=
  Moment.subtract_days startDate 1.

Definition changeOf (currentPeriodTotal previousPeriodTotal : float) : float :=
  (currentPeriodTotal - previousPeriodTotal) / previousPeriodTotal * 100.

Definition analyzeSpendingTrendsForNudge (userId : ObjectId)
    (startDate endDate : Z) : M (option Nudge.t) :=
  totals <-
    Promise_all2
      (getTotalSpending userId startDate endDate)
      (getTotalSpending userId (previousPeriodStart startDate endDate)
         (previousPeriodEnd startDate)) ;;
  let '(currentPeriodTotal, previousPeriodTotal) := totals in
  if JS.strict_eq previousPeriodTotal 0 then ret None
  else
    let changePercentage := changeOf currentPeriodTotal previousPeriodTotal in
    if JS.lt (JS.Math_abs changePercentage) 15 then ret None
    else if JS.gt changePercentage 15 then
      now <- Date_now ;;
      ret (Some
        (Nudge.mk
           ("spending_increase_" ++ JS.Number_toString now)
           SPENDING_TREND
           "Spending Increasing"
           ("Your spending increased "
            ++ JS.Double_toString (JS.Math_round_double changePercentage)
            ++ "% this period. Review your largest expenses and consider cutting back.")
           MEDIUM
           true
           "User spending increased {percentage}% this month. Provide 1 friendly 20–30 word actionable suggestion to control expenses."
           (TrendMeta (JS.roundTo 2 currentPeriodTotal)
              (JS.roundTo 2 previousPeriodTotal)
              (JS.roundTo 1 changePercentage))))
    else if JS.lt changePercentage (-10) then
      now <- Date_now ;;
      ret (Some
        (Nudge.mk
           ("spending_decrease_" ++ JS.Number_toString now)
           SPENDING_TREND
           "Great Job!"
           ("Great job! You reduced spending by "
            ++ JS.Double_toString
                 (JS.Math_abs (JS.Math_round_double changePercentage))
            ++ "% this month. Keep up the good work!")
           LOW
           false
           "User reduced spending by {percentage}% this month. Give 1 congratulatory 20–30 word message that encourages continued good habits."
           (TrendMeta (JS.roundTo 2 currentPeriodTotal)
              (JS.roundTo 2 previousPeriodTotal)
              (JS.roundTo 1 changePercentage))))
    else ret None.

(** ** Streak and motivation *)

Definition generateMotivationalNudges (user : option User.t)
  : M (list Nudge.t) :=
  match user with
  | None => throw TypeError
  | Some u =>
      let current := User.current (User.streak u) in
      let longest := User.longest (User.streak u) in
      milestone <-
        (if (current =? 7)%Z then
           now <- Date_now ;;
           ret [Nudge.mk
                  ("streak_7_" ++ JS.Number_toString now)
                  STREAK_CELEBRATION
                  "🔥 7-Day Streak!"
                  "7-day streak! You're building a great habit of tracking expenses consistently."
                  LOW
                  false
                  "User achieved 7-day expense tracking streak. Provide 1 encouraging 20–30 word message about building good financial habits."
                  (StreakMeta current None)]
         else ret []) ;;
      personalBest <-
        (if ((current =? longest) && (longest - 1 <? current)
             && (0 <? current))%Z then
           now <- Date_now ;;
           ret [Nudge.mk
                  ("personal_best_" ++ JS.Number_toString now)
                  STREAK_CELEBRATION
                  "🎉 New Personal Record!"
                  ("New personal record: " ++ JS.Number_toString current
                   ++ " days! Consistency is key to financial success.")
                  LOW
                  false
                  "User achieved new personal record of {streak} days tracking expenses. Provide 1 motivational 20–30 word message about consistency."
                  (StreakMeta current (Some true))]
         else ret []) ;;
      ret (milestone ++ personalBest)%list
  end.

(** ** Category patterns *)

(** [categoryExpenses[categoryId].push(expense)], the keys of the object
    kept in the order of their insertion (the order in which
    [Object.entries] lists keys that are not array indices). *)
Fixpoint group_push (key : string) (e : GatheredExpense)
    (groups : list (string * list GatheredExpense))
  : list (string * list GatheredExpense) :=
  match groups with
  | [] => [(key, [e])]
  | (k, es) :: r =>
      if k =? key then (k, (es ++ [e])%list) :: r
      else (k, es) :: group_push key e r
  end.

(** The [forEach] that fills [categoryExpenses]; [toString] on a [null]
    reference throws. *)
Definition groupByCategory (expenses : list GatheredExpense)
  : Result (list (string * list GatheredExpense)) :=
  fold_left
    (fun acc expense =>
       match acc with
       | Throw err => Throw err
       | Ok groups =>
           match Expense.categoryId expense with
           | None => Throw TypeError
           | Some ref => Ok (group_push (Document_toString ref) expense groups)
           end
       end)
    expenses (Ok []).

Definition descending (a b : float) : float := b - a.

Definition smallPurchasesNudge (categoryId : string) (category : Category.t)
    (categoryExpenseList : list GatheredExpense) : M (list Nudge.t) :=
  let smallPurchases :=
    filter (fun e => JS.lt (Expense.amount e) 200) categoryExpenseList in
  if (10 <=? List.length smallPurchases)%nat then
    let totalSmall := JS.reduce_sum (@Expense.amount _) smallPurchases in
    now <- Date_now ;;
    ret [Nudge.mk
           ("small_purchases_" ++ categoryId ++ "_" ++ JS.Number_toString now)
           CATEGORY_PATTERN
           (Category.name category ++ " Small Purchases")
           ("You made "
            ++ JS.Number_toString (Z.of_nat (List.length smallPurchases))
            ++ " small purchases in " ++ Category.name category
            ++ " totaling ₹"
            ++ JS.Double_toString (JS.Math_round_double totalSmall)
            ++ ". Consider bundling or setting a weekly limit.")
           MEDIUM
           true
           "User made {count} small purchases in {category} totaling {amount}. Provide 1 practical 20–30 word tip to manage frequent small expenses."
           (SmallPurchasesMeta categoryId (Category.name category)
              (List.length smallPurchases) (JS.roundTo 2 totalSmall))]
  else ret [].

Definition spikeNudge (categoryId : string) (category : Category.t)
    (categoryExpenseList : list GatheredExpense) : M (list Nudge.t) :=
  let amounts :=
    JS.sort_numbers descending
      (map (@Expense.amount _) categoryExpenseList) in
  if (3 <=? List.length amounts)%nat then
    let median := nth (List.length amounts / 2) amounts JS.NaN in
    let largest := nth 0 amounts JS.NaN in
    if JS.gt largest (median * 5) then
      now <- Date_now ;;
      ret [Nudge.mk
             ("unusual_spike_" ++ categoryId ++ "_" ++ JS.Number_toString now)
             CATEGORY_PATTERN
             (Category.name category ++ " Spending Spike")
             ("Unusual spending detected in " ++ Category.name category
              ++ ". Was this planned, or should you review these expenses?")
             MEDIUM
             true
             "User has unusual spending spike in {category} with largest expense {amount}. Provide 1 thoughtful 20–30 word question to help them review."
             (SpikeMeta categoryId (Category.name category)
                (JS.roundTo 2 largest) (JS.roundTo 2 median))]
    else ret []
  else ret [].

(** One turn of the loop over [Object.entries(categoryExpenses)]. *)
Definition categoryPatternNudgesFor (categories : list Category.t)
    (entry : string * list GatheredExpense) : M (list Nudge.t) :=
  let '(categoryId, categoryExpenseList) := entry in
  match find (fun c => Category._id c =? categoryId) categories with
  | None => ret []
  | Some category =>
      small <- smallPurchasesNudge categoryId category categoryExpenseList ;;
      spike <- spikeNudge categoryId category categoryExpenseList ;;
      ret (small ++ spike)%list
  end.

Definition detectCategoryPatterns (userId : ObjectId)
    (expenses : list GatheredExpense) (categories : list Category.t)
  : M (list Nudge.t) :=
  match groupByCategory expenses with
  | Throw err => throw err
  | Ok categoryExpenses =>
      for_of categoryExpenses (categoryPatternNudgesFor categories)
  end.

(** ** Savings milestones *)

Definition detectSavingsMilestones (userId : ObjectId) : M (list Nudge.t) :=
  ret [].

(** ** All nudges *)

(** One step of the [try] block of [generateAllNudges]: the evaluator runs
    and its nudges are pushed; if it throws, the [catch] logs the error and
    the method returns the array as it stands. *)
Definition push_or_catch (evaluator : M (list Nudge.t))
    (rest : list Nudge.t -> M (list Nudge.t)) (nudges : list Nudge.t)
  : M (list Nudge.t) :=
  fun w =>
    match evaluator w with
    | (Ok pushed, w') => rest (nudges ++ pushed)%list w'
    | (Throw _, w') => (Ok nudges, w')
    end.

Definition option_to_list {A} (o : M (option A)) : M (list A) :=
  x <- o ;;
  ret (match x with Some a => [a] | None => [] end).

Definition generateAllNudges (userId : ObjectId)
    (expenses : list GatheredExpense) (categories : list Category.t)
    (user : option User.t) (startDate endDate : Z) : M (list Nudge.t) :=
  push_or_catch (option_to_list (detectWeekendSpending userId expenses))
   (push_or_catch (detectBudgetOverspend userId categories startDate endDate)
     (push_or_catch
        (option_to_list
           (analyzeSpendingTrendsForNudge userId startDate endDate))
       (push_or_catch (generateMotivationalNudges user)
         (push_or_catch (detectCategoryPatterns userId expenses categories)
           (push_or_catch (detectSavingsMilestones userId)
              (fun nudges => ret nudges))))))
   [].

(** ** Prioritisation *)

Definition priorityOrder (p : NUDGE_PRIORITY) : Z :=
  match p with
  | HIGH => 1
  | MEDIUM => 2
  | LOW => 3
  end.

(** [priorityOrder[n.priority] || 3]. *)
Definition priorityRank (n : Nudge.t) : Z :=
  let v := priorityOrder (Nudge.priority n) in
  if (v =? 0)%Z then 3%Z else v.

(** [parseInt(n.id.split('_').pop())]. *)
Definition idStamp (n : Nudge.t) : option Z :=
  JS.parseInt (JS.pop (JS.split "_" (Nudge.id n))).

Definition compareNudges (a b : Nudge.t) : option Q :=
  let priorityA := priorityRank a in
  let priorityB := priorityRank b in
  if negb (priorityA =? priorityB)%Z then
    Some (inject_Z (priorityA - priorityB))
  else
    match idStamp b, idStamp a with
    | Some tb, Some ta => Some (inject_Z (tb - ta))
    | _, _ => None
    end.

Definition prioritizeNudges (nudges : list Nudge.t) : list Nudge.t :=
  JS.sort compareNudges nudges.

(** ** Spending trend, for the insight bundle *)

Definition analyzeSpendingTrends (userId : ObjectId) (startDate endDate : Z)
  : M SpendingPatterns.t :=
  currentPeriodTotal <- getTotalSpending userId startDate endDate ;;
  previousPeriodTotal <-
    getTotalSpending userId (previousPeriodStart startDate endDate)
      (previousPeriodEnd startDate) ;;
  let '(trend, changePercentage) :=
    if JS.gt previousPeriodTotal 0 then
      let changePercentage :=
        changeOf currentPeriodTotal previousPeriodTotal in
      if JS.gt changePercentage 5 then ("up", changePercentage)
      else if JS.lt changePercentage (-5) then ("down", changePercentage)
      else ("stable", changePercentage)
    else ("stable", 0) in
  ret (SpendingPatterns.mk (trend =? "up") trend
         (JS.roundTo 1 changePercentage)
         (JS.roundTo 2 currentPeriodTotal)
         (JS.roundTo 2 previousPeriodTotal)).

(** ** Category alerts *)

Definition categoryAlertsFor (userId : ObjectId) (startDate endDate : Z)
    (category : Category.t) : M (list CategoryAlert.t) :=
  match Category.monthlyBudget category with
  | None => ret []
  | Some monthlyBudget =>
      if JS.falsy monthlyBudget || JS.le monthlyBudget 0 then ret []
      else
        spent <-
          getCategorySpending userId (Category._id category) startDate
            endDate ;;
        let percentage := spent / monthlyBudget * 100 in
        if JS.ge percentage 100 then
          ret [CategoryAlert.mk (Category._id category)
                 (Category.name category) (JS.roundTo 2 spent) monthlyBudget
                 (JS.roundTo 1 percentage) true]
        else if JS.ge percentage 80 then
          ret [CategoryAlert.mk (Category._id category)
                 (Category.name category) (JS.roundTo 2 spent) monthlyBudget
                 (JS.roundTo 1 percentage) false]
        else ret []
  end.

Definition analyzeCategorySpending (userId : ObjectId)
    (categories : list Category.t) (startDate endDate : Z)
  : M (list CategoryAlert.t) :=
  for_of categories (categoryAlertsFor userId startDate endDate).

(** ** The entry point *)

(** The outer [try { ... } catch (error) { console.error(...); throw error }]
    rethrows what it catches, so it leaves the computation as it is. *)
Definition generateInsights (userId : ObjectId) (startDate endDate : option Z)
  : M InsightResult.t :=
  startDate <-
    match startDate with
    | Some d => ret d
    | None =>
        now <- moment_now ;;
        ret (Moment.startOf_day (Moment.subtract_days now 30))
    end ;;
  endDate <-
    match endDate with
    | Some d => ret d
    | None =>
        now <- moment_now ;;
        ret (Moment.endOf_day now)
    end ;;
  gathered <-
    Promise_all3
      (getUserExpenses userId startDate endDate)
      (getUserCategories userId)
      (getUserInfo userId) ;;
  let '(expenses, categories, user) := gathered in
  nudges <-
    generateAllNudges userId expenses categories user startDate endDate ;;
  spendingPatterns <- analyzeSpendingTrends userId startDate endDate ;;
  categoryAlerts <-
    analyzeCategorySpending userId categories startDate endDate ;;
  streakInfo <-
    match user with
    | Some u => ret (User.streak u)
    | None => throw TypeError
    end ;;
  let insights := Insights.mk spendingPatterns categoryAlerts streakInfo in
  let prioritizedNudges := JS.slice0 5 (prioritizeNudges nudges) in
  ret (InsightResult.mk prioritizedNudges insights
         (Period.mk startDate endDate)).

End AIService.

(* ================================================================== *)
(** * Vocabulary of the statements *)
(* ================================================================== *)

Fixpoint startsWith (p s : string) : bool :=
  match p, s with
  | EmptyString, _ => true
  | String c p', String d s' => Ascii.eqb c d && startsWith p' s'
  | String _ _, EmptyString => false
  end.

(** Which place of the service built a nudge shows in the word its [id]
    starts with; the [type] field is coarser (see [NUDGE_TYPES]). *)
Definition hasIdPrefix (p : string) (n : Nudge.t) : bool :=
  startsWith p (Nudge.id n).

Definition isBudgetOverage : Nudge.t -> bool := hasIdPrefix "budget_overage_".
Definition isBudgetWarning : Nudge.t -> bool := hasIdPrefix "budget_warning_".
Definition isTrendUp : Nudge.t -> bool := hasIdPrefix "spending_increase_".
Definition isTrendDown : Nudge.t -> bool := hasIdPrefix "spending_decrease_".
Definition isStreakMilestone : Nudge.t -> bool := hasIdPrefix "streak_7_".
Definition isPersonalBest : Nudge.t -> bool := hasIdPrefix "personal_best_".
Definition isSmallPurchases : Nudge.t -> bool :=
  hasIdPrefix "small_purchases_".
Definition isSpendingSpike : Nudge.t -> bool := hasIdPrefix "unusual_spike_".

(** The category a nudge is about, when its metadata names one. *)
Definition metadataCategory (n : Nudge.t) : option string :=
  match Nudge.metadata n with
  | BudgetMeta c _ _ _ _ _ => Some c
  | SmallPurchasesMeta c _ _ _ => Some c
  | SpikeMeta c _ _ _ => Some c
  | _ => None
  end.

Definition aboutCategory (categoryId : string) (n : Nudge.t) : bool :=
  match metadataCategory n with
  | Some c => String.eqb c categoryId
  | None => false
  end.

(** The identifier ends in an underscore followed by a printed stamp. *)
Definition stamped (n : Nudge.t) : Prop :=
  exists p t, Nudge.id n = (p ++ "_" ++ JS.Number_toString t)%string.

(** The order of the prioritised list: by rank, then the later stamp
    first. *)
Definition precedes (a b : Nudge.t) : Prop :=
  (priorityRank a < priorityRank b)%Z
  \/ (priorityRank a = priorityRank b
      /\ exists ta tb,
           idStamp a = Some ta /\ idStamp b = Some tb /\ (tb <= ta)%Z).

Definition byRank (a b : Nudge.t) : Prop :=
  (priorityRank a <= priorityRank b)%Z.

(** The nudges of one rank and one stamp. *)
Definition sameKey (rank stamp : Z) (n : Nudge.t) : bool :=
  (priorityRank n =? rank)%Z
  && match idStamp n with
     | Some t => (t =? stamp)%Z
     | None => false
     end.

(** The prioritisation as the specification words it: a stable sort on the
    rank alone, nudges of one rank in the reverse of the order in which
    they were built. *)
Definition rankOnly (a b : Nudge.t) : option Q :=
  Some (inject_Z (priorityRank a - priorityRank b)).

Definition specPrioritize (nudges : list Nudge.t) : list Nudge.t :=
  JS.sort rankOnly (rev nudges).

(** Strings without the separator, and strings of decimal digits. *)
Fixpoint free_of (sep : ascii) (s : string) : Prop :=
  match s with
  | EmptyString => True
  | String c r => Ascii.eqb c sep = false /\ free_of sep r
  end.

Fixpoint all_digits (s : string) : Prop :=
  match s with
  | EmptyString => True
  | String c r => JS.is_digit c = true /\ all_digits r
  end.

(** An expense counts for a user in a window when it is the user's, is
    active and is dated within the window, both ends included. *)
Definition countsIn (userId : ObjectId) (startDate endDate : Z)
    (x : StoredExpense) : bool :=
  String.eqb (Expense.userId x) userId
  && Expense.isActive x
  && (startDate <=? Expense.date x)%Z
  && (Expense.date x <=? endDate)%Z.

(** The amounts that count for a user in a window, in the order of the
    collection, and those of them recorded against a category. *)
Definition amountsIn (db : Store.t) (userId : ObjectId)
    (startDate endDate : Z) : list float :=
  map (@Expense.amount _)
    (filter (countsIn userId startDate endDate) (Store.expenses db)).

Definition amountsOf (db : Store.t) (userId categoryId : ObjectId)
    (startDate endDate : Z) : list float :=
  map (@Expense.amount _)
    (filter
       (fun x =>
          countsIn userId startDate endDate x
          && String.eqb (Expense.categoryId x) categoryId)
       (Store.expenses db)).

(** The sum of amounts in doubles: added one after the other from 0, every
    sum rounded to the nearest double. *)
Definition sumOf (amounts : list float) : float :=
  fold_left PrimFloat.add amounts 0%float.

(** A total as the engine reads it: the sum, with 0 for a sum that is zero
    or no number. *)
Definition totalOf (amounts : list float) : float :=
  JS.or_zero (sumOf amounts).



(** Mongoose prints a document, as Node's [inspect] does, between braces;
    an [ObjectId] prints as 24 hexadecimal digits. *)
Definition printsDocuments (toString : CategoryRef.t -> string) : Prop :=
  forall ref, startsWith "{" (toString ref) = true.

Definition isHexDigit (c : ascii) : bool :=
  match JS.hex_value c with
  | Some _ => true
  | None => false
  end.

Fixpoint allHex (s : string) : bool :=
  match s with
  | EmptyString => true
  | String c r => isHexDigit c && allHex r
  end.

Definition isObjectId (s : string) : bool :=
  (String.length s =? 24)%nat && allHex s.

(** The evaluators in the order in which [generateAllNudges] calls them. *)
Definition evaluators (clock : nat -> Z) (outage : nat -> bool)
    (db : Store.t) (toString : CategoryRef.t -> string) (userId : ObjectId)
    (expenses : list GatheredExpense) (categories : list Category.t)
    (user : option User.t) (startDate endDate : Z)
  : list (M (list Nudge.t)) :=
  [ option_to_list (detectWeekendSpending clock userId expenses);
    detectBudgetOverspend clock outage db userId categories startDate endDate;
    option_to_list
      (analyzeSpendingTrendsForNudge clock outage db userId startDate endDate);
    generateMotivationalNudges clock user;
    detectCategoryPatterns clock toString userId expenses categories;
    detectSavingsMilestones userId ].

(** Running computations in turn up to the first that throws: the outputs
    of those that returned, whether all of them did, and the world
    reached. *)
Fixpoint runUntilThrow {A} (cs : list (M A)) (w : World)
  : list A * bool * World :=
  match cs with
  | [] => ([], true, w)
  | c :: r =>
      match c w with
      | (Ok o, w1) =>
          let '(os, complete, w2) := runUntilThrow r w1 in
          (o :: os, complete, w2)
      | (Throw _, w1) => ([], false, w1)
      end
  end.

(** The first steps of [generateInsights]: the dates, then the gather. *)
Definition resolveDates (clock : nat -> Z) (startDate endDate : option Z)
  : M (Z * Z) :=
  s <- match startDate with
       | Some d => ret d
       | None =>
           now <- moment_now clock ;;
           ret (Moment.startOf_day (Moment.subtract_days now 30))
       end ;;
  e <- match endDate with
       | Some d => ret d
       | None =>
           now <- moment_now clock ;;
           ret (Moment.endOf_day now)
       end ;;
  ret (s, e).

Definition gather (outage : nat -> bool) (db : Store.t) (userId : ObjectId)
    (startDate endDate : Z)
  : M (list GatheredExpense * list Category.t * option User.t) :=
  Promise_all3
    (getUserExpenses outage db userId startDate endDate)
    (getUserCategories outage db userId)
    (getUserInfo outage db userId).

(** What every nudge of the engine satisfies. *)
Definition wellFormed (n : Nudge.t) : Prop :=
  stamped n /\ Nudge.type n <> SAVINGS_MILESTONE.

(** The [try] block of [generateAllNudges] over a list of evaluators. *)
Fixpoint collect (evs : list (M (list Nudge.t))) (nudges : list Nudge.t)
  : M (list Nudge.t) :=
  match evs with
  | [] => ret nudges
  | ev :: r => push_or_catch ev (collect r) nudges
  end.

(* ================================================================== *)
(** * A user, a store and two requests *)
(* ================================================================== *)

Module Example.

Local Open Scope float_scope.
Local Open Scope string_scope.

Definition userId : ObjectId := "64b7f0c2a1d3e4f5a6b7c8d9".

(** Midnight UTC of a day of 2024. *)
Definition date (month day : Z) : Z :=
  (Moment.days_from_civil 2024 month day * Moment.msPerDay)%Z.

(** The requests are made on Wednesday 20 March 2024 at noon. *)
Definition now : Z := (date 3 20 + 12 * 3600000)%Z.

(** All readings of the clock fall in one millisecond ... *)
Definition sameMillisecond : nat -> Z := fun _ => now.
(** ... or each reading comes a millisecond after the one before. *)
Definition ticking : nat -> Z := fun n => (now + Z.of_nat n)%Z.

Definition noOutage : nat -> bool := fun _ => false.
(** The store rejects its sixth query. *)
Definition sixthQueryFails : nat -> bool := fun n => Nat.eqb n 5.

Definition food : Category.t :=
  Category.mk "64b7f0c2a1d3e4f5a6b70001" userId "Food" "#FF6B6B"
    (Some 5000) true.
Definition entertainment : Category.t :=
  Category.mk "64b7f0c2a1d3e4f5a6b70002" userId "Entertainment" "#96CEB4"
    (Some 0) true.
Definition bills : Category.t :=
  Category.mk "64b7f0c2a1d3e4f5a6b70003" userId "Bills" "#FECA57"
    (Some 1000) true.
(** A category the user has deleted (deletion clears [isActive]). *)
Definition travel : Category.t :=
  Category.mk "64b7f0c2a1d3e4f5a6b70004" userId "Travel" "#3498DB"
    (Some 3000) false.

Definition spend (amount : float) (c : Category.t) (month day : Z)
  : StoredExpense :=
  Expense.mk userId amount (Category._id c) (date month day) true.

Definition user : User.t :=
  User.mk userId (User.mkStreak 7 7 (Some (date 3 20))).

(** A second user, who spent 1000 in the thirty days before the window
    and 1200 within it. *)
Definition otherUserId : ObjectId := "64b7f0c2a1d3e4f5a6b7c8da".

Definition groceries : Category.t :=
  Category.mk "64b7f0c2a1d3e4f5a6b70005" otherUserId "Groceries" "#45B7D1"
    (Some 4000) true.

Definition otherUser : User.t :=
  User.mk otherUserId (User.mkStreak 7 10 (Some (date 3 20))).

Definition db : Store.t :=
  Store.mk
    [ spend 5000 food 2 1;
      spend 4500 food 3 15;
      spend 1200 bills 3 11;
      spend 100 entertainment 3 12;
      spend 100 entertainment 3 13;
      spend 100 entertainment 3 14;
      spend 300 entertainment 3 16;
      Expense.mk otherUserId 1000 (Category._id groceries) (date 2 1) true;
      Expense.mk otherUserId 1200 (Category._id groceries) (date 3 10) true ]
    [ food; entertainment; bills; travel; groceries ]
    [ user; otherUser ].

(** Mongoose's [toString] on the populated category: the document as
    Node's [inspect] prints it. *)
Definition quote : string := String (ascii_of_nat 34) EmptyString.

Definition toString (c : CategoryRef.t) : string :=
  "{ _id: new ObjectId(" ++ quote ++ CategoryRef._id c ++ quote
  ++ "), name: '" ++ CategoryRef.name c
  ++ "', color: '" ++ CategoryRef.color c ++ "' }".

Definition start : World := mkWorld 0 0.

(** The window of a request without dates, and what is gathered for it. *)
Definition windowStart : Z := date 2 19.
Definition windowEnd : Z := (date 3 21 - 1)%Z.

Definition gatheredCategories : list Category.t := [food; entertainment; bills].

Definition gatheredExpenses : list GatheredExpense :=
  map (populate db)
    (filter (expenseMatch userId windowStart windowEnd) (Store.expenses db)).

(** Expenses of a category with one large amount, as gathered. *)
Definition refOf (c : Category.t) : CategoryRef.t :=
  CategoryRef.mk (Category._id c) (Category.name c) (Category.color c).

Definition gatheredSpend (amount : float) (c : Category.t) (month day : Z)
  : GatheredExpense :=
  Expense.mk userId amount (Some (refOf c)) (date month day) true.

Definition spikeInBills : list GatheredExpense :=
  [ gatheredSpend 100 bills 3 11;
    gatheredSpend 600 bills 3 12;
    gatheredSpend 100 bills 3 13 ].

(** The answers to the request without dates: with every reading of the
    clock in one millisecond, with a ticking clock, and with a ticking
    clock when the sixth query of the store fails. *)
Definition failed : InsightResult.t * World :=
  (InsightResult.mk []
     (Insights.mk (SpendingPatterns.mk false "" 0 0 0) []
        (User.mkStreak 0 0 None))
     (Period.mk 0 0),
   start).

Definition answerOf (run : Result InsightResult.t * World)
  : InsightResult.t * World :=
  match run with
  | (Ok r, w) => (r, w)
  | (Throw _, _) => failed
  end.

Definition answer : InsightResult.t * World :=
  Eval vm_compute in
    answerOf
      (generateInsights sameMillisecond noOutage db toString userId None None
         start).

Definition answerTicking : InsightResult.t * World :=
  Eval vm_compute in
    answerOf
      (generateInsights ticking noOutage db toString userId None None start).

Definition answerAfterFailure : InsightResult.t * World :=
  Eval vm_compute in
    answerOf
      (generateInsights ticking sixthQueryFails db toString userId None None
         start).

(** The world in which the evaluators start: two readings of the clock for
    the dates, three queries for the gather. *)
Definition gatheredAt : World := mkWorld 2 3.

End Example.

(* ================================================================== *)
(** * [controllers/insightController.js] *)
(* ================================================================== *)

(** [String.prototype.includes]. *)
Fixpoint includes (s sub : string) : bool :=
  startsWith sub s
  || match s with
     | EmptyString => false
     | String _ r => includes r sub
     end.

(** [metadata.categoryName], [undefined] where the metadata has none. *)
Definition categoryName (m : Metadata) : option string :=
  match m with
  | BudgetMeta _ name _ _ _ _ => Some name
  | SmallPurchasesMeta _ name _ _ => Some name
  | SpikeMeta _ name _ _ => Some name
  | _ => None
  end.

Module Tip.
Record t : Set := mk {
  id : string;
  type : NUDGE_TYPES;
  title : string;
  description : string;
  priority : NUDGE_PRIORITY;
  category : string;
  actionable : bool;
  metadata : Metadata
}.
End Tip.

Module Tips.
Record t : Set := mk {
  tips : list Tip.t;
  totalTips : nat;
  highPriorityCount : nat
}.
End Tips.

Module HealthDetails.
Record t : Set := mk {
  totalCategories : nat;
  onTrackCategories : nat;
  warningCategories : nat;
  overBudgetCategories : nat
}.
End HealthDetails.

Module HealthPeriod.
Record t : Set := mk { start : Z; end_ : Z; month : string }.
End HealthPeriod.

(** The [data] of the answer of [getBudgetHealthScore]; the early answer
    carries no [period]. *)
Module Health.
Record t : Set := mk {
  score : Z;
  grade : string;
  message : string;
  details : HealthDetails.t;
  period : option HealthPeriod.t
}.
End Health.

(** The four counters of the loop of [getBudgetHealthScore]. *)
Module Tally.
Record t : Set := mk {
  totalScore : Z;
  onTrackCount : nat;
  warningCount : nat;
  overBudgetCount : nat
}.
End Tally.

Section InsightController.

(** The environment of a request, as for the service; [toLowerCase] is
    [String.prototype.toLowerCase] and [format_MMMM_YYYY] is moment's
    [format('MMMM YYYY')]. *)
Variable clock : nat -> Z.
Variable outage : nat -> bool.
Variable db : Store.t.
Variable Document_toString : CategoryRef.t -> string.
Variable toLowerCase : string -> string.
Variable format_MMMM_YYYY : Z -> string.

Local Open Scope string_scope.

(** A handler wrapped in [asyncHandler] either answers with [data] or
    hands its error to [next]: a computation that returns [data] or
    throws. *)

(** [tips.filter(nudge =>
      nudge.metadata.categoryName?.toLowerCase().includes(category.toLowerCase()))]. *)
Definition matchesCategory (category : string) (nudge : Nudge.t) : bool :=
  match categoryName (Nudge.metadata nudge) with
  | Some name => includes (toLowerCase name) (toLowerCase category)
  | None => false
  end.

Definition formatTip (tip : Nudge.t) : Tip.t :=
  Tip.mk (Nudge.id tip) (Nudge.type tip) (Nudge.title tip)
    (Nudge.message tip) (Nudge.priority tip)
    (match categoryName (Nudge.metadata tip) with
     | Some name => if name =? "" then "General" else name
     | None => "General"
     end)
    true (Nudge.metadata tip).

(** [category] is the query parameter, [None] when the request has none. *)
Definition getFinancialTips (userId : ObjectId) (category : option string)
  : M Tips.t :=
  now1 <- Date_now clock ;;
  let startDate := (now1 - 30 * 24 * 60 * 60 * 1000)%Z in
  endDate <- Date_now clock ;;
  insights <-
    generateInsights clock outage db Document_toString userId
      (Some startDate) (Some endDate) ;;
  let tips := filter Nudge.actionable (InsightResult.nudges insights) in
  let tips :=
    match category with
    | Some c => if c =? "" then tips else filter (matchesCategory c) tips
    | None => tips
    end in
  let formattedTips := map formatTip tips in
  ret (Tips.mk formattedTips (List.length formattedTips)
         (List.length
            (filter
               (fun tip =>
                  NUDGE_PRIORITY_value (Tip.priority tip) =? "high")
               formattedTips))).

(** One turn of the loop of [getBudgetHealthScore]. *)
Definition scoreCategory (userId : ObjectId) (startDate endDate : Z)
    (category : Category.t) (tally : Tally.t) : M Tally.t :=
  spent <-
    Expense_aggregate_total outage db
      (categoryExpenseMatch userId (Category._id category) startDate endDate) ;;
  let spentAmount := total_or_zero spent in
  (* an absent [monthlyBudget] gives [NaN] *)
  let budget :=
    match Category.monthlyBudget category with
    | Some budget => budget
    | None => JS.NaN
    end in
  let percentage := (spentAmount / budget * 100)%float in
  if JS.le percentage 80 then
    ret (Tally.mk (Tally.totalScore tally + 100)
           (S (Tally.onTrackCount tally)) (Tally.warningCount tally)
           (Tally.overBudgetCount tally))
  else if JS.le percentage 100 then
    ret (Tally.mk (Tally.totalScore tally + 60)
           (Tally.onTrackCount tally) (S (Tally.warningCount tally))
           (Tally.overBudgetCount tally))
  else
    ret (Tally.mk (Tally.totalScore tally + 20)
           (Tally.onTrackCount tally) (Tally.warningCount tally)
           (S (Tally.overBudgetCount tally))).

Fixpoint scoreCategories (userId : ObjectId) (startDate endDate : Z)
    (categories : list Category.t) (tally : Tally.t) : M Tally.t :=
  match categories with
  | [] => ret tally
  | category :: r =>
      tally' <- scoreCategory userId startDate endDate category tally ;;
      scoreCategories userId startDate endDate r tally'
  end.

(** [Category.find({ userId, isActive: true, monthlyBudget: { $gt: 0 } })]. *)
Definition budgetedMatch (userId : ObjectId) (c : Category.t) : bool :=
  (Category.userId c =? userId) && Category.isActive c
  && match Category.monthlyBudget c with
     | Some b => JS.gt b 0
     | None => false
     end.

Definition gradeOf (averageScore : Z) : string * string :=
  if (90 <=? averageScore)%Z then
    ("A+",
     "Excellent budget management! You're on track with your spending goals.")
  else if (80 <=? averageScore)%Z then
    ("A", "Great job! Most of your spending is within budget limits.")
  else if (70 <=? averageScore)%Z then
    ("B",
     "Good progress, but watch out for categories approaching limits.")
  else if (60 <=? averageScore)%Z then
    ("C",
     "Some categories need attention. Consider adjusting budgets or reducing spending.")
  else
    ("D",
     "Budget management needs improvement. Review your spending patterns.").

Definition getBudgetHealthScore (userId : ObjectId) : M Health.t :=
  now1 <- moment_now clock ;;
  let startDate := Moment.startOf_month now1 in
  now2 <- moment_now clock ;;
  let endDate := Moment.endOf_month now2 in
  categories <-
    query outage (filter (budgetedMatch userId) (Store.categories db)) ;;
  if (List.length categories =? 0)%nat then
    ret (Health.mk 0 "N/A" "No budgets set to evaluate health"
           (HealthDetails.mk 0 0 0 0) None)
  else
    tally <-
      scoreCategories userId startDate endDate categories
        (Tally.mk 0 0 0 0) ;;
    let averageScore :=
      JS.Math_round
        (inject_Z (Tally.totalScore tally)
         / inject_Z (Z.of_nat (List.length categories)))%Q in
    let '(grade, message) := gradeOf averageScore in
    now3 <- moment_now clock ;;
    ret (Health.mk averageScore grade message
           (HealthDetails.mk (List.length categories)
              (Tally.onTrackCount tally) (Tally.warningCount tally)
              (Tally.overBudgetCount tally))
           (Some (HealthPeriod.mk startDate endDate (format_MMMM_YYYY now3)))).

End InsightController.

(* ================================================================== *)
(** * [models/User.js] *)
(* ================================================================== *)

(** The streak of a new user document (the defaults of the schema). *)
Definition newStreak : User.streak_t := User.mkStreak 0 0 None.

(** The pre-save middleware of the user schema that keeps the streak.
    [isNew] and [lastLoginModified] are [this.isNew] and
    [this.isModified('lastLogin')]; the clock is read only when one of them
    holds. *)
Definition streakPreSave (clock : nat -> Z) (isNew lastLoginModified : bool)
    (streak : User.streak_t) : M User.streak_t :=
  if isNew || lastLoginModified then
    today <- Date_now clock ;;
    let updated :=
      match User.lastActiveDate streak with
      | Some lastActiveDate =>
          let daysDiff :=
            JS.Math_floor
              (inject_Z (today - lastActiveDate)
               / inject_Z (1000 * 60 * 60 * 24))%Q in
          if (daysDiff =? 1)%Z then
            let current := (User.current streak + 1)%Z in
            User.mkStreak current
              (if (User.longest streak <? current)%Z then current
               else User.longest streak)
              (User.lastActiveDate streak)
          else if (1 <? daysDiff)%Z then
            User.mkStreak 1 (User.longest streak)
              (User.lastActiveDate streak)
          else streak
      | None => User.mkStreak 1 1 None
      end in
    ret (User.mkStreak (User.current updated) (User.longest updated)
           (Some today))
  else ret streak.

(** Successive saves of one document, each with its two flags. *)
Fixpoint streakAfterSaves (clock : nat -> Z) (saves : list (bool * bool))
    (streak : User.streak_t) : M User.streak_t :=
  match saves with
  | [] => ret streak
  | (isNew, lastLoginModified) :: r =>
      streak' <- streakPreSave clock isNew lastLoginModified streak ;;
      streakAfterSaves clock r streak'
  end.

(* ================================================================== *)
(** * Vocabulary of the further statements *)
(* ================================================================== *)

(** The percentage of a budget that the amounts of a category in a window
    come to, in doubles. *)
Definition percentageOf (db : Store.t) (userId : ObjectId)
    (startDate endDate : Z) (c : Category.t) (budget : float) : float :=
  (totalOf (amountsOf db userId (Category._id c) startDate endDate)
   / budget * 100)%float.

(** The categories with a budget above zero whose percentage in a window
    is 80 or more. *)
Definition alerted (db : Store.t) (userId : ObjectId) (startDate endDate : Z)
    (c : Category.t) : bool :=
  match Category.monthlyBudget c with
  | Some budget =>
      (0 <? budget)%float
      && (80 <=? percentageOf db userId startDate endDate c budget)%float
  | None => false
  end.

(** What an alert says of the category it is raised for: its identifier,
    name and budget, the amount spent as printed with two decimals, the
    percentage as printed with one, and whether that is 100 or more. *)
Definition raisedFor (db : Store.t) (userId : ObjectId)
    (startDate endDate : Z) (a : CategoryAlert.t) (c : Category.t) : Prop :=
  exists budget,
    Category.monthlyBudget c = Some budget
    /\ let spent :=
         totalOf (amountsOf db userId (Category._id c) startDate endDate) in
       let percentage := (spent / budget * 100)%float in
       a = CategoryAlert.mk (Category._id c) (Category.name c)
             (JS.roundTo 2 spent) budget (JS.roundTo 1 percentage)
             (100 <=? percentage)%float.

(** The identifier ends in an underscore and a printed reading of the
    clock. *)
Definition stampedBy (clock : nat -> Z) (n : Nudge.t) : Prop :=
  exists p k,
    Nudge.id n = (p ++ "_" ++ JS.Number_toString (clock k))%string.

(** The category a nudge names, if any, is one of the list. *)
Definition namesOneOf (categories : list Category.t) (n : Nudge.t) : Prop :=
  forall cid,
    metadataCategory n = Some cid ->
    exists c, In c categories /\ Category._id c = cid.

(** The type each evaluator gives its nudges, in the order of
    [evaluators]. *)
Definition evaluatorTypes : list NUDGE_TYPES :=
  [ WEEKEND_SPENDING; BUDGET_OVERAGE; SPENDING_TREND; STREAK_CELEBRATION;
    CATEGORY_PATTERN; SAVINGS_MILESTONE ].

(** What the nudges of the evaluator of a type are like. *)
Definition builtAs (clock : nat -> Z) (categories : list Category.t)
    (type : NUDGE_TYPES) (n : Nudge.t) : Prop :=
  stampedBy clock n
  /\ namesOneOf categories n
  /\ Nudge.type n = type
  /\ (Nudge.actionable n = false
      <-> type = STREAK_CELEBRATION \/ isTrendDown n = true).

(** What the pre-save middleware keeps of a streak. *)
Definition streakInvariant (s : User.streak_t) : Prop :=
  (User.current s <= User.longest s)%Z
  /\ (User.lastActiveDate s <> None -> (1 <= User.current s)%Z).

(* ================================================================== *)
(** * Further documents and requests *)
(* ================================================================== *)

Module Sample.

Import Example.

Local Open Scope float_scope.
Local Open Scope string_scope.

(** A user who was last active a day before the request, on the sixth day
    of a streak that is also the longest. *)
Definition sixDays : User.streak_t :=
  User.mkStreak 6 6 (Some (now - Moment.msPerDay)%Z).

(** Readings of the clock that come twenty-three hours apart. *)
Definition every23Hours : nat -> Z :=
  fun n => (now + Z.of_nat n * (23 * 3600000))%Z.

Definition threeDays : User.streak_t :=
  User.mkStreak 3 5 (Some (every23Hours 0)).

(** The store rejects its eighth query, the first of the trend of the
    insight bundle. *)
Definition eighthQueryFails : nat -> bool := fun n => Nat.eqb n 7.

(** An expense made an hour into the day before the window of the request
    without dates. *)
Definition inTheGap : StoredExpense :=
  Expense.mk userId 100 (Category._id food) (date 2 18 + 3600000)%Z true.

(** The bills category with a budget equal to what was spent on bills in
    the month of the requests. *)
Definition billsAt1200 : Category.t :=
  Category.mk (Category._id bills) userId "Bills" "#FECA57" (Some 1200) true.

(** An expense whose category document is gone, as gathered. *)
Definition orphan : GatheredExpense :=
  Expense.mk userId 150 None (date 3 11) true.

Definition withOrphan : list GatheredExpense :=
  (spikeInBills ++ [orphan])%list.

(** A user with ten purchases of 150 in one category on the first ten
    days of the month of the requests. *)
Definition shopperId : ObjectId := "64b7f0c2a1d3e4f5a6b7c8dd".

Definition treats : Category.t :=
  Category.mk "64b7f0c2a1d3e4f5a6b70031" shopperId "Treats" "#FF6B6B"
    (Some 5000) true.

Definition tenSmall : Store.t :=
  Store.mk
    (map (fun day =>
            Expense.mk shopperId 150 (Category._id treats) (date 3 day) true)
       [1; 2; 3; 4; 5; 6; 7; 8; 9; 10]%Z)
    [ treats ]
    [ User.mk shopperId (User.mkStreak 2 5 (Some (date 3 19))) ].

(** A user whose amounts are not whole numbers: three purchases of snacks
    against a budget of 100, one fare against a budget of 20.10 and one
    coffee against a budget of 1.40, all in the month of the requests. *)
Definition centsUserId : ObjectId := "64b7f0c2a1d3e4f5a6b7c8db".

Definition snacks : Category.t :=
  Category.mk "64b7f0c2a1d3e4f5a6b70011" centsUserId "Snacks" "#FF6B6B"
    (Some 100) true.
Definition transit : Category.t :=
  Category.mk "64b7f0c2a1d3e4f5a6b70012" centsUserId "Transit" "#45B7D1"
    (Some 20.10) true.
Definition coffee : Category.t :=
  Category.mk "64b7f0c2a1d3e4f5a6b70013" centsUserId "Coffee" "#96CEB4"
    (Some 1.40) true.

Definition cents : Store.t :=
  Store.mk
    [ Expense.mk centsUserId 15.79 (Category._id snacks) (date 3 4) true;
      Expense.mk centsUserId 48.41 (Category._id snacks) (date 3 5) true;
      Expense.mk centsUserId 35.8 (Category._id snacks) (date 3 6) true;
      Expense.mk centsUserId 16.08 (Category._id transit) (date 3 7) true;
      Expense.mk centsUserId 1.12 (Category._id coffee) (date 3 8) true ]
    [ snacks; transit; coffee ]
    [ User.mk centsUserId (User.mkStreak 2 5 (Some (date 3 19))) ].

(** The second user of the example with one expense in the thirty days
    before the window of the request without dates and one within it. *)
Definition twoPeriods (previous current : float) : Store.t :=
  Store.mk
    [ Expense.mk otherUserId previous (Category._id groceries) (date 2 1) true;
      Expense.mk otherUserId current (Category._id groceries) (date 3 10)
        true ]
    [ groceries ]
    [ otherUser ].


(** A user on a first streak of seven days with six categories, each with
    a budget of 100 and one expense of 200 in the month of the requests. *)
Definition spenderId : ObjectId := "64b7f0c2a1d3e4f5a6b7c8dc".

Definition overspent (k : Z) : Category.t :=
  Category.mk ("64b7f0c2a1d3e4f5a6b7002" ++ JS.Number_toString k) spenderId
    ("Category " ++ JS.Number_toString k) "#3498DB" (Some 100) true.

Definition sixCategories : list Category.t :=
  map overspent [1; 2; 3; 4; 5; 6]%Z.

Definition sixOver : Store.t :=
  Store.mk
    (map (fun c => Expense.mk spenderId 200 (Category._id c) (date 3 10) true)
       sixCategories)
    sixCategories
    [ User.mk spenderId (User.mkStreak 7 7 (Some (date 3 20))) ].

End Sample.

(* ================================================================== *)
(** * Tactics *)
(* ================================================================== *)

(** A [Forall] over a list that is written out. *)
Ltac forall_built := repeat first [apply Forall_nil | apply Forall_cons].

(** A nudge whose identifier is [p], an underscore and the [k]-th reading
    of the clock is built as its evaluator builds it; what is left is the
    category it names, if it names one. *)
Ltac built_nudge p k :=
  split; [exists p, k; reflexivity|];
  split; [intros cid Hcid; try discriminate Hcid|];
  [..|split; [reflexivity|];
      split; [intros Hact; try discriminate Hact; auto
             |intros [Hty|Hid]; [try discriminate Hty; reflexivity
                                |try reflexivity;
                                 vm_compute in Hid; discriminate Hid]]].

(* ================================================================== *)

(** * Properties *)
(* ================================================================== *)

(* ------------------------------------------------------------------ *)
(** ** The order of doubles *)
(* ------------------------------------------------------------------ *)

(** The comparisons of doubles all read one three-way comparison, which
    is that of the numbers they stand for; [NaN] compares with nothing. *)

Ltac compare_cases :=
  repeat match goal with
         | |- context [Z.compare ?u ?v] => destruct (Z.compare_spec u v)
         | |- context [Pos.compare_cont Eq ?m ?n] =>
             change (Pos.compare_cont Eq m n) with (Pos.compare m n);
             destruct (Pos.compare_spec m n)
         | H : context [Z.compare ?u ?v] |- _ =>
             destruct (Z.compare_spec u v)
         | H : context [Pos.compare_cont Eq ?m ?n] |- _ =>
             change (Pos.compare_cont Eq m n) with (Pos.compare m n) in H;
             destruct (Pos.compare_spec m n)
         end.

Lemma SFcompare_antisym (a b : spec_float) :
  SFcompare b a = option_map CompOpp (SFcompare a b).
Proof.
  destruct a as [[]|[]| |[] ma ea], b as [[]|[]| |[] mb eb]; simpl;
    try reflexivity;
    compare_cases; simpl; subst; try reflexivity; try lia.
Qed.

Lemma SFcompare_marks (x a b : spec_float) :
  SFcompare a b = Some Lt ->
  match SFcompare x a, SFcompare x b with
  | Some Lt, Some Lt | Some Eq, Some Lt | Some Gt, Some _ | None, None => True
  | _, _ => False
  end.
Proof.
  destruct x as [[]|[]| |[] mx ex], a as [[]|[]| |[] ma ea],
    b as [[]|[]| |[] mb eb]; simpl; intros H; try exact I;
    try discriminate H;
    compare_cases; simpl in *; subst; try exact I; try discriminate H;
    try lia.
Qed.

Lemma ltb_compare (x y : float) :
  (x <? y)%float = match (x ?= y)%float with FLt => true | _ => false end.
Proof.
  rewrite ltb_spec, compare_spec. unfold SFltb.
  now destruct (SFcompare (Prim2SF x) (Prim2SF y)) as [[]|].
Qed.

Lemma leb_compare (x y : float) :
  (x <=? y)%float
  = match (x ?= y)%float with FLt | FEq => true | _ => false end.
Proof.
  rewrite leb_spec, compare_spec. unfold SFleb.
  now destruct (SFcompare (Prim2SF x) (Prim2SF y)) as [[]|].
Qed.

Lemma eqb_compare (x y : float) :
  (x =? y)%float = match (x ?= y)%float with FEq => true | _ => false end.
Proof.
  rewrite eqb_spec, compare_spec. unfold SFeqb.
  now destruct (SFcompare (Prim2SF x) (Prim2SF y)) as [[]|].
Qed.

(** A comparison read the other way round. *)
Lemma compare_antisym (x y : float) :
  (y ?= x)%float
  = match (x ?= y)%float with FLt => FGt | FGt => FLt | c => c end.
Proof.
  rewrite !compare_spec, (SFcompare_antisym (Prim2SF x) (Prim2SF y)).
  now destruct (SFcompare (Prim2SF x) (Prim2SF y)) as [[]|].
Qed.

(** Where a double stands with respect to two marks [a < b]. *)
Lemma compare_marks (x a b : float) :
  (a ?= b)%float = FLt ->
  match (x ?= a)%float, (x ?= b)%float with
  | FLt, FLt | FEq, FLt | FGt, FLt | FGt, FEq | FGt, FGt
  | FNotComparable, FNotComparable => True
  | _, _ => False
  end.
Proof.
  rewrite !compare_spec. intros H.
  assert (H' : SFcompare (Prim2SF a) (Prim2SF b) = Some Lt)
    by (now destruct (SFcompare (Prim2SF a) (Prim2SF b)) as [[]|]).
  pose proof (SFcompare_marks (Prim2SF x) _ _ H') as Hm.
  destruct (SFcompare (Prim2SF x) (Prim2SF a)) as [[]|],
    (SFcompare (Prim2SF x) (Prim2SF b)) as [[]|]; simpl; auto.
Qed.

(** A double compares with itself unless it is [NaN], and then it compares
    with nothing. *)
Lemma compare_self (x y : float) :
  match (x ?= x)%float, (x ?= y)%float with
  | FNotComparable, FNotComparable => True
  | FNotComparable, _ => False
  | FEq, _ => True
  | _, _ => False
  end.
Proof.
  rewrite !compare_spec.
  destruct (Prim2SF x) as [[]|[]| |[] mx ex], (Prim2SF y) as [[]|[]| |[] my ey];
    simpl; try exact I;
    compare_cases; simpl; subst; try exact I; try lia.
Qed.

(** ** Identifiers and their stamps *)

Module JSFacts.

Local Open Scope string_scope.

Lemma split_nonempty (sep : ascii) (s : string) : JS.split sep s <> [].
Proof.
  destruct s as [|c r]; simpl; [discriminate|].
  destruct (Ascii.eqb c sep); [discriminate|].
  destruct (JS.split sep r); discriminate.
Qed.

Lemma split_app (sep : ascii) (p d : string) :
  JS.split sep (p ++ String sep d) = (JS.split sep p ++ JS.split sep d)%list.
Proof.
  induction p as [|c p IH]; simpl.
  - now rewrite Ascii.eqb_refl.
  - destruct (Ascii.eqb c sep); [now rewrite IH|].
    rewrite IH.
    destruct (JS.split sep p) as [|h t] eqn:E; [|reflexivity].
    now apply split_nonempty in E.
Qed.

Lemma pop_app (l1 l2 : list string) :
  l2 <> [] -> JS.pop (l1 ++ l2) = JS.pop l2.
Proof.
  intros Hl2. induction l1 as [|x l1 IH]; [reflexivity|].
  simpl. destruct (l1 ++ l2)%list eqn:E; [|exact IH].
  apply app_eq_nil in E. now destruct E.
Qed.

Lemma split_free (sep : ascii) (s : string) :
  free_of sep s -> JS.split sep s = [s].
Proof.
  induction s as [|c r IH]; simpl; [reflexivity|].
  intros [Hc Hr]. now rewrite Hc, IH.
Qed.

Lemma pop_split_last (sep : ascii) (p d : string) :
  free_of sep d -> JS.pop (JS.split sep (p ++ String sep d)) = Some d.
Proof.
  intros Hd. rewrite split_app, pop_app by apply split_nonempty.
  now rewrite split_free.
Qed.

Lemma string_of_uint_digits (u : Decimal.uint) :
  all_digits (NilEmpty.string_of_uint u).
Proof. induction u; simpl; auto. Qed.

Lemma take_digits_all (s : string) : all_digits s -> JS.take_digits s = s.
Proof.
  induction s as [|c r IH]; simpl; [reflexivity|].
  intros [Hc Hr]. now rewrite Hc, IH.
Qed.

Lemma digits_free (s : string) : all_digits s -> free_of "_" s.
Proof.
  induction s as [|c r IH]; simpl; [trivial|].
  intros [Hc Hr]. split; [|now apply IH].
  destruct (Ascii.eqb_spec c "_"); [subst; discriminate|reflexivity].
Qed.

Lemma hex_prefix_digits (s : string) :
  all_digits s -> JS.has_hex_prefix s = false.
Proof.
  destruct s as [|c1 [|c2 r]]; try reflexivity.
  simpl. intros [_ [H2 _]].
  destruct (Ascii.eqb_spec c2 "x"); [subst; discriminate|].
  destruct (Ascii.eqb_spec c2 "X"); [subst; discriminate|].
  now rewrite andb_false_r.
Qed.

Lemma parse_magnitude_digits (u : Decimal.uint) :
  u <> Decimal.Nil ->
  JS.parse_magnitude (NilEmpty.string_of_uint u) = Some (Z.of_N (N.of_uint u)).
Proof.
  intros Hu. unfold JS.parse_magnitude.
  rewrite hex_prefix_digits, take_digits_all by apply string_of_uint_digits.
  rewrite NilEmpty.usu.
  destruct u; try reflexivity. now elim Hu.
Qed.

Lemma skip_spaces_digits (u : Decimal.uint) :
  JS.skip_spaces (NilEmpty.string_of_uint u) = NilEmpty.string_of_uint u.
Proof. destruct u; reflexivity. Qed.

Lemma parseInt_digits (u : Decimal.uint) :
  u <> Decimal.Nil ->
  JS.parseInt (Some (NilEmpty.string_of_uint u)) = Some (Z.of_N (N.of_uint u)).
Proof.
  intros Hu. unfold JS.parseInt. rewrite skip_spaces_digits.
  rewrite <- parse_magnitude_digits by assumption.
  destruct u; try reflexivity.
Qed.

Lemma NilZero_string_of_uint_nonnil (u : Decimal.uint) :
  u <> Decimal.Nil -> NilZero.string_of_uint u = NilEmpty.string_of_uint u.
Proof. destruct u; intros Hu; reflexivity || now elim Hu. Qed.

Lemma parseInt_Number_toString (t : Z) :
  JS.parseInt (Some (JS.Number_toString t)) = Some t.
Proof.
  unfold JS.Number_toString. destruct t as [|p|p]; [reflexivity| |];
    cbn [Z.to_int NilZero.string_of_int];
    assert (Hp := Unsigned.to_uint_nonnil p);
    rewrite NilZero_string_of_uint_nonnil by assumption.
  - rewrite parseInt_digits by assumption.
    unfold N.of_uint. now rewrite Unsigned.of_to.
  - change (JS.parseInt (Some (String "-" (NilEmpty.string_of_uint (Pos.to_uint p)))))
      with (option_map Z.opp
              (JS.parse_magnitude (NilEmpty.string_of_uint (Pos.to_uint p)))).
    rewrite parse_magnitude_digits by assumption.
    unfold N.of_uint. now rewrite Unsigned.of_to.
Qed.

Lemma Number_toString_free (t : Z) : free_of "_" (JS.Number_toString t).
Proof.
  unfold JS.Number_toString. destruct t as [|p|p]; [simpl; auto| |];
    cbn [Z.to_int NilZero.string_of_int];
    assert (Hp := Unsigned.to_uint_nonnil p);
    rewrite NilZero_string_of_uint_nonnil by assumption.
  - apply digits_free, string_of_uint_digits.
  - split; [reflexivity|]. apply digits_free, string_of_uint_digits.
Qed.

(** An identifier that ends in an underscore and a printed stamp gives the
    stamp back. *)
Lemma stamp_of_id (p : string) (t : Z) :
  JS.parseInt (JS.pop (JS.split "_" (p ++ "_" ++ JS.Number_toString t)))
  = Some t.
Proof.
  change (p ++ "_" ++ JS.Number_toString t)
    with (p ++ String "_" (JS.Number_toString t)).
  rewrite pop_split_last by apply Number_toString_free.
  apply parseInt_Number_toString.
Qed.

End JSFacts.

(* ------------------------------------------------------------------ *)
(** ** [Array.prototype.sort] *)

Section SortFacts.

Variable A : Type.
Variable compare : A -> A -> option Q.

Lemma sort_insert_perm (x : A) (l : list A) :
  Permutation (JS.sort_insert compare x l) (x :: l).
Proof.
  induction l as [|y r IH]; simpl; [reflexivity|].
  destruct (JS.positive (compare x y)); [|reflexivity].
  rewrite IH. apply perm_swap.
Qed.

Lemma sort_perm (l : list A) : Permutation (JS.sort compare l) l.
Proof.
  induction l as [|x r IH]; simpl; [reflexivity|].
  rewrite sort_insert_perm. now constructor.
Qed.

Lemma sort_length (l : list A) : List.length (JS.sort compare l) = List.length l.
Proof. apply Permutation_length, sort_perm. Qed.

(** Sortedness, for a comparator that decides a transitive order on the
    elements that satisfy [P]. *)
Section Sorted.

Variable P : A -> Prop.
Variable le : A -> A -> Prop.
Hypothesis le_trans : forall x y z, le x y -> le y z -> le x z.
Hypothesis positive_le :
  forall x y, P x -> P y -> JS.positive (compare x y) = true -> le y x.
Hypothesis not_positive_le :
  forall x y, P x -> P y -> JS.positive (compare x y) = false -> le x y.

Lemma sort_insert_sorted (x : A) (l : list A) :
  P x -> Forall P l -> StronglySorted le l ->
  StronglySorted le (JS.sort_insert compare x l).
Proof.
  intros Hx Hl Hs. induction Hs as [|y r Hr IH Hy]; simpl.
  - repeat constructor.
  - inversion Hl as [|? ? Py Pr]; subst.
    destruct (JS.positive (compare x y)) eqn:E.
    + constructor; [now apply IH|].
      apply (Permutation_Forall (Permutation_sym (sort_insert_perm x r))).
      constructor; [|assumption]. now apply positive_le.
    + assert (Hxy : le x y) by now apply not_positive_le.
      constructor; [now constructor|].
      constructor; [assumption|].
      eapply Forall_impl; [|exact Hy]. intros z Hz. now apply le_trans with y.
Qed.

Lemma sort_sorted (l : list A) :
  Forall P l -> StronglySorted le (JS.sort compare l).
Proof.
  induction l as [|x r IH]; simpl; intros Hl; [constructor|].
  inversion Hl; subst.
  apply sort_insert_sorted; auto.
  now apply (Permutation_Forall (Permutation_sym (sort_perm r))).
Qed.

End Sorted.

(** Stability: elements that the comparator does not order keep their
    relative positions. *)
Section Stable.

Variable same : A -> bool.
Hypothesis same_unordered :
  forall x y, same x = true -> same y = true ->
              JS.positive (compare x y) = false.

Lemma filter_sort_insert (x : A) (l : list A) :
  filter same (JS.sort_insert compare x l) = filter same (x :: l).
Proof.
  induction l as [|y r IH]; [reflexivity|].
  cbn [JS.sort_insert].
  destruct (JS.positive (compare x y)) eqn:E; [|reflexivity].
  cbn [filter] in *. rewrite IH.
  destruct (same x) eqn:Sx, (same y) eqn:Sy; try reflexivity.
  now rewrite same_unordered in E.
Qed.

Lemma filter_sort (l : list A) :
  filter same (JS.sort compare l) = filter same l.
Proof.
  induction l as [|x r IH]; [reflexivity|].
  cbn [JS.sort]. rewrite filter_sort_insert. cbn [filter]. now rewrite IH.
Qed.

End Stable.

End SortFacts.

(* ------------------------------------------------------------------ *)
(** ** Numbers *)

Lemma positive_inject_Z (z : Z) :
  JS.positive (Some (inject_Z z)) = true <-> (0 < z)%Z.
Proof.
  unfold JS.positive. rewrite negb_true_iff, <- not_true_iff_false, Qle_bool_iff.
  unfold Qle; simpl. lia.
Qed.

Lemma positive_inject_Z_false (z : Z) :
  JS.positive (Some (inject_Z z)) = false <-> (z <= 0)%Z.
Proof.
  unfold JS.positive. rewrite negb_false_iff, Qle_bool_iff.
  unfold Qle; simpl. lia.
Qed.

(* ------------------------------------------------------------------ *)
(** ** Computations *)

Lemma bind_Ok {A B} (c : M A) (k : A -> M B) (w w' : World) (b : B) :
  bind c k w = (Ok b, w') ->
  exists a w1, c w = (Ok a, w1) /\ k a w1 = (Ok b, w').
Proof.
  unfold bind. destruct (c w) as [[a|e] w1]; [eauto|discriminate].
Qed.

Lemma bind_Ok_intro {A B} (c : M A) (k : A -> M B) (w w1 : World) (a : A) :
  c w = (Ok a, w1) -> bind c k w = k a w1.
Proof. unfold bind. now intros ->. Qed.

Lemma bind_Throw {A B} (c : M A) (k : A -> M B) (w w1 : World) (e : Error) :
  c w = (Throw e, w1) -> bind c k w = (Throw e, w1).
Proof. unfold bind. now intros ->. Qed.

Lemma for_of_Forall {A B} (P : B -> Prop) (body : A -> M (list B)) :
  (forall x w out w', body x w = (Ok out, w') -> Forall P out) ->
  forall xs w out w', for_of xs body w = (Ok out, w') -> Forall P out.
Proof.
  intros Hbody xs. induction xs as [|x r IH]; simpl; intros w out w' H.
  - inversion H; subst. constructor.
  - apply bind_Ok in H. destruct H as (pushed & w1 & H1 & H).
    apply bind_Ok in H. destruct H as (more & w2 & H2 & H).
    inversion H; subst. apply Forall_app. split; eauto.
Qed.

Lemma for_of_total {A B} (body : A -> M (list B)) :
  (forall x w, exists o w', body x w = (Ok o, w')) ->
  forall xs w, exists out w', for_of xs body w = (Ok out, w').
Proof.
  intros Hbody xs. induction xs as [|x r IH]; intros w; simpl.
  - now exists [], w.
  - destruct (Hbody x w) as (o & w1 & H1).
    destruct (IH w1) as (more & w2 & H2).
    exists (o ++ more)%list, w2.
    erewrite bind_Ok_intro by eassumption.
    now erewrite bind_Ok_intro by eassumption.
Qed.

Lemma for_of_app {A B} (body : A -> M (list B)) (xs ys : list A) :
  forall w out w',
    for_of (xs ++ ys) body w = (Ok out, w') ->
    exists o1 w1 o2,
      for_of xs body w = (Ok o1, w1)
      /\ for_of ys body w1 = (Ok o2, w')
      /\ out = (o1 ++ o2)%list.
Proof.
  induction xs as [|x r IH]; intros w out w' H.
  - exists [], w, out. now repeat split.
  - simpl in H. apply bind_Ok in H. destruct H as (o & w1 & H1 & H).
    apply bind_Ok in H. destruct H as (more & w2 & H2 & H).
    inversion H; subst. apply IH in H2.
    destruct H2 as (o1 & w3 & o2 & Hr & Hys & ->).
    exists (o ++ o1)%list, w3, o2. split; [|split; [assumption|]].
    + simpl. erewrite bind_Ok_intro by eassumption.
      now erewrite bind_Ok_intro by eassumption.
    + now rewrite app_assoc.
Qed.

Lemma for_of_Forall_In {A B} (P : B -> Prop) (body : A -> M (list B))
    (xs : list A) :
  (forall x, In x xs ->
     forall w out w', body x w = (Ok out, w') -> Forall P out) ->
  forall w out w', for_of xs body w = (Ok out, w') -> Forall P out.
Proof.
  induction xs as [|x r IH]; simpl; intros Hbody w out w' H.
  - inversion H; subst. constructor.
  - apply bind_Ok in H. destruct H as (pushed & w1 & H1 & H).
    apply bind_Ok in H. destruct H as (more & w2 & H2 & H).
    inversion H; subst. apply Forall_app. split.
    + eapply Hbody; [now left|eassumption].
    + eapply IH; [|eassumption]. intros y Hy. apply Hbody. now right.
Qed.

(* ------------------------------------------------------------------ *)
(** ** The streak detector *)

(** C6.  The streak detector emits the streak-milestone nudge exactly when
    the current streak is 7 and the personal-best nudge exactly when the
    current streak equals the longest one, exceeds it minus one and is
    positive; the two tests are independent, both nudges have priority low
    and are not actionable, and the personal-best one carries
    [personalBest = true].  For a streak of 7 with a longest streak of 10 the
    result is one milestone nudge and nothing else. *)
Theorem streak_detector :
  (forall (clock : nat -> Z) (u : User.t) (w : World),
     let C := User.current (User.streak u) in
     let L := User.longest (User.streak u) in
     exists ns w',
       generateMotivationalNudges clock (Some u) w = (Ok ns, w')
       /\ List.length (filter isStreakMilestone ns)
          = (if (C =? 7)%Z then 1 else 0)%nat
       /\ List.length (filter isPersonalBest ns)
          = (if ((C =? L) && (L - 1 <? C) && (0 <? C))%Z then 1 else 0)%nat
       /\ List.length ns
          = (List.length (filter isStreakMilestone ns)
             + List.length (filter isPersonalBest ns))%nat
       /\ Forall (fun n => Nudge.priority n = LOW
                           /\ Nudge.actionable n = false
                           /\ Nudge.type n = STREAK_CELEBRATION) ns
       /\ Forall (fun n => isPersonalBest n = true ->
                           Nudge.metadata n = StreakMeta C (Some true)) ns)
  /\ (forall (clock : nat -> Z) (id : ObjectId) (last : option Z) (w : World),
        exists n w',
          generateMotivationalNudges clock
            (Some (User.mk id (User.mkStreak 7 10 last))) w = (Ok [n], w')
          /\ isStreakMilestone n = true
          /\ isPersonalBest n = false).
Proof.
  split.
  - intros clock u w C L. unfold generateMotivationalNudges.
    fold C L.
    destruct (C =? 7)%Z eqn:E7;
      destruct ((C =? L) && (L - 1 <? C) && (0 <? C))%Z eqn:Eb;
      cbv [bind ret Date_now]; do 2 eexists;
      (split; [reflexivity|]);
      repeat split; repeat constructor;
      try (vm_compute; reflexivity); try discriminate.
  - intros clock id last w. do 2 eexists. repeat split.
Qed.

(* ------------------------------------------------------------------ *)

(* ------------------------------------------------------------------ *)
(** ** Sums and totals *)

Lemma reduce_sum_sumOf {A} (f : A -> float) (l : list A) :
  JS.reduce_sum f l = sumOf (map f l).
Proof.
  unfold JS.reduce_sum, sumOf. generalize 0%float.
  induction l as [|x r IH]; intros acc; simpl; [reflexivity|apply IH].
Qed.

(** What the service reads from an aggregation is the total of the amounts
    of the matching expenses. *)
Lemma aggregate_totalOf (db : Store.t) (matches : StoredExpense -> bool) :
  total_or_zero (aggregate_total db matches)
  = totalOf (map (@Expense.amount _) (filter matches (Store.expenses db))).
Proof.
  unfold aggregate_total.
  destruct (filter matches (Store.expenses db)) as [|x r]; [reflexivity|].
  unfold total_or_zero, totalOf. now rewrite reduce_sum_sumOf.
Qed.

Lemma window_total (db : Store.t) (userId : ObjectId) (startDate endDate : Z) :
  total_or_zero (aggregate_total db (expenseMatch userId startDate endDate))
  = totalOf (amountsIn db userId startDate endDate).
Proof.
  rewrite aggregate_totalOf. unfold amountsIn. do 2 f_equal.
  apply filter_ext. intros x. unfold expenseMatch, countsIn, in_range.
  now rewrite !andb_assoc.
Qed.

Lemma category_total (db : Store.t) (userId categoryId : ObjectId)
    (startDate endDate : Z) :
  total_or_zero
    (aggregate_total db
       (categoryExpenseMatch userId categoryId startDate endDate))
  = totalOf (amountsOf db userId categoryId startDate endDate).
Proof.
  rewrite aggregate_totalOf. unfold amountsOf. do 2 f_equal.
  apply filter_ext. intros x. unfold categoryExpenseMatch, countsIn, in_range.
  destruct (Expense.userId x =? userId)%string,
    (Expense.categoryId x =? categoryId)%string, (Expense.isActive x),
    (startDate <=? Expense.date x)%Z, (Expense.date x <=? endDate)%Z;
    reflexivity.
Qed.

(** A budget above zero passes the guard of the budget detector and of the
    category alerts. *)
Lemma no_budget_guard (budget : float) :
  (0 <? budget)%float = true -> JS.falsy budget || JS.le budget 0 = false.
Proof.
  unfold JS.falsy, JS.le.
  rewrite ltb_compare, leb_compare, !eqb_compare.
  rewrite (compare_antisym budget 0).
  pose proof (compare_self budget 0) as Hs.
  destruct (budget ?= 0)%float, (budget ?= budget)%float;
    try discriminate; try contradiction; reflexivity.
Qed.

(** A double above a mark that is not below zero has an absolute value
    that is not below the mark. *)
Lemma abs_above (c k : float) :
  (k <? c)%float = true -> (0 <=? k)%float = true ->
  (abs c <? k)%float = false.
Proof.
  rewrite !ltb_spec, leb_spec, abs_spec.
  change (Prim2SF 0) with (S754_zero false).
  unfold SFltb, SFleb.
  destruct (Prim2SF c) as [[]|[]| |[] mc ec], (Prim2SF k) as [[]|[]| |[] mk ek];
    simpl; try reflexivity; try discriminate;
    compare_cases; simpl; subst; try reflexivity; try discriminate; try lia.
Qed.

(* ------------------------------------------------------------------ *)
(** ** The weekend detector *)






(* ------------------------------------------------------------------ *)
(** ** The budget detector *)

Section Budget.

Variable clock : nat -> Z.
Variable outage : nat -> bool.
Variable db : Store.t.

Lemma query_Ok {A} (answer : A) (w : World) :
  outage (queries w) = false ->
  query outage answer w = (Ok answer, mkWorld (reads w) (S (queries w))).
Proof. unfold query. now intros ->. Qed.

Lemma getCategorySpendingThisMonth_Ok (userId categoryId : ObjectId)
    (w : World) :
  outage (queries w) = false ->
  getCategorySpendingThisMonth clock outage db userId categoryId w
  = (Ok (totalOf
           (amountsOf db userId categoryId
              (Moment.startOf_month (clock (reads w)))
              (Moment.endOf_month (clock (S (reads w)))))),
     mkWorld (S (S (reads w))) (S (queries w))).
Proof.
  intros H. rewrite <- category_total.
  unfold getCategorySpendingThisMonth, getCategorySpending,
    Expense_aggregate_total, moment_now, Date_now, bind, ret, query.
  simpl. now rewrite H.
Qed.

(** What one turn of the loop can push. *)
Lemma budgetNudgesFor_shape (userId : ObjectId) (category : Category.t)
    (w w' : World) (ns : list Nudge.t) :
  budgetNudgesFor clock outage db userId category w = (Ok ns, w') ->
  (List.length ns <= 1)%nat
  /\ Forall (fun n => metadataCategory n = Some (Category._id category)
                      /\ Nudge.type n = BUDGET_OVERAGE
                      /\ stamped n) ns.
Proof.
  unfold budgetNudgesFor.
  destruct (Category.monthlyBudget category) as [budget|];
    [|intros H; inversion H; subst; simpl; auto].
  destruct (JS.falsy budget || JS.le budget 0);
    [intros H; inversion H; subst; simpl; auto|].
  intros H. apply bind_Ok in H. destruct H as (spent & w1 & _ & H).
  destruct (JS.ge (spent / budget * 100) 100);
    [|destruct (JS.ge (spent / budget * 100) 80)];
    cbv [bind ret Date_now moment_now] in H; inversion H; subst; simpl;
    (split; [lia|]); repeat constructor.
  - exists ("budget_overage_" ++ Category._id category)%string,
      (clock (reads w1)).
    reflexivity.
  - exists ("budget_warning_" ++ Category._id category)%string,
      (clock (S (S (reads w1)))).
    reflexivity.
Qed.

Lemma filter_about_other (cid : string) (ns : list Nudge.t) (c : string) :
  c <> cid ->
  Forall (fun n => metadataCategory n = Some c) ns ->
  filter (aboutCategory cid) ns = [].
Proof.
  intros Hc Hns. induction Hns as [|n r Hn Hr IH]; [reflexivity|].
  simpl. unfold aboutCategory at 1. rewrite Hn.
  destruct (String.eqb_spec c cid); [contradiction|exact IH].
Qed.

Lemma detectBudgetOverspend_count (userId : ObjectId) (startDate endDate : Z)
    (categories : list Category.t) (cid : ObjectId) :
  forall (w w' : World) (ns : list Nudge.t),
    detectBudgetOverspend clock outage db userId categories startDate endDate w
    = (Ok ns, w') ->
    (List.length (filter (aboutCategory cid) ns)
     <= List.length
          (filter (fun c => Category._id c =? cid)%string categories))%nat.
Proof.
  unfold detectBudgetOverspend.
  induction categories as [|c r IH]; simpl; intros w w' ns H.
  - inversion H; subst. simpl. lia.
  - apply bind_Ok in H. destruct H as (pushed & w1 & H1 & H).
    apply bind_Ok in H. destruct H as (more & w2 & H2 & H).
    inversion H; subst. apply IH in H2.
    apply budgetNudgesFor_shape in H1. destruct H1 as [Hlen Hall].
    rewrite filter_app, length_app.
    destruct (String.eqb_spec (Category._id c) cid) as [E|E].
    + pose proof (filter_length_le (aboutCategory cid) pushed). simpl. lia.
    + rewrite (filter_about_other (cid := cid) (ns := pushed) (c := Category._id c)); [simpl; lia|assumption|].
      eapply Forall_impl; [|exact Hall]. now intros n [Hn _].
Qed.

Lemma NoDup_ids_count (categories : list Category.t) (cid : ObjectId) :
  NoDup (map Category._id categories) ->
  (List.length (filter (fun c => Category._id c =? cid)%string categories)
   <= 1)%nat.
Proof.
  induction categories as [|c r IH]; simpl; intros Hnd; [lia|].
  inversion Hnd as [|? ? Hnotin Hr]; subst.
  destruct (String.eqb_spec (Category._id c) cid) as [E|E]; [|now apply IH].
  simpl. enough (filter (fun c0 => Category._id c0 =? cid)%string r = []) as ->
    by (simpl; lia).
  clear IH Hnd Hr. induction r as [|d r IHr]; [reflexivity|]. simpl.
  destruct (String.eqb_spec (Category._id d) cid) as [Ed|Ed].
  - elim Hnotin. left. congruence.
  - apply IHr. intros Hin. apply Hnotin. now right.
Qed.

End Budget.

(** The marks of the budget bands: a percentage that is not 80 or more is
    not 100 or more. *)
Lemma below_80_below_100 (p : float) :
  (80 <=? p)%float = false -> (100 <=? p)%float = false.
Proof.
  rewrite !leb_compare, (compare_antisym p 80), (compare_antisym p 100).
  pose proof (@compare_marks p 80 100 eq_refl) as H.
  destruct (p ?= 80)%float, (p ?= 100)%float;
    try contradiction; try discriminate; reflexivity.
Qed.

(** C2 (amended).  For a category with a monthly budget above zero, with
    [percentage] the total of the category's amounts of the calendar month
    over the budget times 100, computed in doubles, one turn of the budget
    detector pushes exactly one of: the overage nudge (priority high) when
    [percentage >= 100]; the warning nudge (priority medium) when
    [percentage >= 80] and not [percentage >= 100]; nothing when
    [percentage >= 80] fails.  Both nudges carry the type [BUDGET_OVERAGE]:
    the warning differs from the overage in its identifier, title and
    priority, not in its type.  Both carry the identifier and the name of
    the category, the budget, the total and the percentage as
    [toFixed(1)] prints it.  Over a run on categories with distinct
    identifiers, at most one nudge is about a given category. *)
Theorem budget_detector (clock : nat -> Z) (outage : nat -> bool)
    (db : Store.t) (userId : ObjectId) (category : Category.t)
    (budget : float) (w : World) :
  Category.monthlyBudget category = Some budget ->
  (0 <? budget)%float = true ->
  outage (queries w) = false ->
  let spent :=
    totalOf
      (amountsOf db userId (Category._id category)
         (Moment.startOf_month (clock (reads w)))
         (Moment.endOf_month (clock (S (reads w))))) in
  let percentage := (spent / budget * 100)%float in
  (exists ns w',
     budgetNudgesFor clock outage db userId category w = (Ok ns, w')
     /\ ((100 <=? percentage)%float = true ->
         exists n,
           ns = [n]
           /\ isBudgetOverage n = true /\ isBudgetWarning n = false
           /\ Nudge.type n = BUDGET_OVERAGE
           /\ Nudge.priority n = HIGH /\ Nudge.actionable n = true
           /\ Nudge.metadata n
              = BudgetMeta (Category._id category) (Category.name category)
                  budget spent (JS.roundTo 1 percentage) None)
     /\ ((80 <=? percentage)%float = true ->
         (100 <=? percentage)%float = false ->
         exists n days,
           ns = [n]
           /\ isBudgetWarning n = true /\ isBudgetOverage n = false
           /\ Nudge.type n = BUDGET_OVERAGE
           /\ Nudge.priority n = MEDIUM /\ Nudge.actionable n = true
           /\ Nudge.metadata n
              = BudgetMeta (Category._id category) (Category.name category)
                  budget spent (JS.roundTo 1 percentage) (Some days))
     /\ ((80 <=? percentage)%float = false -> ns = []))
  /\ (forall categories startDate endDate w0 w1 out,
        detectBudgetOverspend clock outage db userId categories startDate
          endDate w0 = (Ok out, w1) ->
        NoDup (map Category._id categories) ->
        (List.length (filter (aboutCategory (Category._id category)) out)
         <= 1)%nat).
Proof.
  intros Hbudget Hpos Hup spent percentage. split.
  - unfold budgetNudgesFor. rewrite Hbudget, no_budget_guard by assumption.
    erewrite bind_Ok_intro
      by (apply getCategorySpendingThisMonth_Ok; assumption).
    fold spent. fold percentage. unfold JS.ge.
    destruct (100 <=? percentage)%float eqn:E100;
      [|destruct (80 <=? percentage)%float eqn:E80];
      cbv [bind ret Date_now moment_now]; do 2 eexists;
      (split; [reflexivity|]).
    + split; [|split]; intros.
      * eexists. repeat split.
      * discriminate.
      * apply below_80_below_100 in H. congruence.
    + split; [|split]; intros; try discriminate.
      do 2 eexists. repeat split.
    + split; [|split]; intros; try discriminate. reflexivity.
  - intros categories startDate endDate w0 w1 out Hrun Hnd.
    eapply Nat.le_trans;
      [eapply detectBudgetOverspend_count; exact Hrun|].
    now apply NoDup_ids_count.
Qed.

(* ------------------------------------------------------------------ *)
(** ** The gathered categories *)

(** C9 (amended).  The data gatherer returns exactly the active categories
    of the user, whatever their budget; it is the budget detector and the
    category alerts that pass over a category whose monthly budget is zero
    or absent. *)
Theorem gathered_categories (clock : nat -> Z) (outage : nat -> bool)
    (db : Store.t) (userId : ObjectId) (w : World) :
  outage (queries w) = false ->
  exists categories w',
    getUserCategories outage db userId w = (Ok categories, w')
    /\ (forall c,
          In c categories
          <-> In c (Store.categories db)
              /\ Category.userId c = userId /\ Category.isActive c = true)
    /\ (forall c w0 startDate endDate,
          Category.monthlyBudget c = None
          \/ (exists b,
                Category.monthlyBudget c = Some b /\ (b =? 0)%float = true) ->
          budgetNudgesFor clock outage db userId c w0 = (Ok [], w0)
          /\ categoryAlertsFor outage db userId startDate endDate c w0
             = (Ok [], w0)).
Proof.
  intros Hup. unfold getUserCategories. rewrite query_Ok by assumption.
  do 2 eexists. split; [reflexivity|]. split.
  - intros c. rewrite filter_In. unfold categoryMatch.
    rewrite andb_true_iff, String.eqb_eq. tauto.
  - intros c w0 startDate endDate Hc.
    unfold budgetNudgesFor, categoryAlertsFor.
    destruct Hc as [->|(b & -> & Hb)]; [split; reflexivity|].
    unfold JS.falsy. rewrite Hb. split; reflexivity.
Qed.

(* ------------------------------------------------------------------ *)
(** ** The two trend computations *)

Section Trends.

Variable clock : nat -> Z.
Variable outage : nat -> bool.
Variable db : Store.t.

Lemma getTotalSpending_Ok (userId : ObjectId) (startDate endDate : Z)
    (w : World) :
  outage (queries w) = false ->
  getTotalSpending outage db userId startDate endDate w
  = (Ok (totalOf (amountsIn db userId startDate endDate)),
     mkWorld (reads w) (S (queries w))).
Proof.
  intros H. rewrite <- window_total.
  unfold getTotalSpending, Expense_aggregate_total, bind, ret, query.
  now rewrite H.
Qed.

Lemma period_totals_Ok (userId : ObjectId) (startDate endDate : Z)
    (w : World) :
  outage (queries w) = false ->
  outage (S (queries w)) = false ->
  Promise_all2
    (getTotalSpending outage db userId startDate endDate)
    (getTotalSpending outage db userId
       (previousPeriodStart startDate endDate) (previousPeriodEnd startDate))
    w
  = (Ok (totalOf (amountsIn db userId startDate endDate),
         totalOf
           (amountsIn db userId
              (Moment.subtract_days startDate
                 (Moment.diff_days endDate startDate))
              (Moment.subtract_days startDate 1))),
     mkWorld (reads w) (S (S (queries w)))).
Proof.
  intros H0 H1. unfold Promise_all2.
  rewrite getTotalSpending_Ok by assumption.
  rewrite getTotalSpending_Ok by assumption. reflexivity.
Qed.

End Trends.

(** The marks of the trend: a change below -10 is not above 15, a change
    above 15 is above 5, a change below -10 is below -5 and a change below
    -5 is not above 5. *)
Lemma below_not_above (c lo hi : float) :
  (lo ?= hi)%float = FLt ->
  (c <? lo)%float = true -> (hi <? c)%float = false.
Proof.
  intros Hm. rewrite !ltb_compare, (compare_antisym c hi).
  pose proof (@compare_marks c lo hi Hm) as H.
  destruct (c ?= lo)%float, (c ?= hi)%float;
    try contradiction; try discriminate; reflexivity.
Qed.

Lemma above_mark (c lo hi : float) :
  (lo ?= hi)%float = FLt ->
  (hi <? c)%float = true -> (lo <? c)%float = true.
Proof.
  intros Hm. rewrite !ltb_compare, (compare_antisym c hi),
    (compare_antisym c lo).
  pose proof (@compare_marks c lo hi Hm) as H.
  destruct (c ?= lo)%float, (c ?= hi)%float;
    try contradiction; try discriminate; reflexivity.
Qed.

Lemma below_mark (c lo hi : float) :
  (lo ?= hi)%float = FLt ->
  (c <? lo)%float = true -> (c <? hi)%float = true.
Proof.
  intros Hm. rewrite !ltb_compare.
  pose proof (@compare_marks c lo hi Hm) as H.
  destruct (c ?= lo)%float, (c ?= hi)%float;
    try contradiction; try discriminate; reflexivity.
Qed.

Lemma trend_nudge_cases (clock : nat -> Z) (outage : nat -> bool)
    (db : Store.t) (userId : ObjectId) (startDate endDate : Z) (w : World) :
  outage (queries w) = false ->
  outage (S (queries w)) = false ->
  let currentTotal := totalOf (amountsIn db userId startDate endDate) in
  let previousTotal :=
    totalOf
      (amountsIn db userId
         (Moment.subtract_days startDate (Moment.diff_days endDate startDate))
         (Moment.subtract_days startDate 1)) in
  let change :=
    ((currentTotal - previousTotal) / previousTotal * 100)%float in
  exists r w',
    analyzeSpendingTrendsForNudge clock outage db userId startDate endDate w
    = (Ok r, w')
    /\ ((previousTotal =? 0)%float = true -> r = None)
    /\ ((previousTotal =? 0)%float = false ->
        ((abs change <? 15)%float = true -> r = None)
        /\ ((15 <? change)%float = true ->
            exists n,
              r = Some n
              /\ isTrendUp n = true /\ isTrendDown n = false
              /\ Nudge.type n = SPENDING_TREND
              /\ Nudge.priority n = MEDIUM /\ Nudge.actionable n = true
              /\ Nudge.metadata n
                 = TrendMeta (JS.roundTo 2 currentTotal)
                     (JS.roundTo 2 previousTotal) (JS.roundTo 1 change))
        /\ ((abs change <? 15)%float = false ->
            (change <? -10)%float = true ->
            exists n,
              r = Some n
              /\ isTrendDown n = true /\ isTrendUp n = false
              /\ Nudge.type n = SPENDING_TREND
              /\ Nudge.priority n = LOW /\ Nudge.actionable n = false
              /\ Nudge.metadata n
                 = TrendMeta (JS.roundTo 2 currentTotal)
                     (JS.roundTo 2 previousTotal) (JS.roundTo 1 change))
        /\ ((15 <? change)%float = false ->
            (change <? -10)%float = false -> r = None)).
Proof.
  intros H0 H1. cbv zeta.
  unfold analyzeSpendingTrendsForNudge.
  erewrite bind_Ok_intro by (apply period_totals_Ok; assumption).
  cbv beta iota.
  generalize (totalOf (amountsIn db userId startDate endDate)).
  generalize
    (totalOf
       (amountsIn db userId
          (Moment.subtract_days startDate
             (Moment.diff_days endDate startDate))
          (Moment.subtract_days startDate 1))).
  intros previousTotal currentTotal.
  unfold changeOf, JS.strict_eq, JS.lt, JS.gt, JS.Math_abs.
  set (change := ((currentTotal - previousTotal) / previousTotal * 100)%float).
  destruct (previousTotal =? 0)%float eqn:Ezero.
  { do 2 eexists. split; [reflexivity|]. split; [reflexivity|]. discriminate. }
  destruct (abs change <? 15)%float eqn:Eabs.
  { do 2 eexists. split; [reflexivity|]. split; [discriminate|]. intros _.
    split; [reflexivity|].
    split; [intros H; apply abs_above in H; [congruence|reflexivity]|].
    split; [discriminate|]. reflexivity. }
  destruct (15 <? change)%float eqn:Eup.
  { cbv [bind ret Date_now]. do 2 eexists.
    split; [reflexivity|]. split; [discriminate|]. intros _.
    split; [discriminate|].
    split; [intros _; eexists; repeat split|].
    split; [|discriminate].
    intros _ H. apply (@below_not_above change (-10) 15 eq_refl) in H.
    congruence. }
  destruct (change <? -10)%float eqn:Edown.
  { cbv [bind ret Date_now]. do 2 eexists.
    split; [reflexivity|]. split; [discriminate|]. intros _.
    split; [discriminate|]. split; [discriminate|].
    split; [intros _ _; eexists; repeat split|]. discriminate. }
  do 2 eexists.
  split; [reflexivity|]. split; [discriminate|]. intros _.
  split; [reflexivity|]. split; [discriminate|].
  split; [discriminate|]. reflexivity.
Qed.

(** C3.  With the totals of the window and of the period before it as the
    engine reads them, and [change] the relative change in percent
    computed in doubles, the trend detector returns nothing when the
    previous total is 0; otherwise it returns nothing when [|change| < 15];
    of the remaining cases, [change > 15] gives the spending-up nudge
    (priority medium, actionable) and [change < -10] gives the
    spending-down nudge (priority low, not actionable), both with the two
    totals and the change as [toFixed] prints them; in every other case,
    a change of exactly 15 among them, it returns nothing. *)
Theorem trend_detector (clock : nat -> Z) (outage : nat -> bool)
    (db : Store.t) (userId : ObjectId) (startDate endDate : Z) (w : World) :
  outage (queries w) = false ->
  outage (S (queries w)) = false ->
  let currentTotal := totalOf (amountsIn db userId startDate endDate) in
  let previousTotal :=
    totalOf
      (amountsIn db userId
         (Moment.subtract_days startDate (Moment.diff_days endDate startDate))
         (Moment.subtract_days startDate 1)) in
  let change :=
    ((currentTotal - previousTotal) / previousTotal * 100)%float in
  exists r w',
    analyzeSpendingTrendsForNudge clock outage db userId startDate endDate w
    = (Ok r, w')
    /\ ((previousTotal =? 0)%float = true -> r = None)
    /\ ((previousTotal =? 0)%float = false ->
        ((abs change <? 15)%float = true -> r = None)
        /\ ((15 <? change)%float = true ->
            exists n,
              r = Some n
              /\ isTrendUp n = true /\ isTrendDown n = false
              /\ Nudge.type n = SPENDING_TREND
              /\ Nudge.priority n = MEDIUM /\ Nudge.actionable n = true
              /\ Nudge.metadata n
                 = TrendMeta (JS.roundTo 2 currentTotal)
                     (JS.roundTo 2 previousTotal) (JS.roundTo 1 change))
        /\ ((abs change <? 15)%float = false ->
            (change <? -10)%float = true ->
            exists n,
              r = Some n
              /\ isTrendDown n = true /\ isTrendUp n = false
              /\ Nudge.type n = SPENDING_TREND
              /\ Nudge.priority n = LOW /\ Nudge.actionable n = false
              /\ Nudge.metadata n
                 = TrendMeta (JS.roundTo 2 currentTotal)
                     (JS.roundTo 2 previousTotal) (JS.roundTo 1 change))
        /\ ((15 <? change)%float = false ->
            (change <? -10)%float = false -> r = None)).
Proof. apply trend_nudge_cases. Qed.

Lemma analyzeSpendingTrends_Ok (outage : nat -> bool) (db : Store.t)
    (userId : ObjectId) (startDate endDate : Z) (w : World) :
  outage (queries w) = false ->
  outage (S (queries w)) = false ->
  exists sp,
    analyzeSpendingTrends outage db userId startDate endDate w
    = (Ok sp, mkWorld (reads w) (S (S (queries w))))
    /\ sp =
       let currentTotal := totalOf (amountsIn db userId startDate endDate) in
       let previousTotal :=
         totalOf
           (amountsIn db userId
              (Moment.subtract_days startDate
                 (Moment.diff_days endDate startDate))
              (Moment.subtract_days startDate 1)) in
       let '(trend, changePercentage) :=
         if (0 <? previousTotal)%float then
           let change :=
             ((currentTotal - previousTotal) / previousTotal * 100)%float in
           if (5 <? change)%float then ("up"%string, change)
           else if (change <? -5)%float then ("down"%string, change)
                else ("stable"%string, change)
         else ("stable"%string, 0%float) in
       SpendingPatterns.mk (trend =? "up")%string trend
         (JS.roundTo 1 changePercentage)
         (JS.roundTo 2 currentTotal)
         (JS.roundTo 2 previousTotal).
Proof.
  intros H0 H1. unfold analyzeSpendingTrends.
  erewrite bind_Ok_intro by (apply getTotalSpending_Ok; assumption).
  erewrite bind_Ok_intro by (apply getTotalSpending_Ok; assumption).
  cbv zeta. unfold changeOf, JS.gt, JS.lt, previousPeriodStart,
    previousPeriodEnd.
  destruct (0 <? _)%float;
    [destruct (5 <? _)%float; [|destruct (_ <? -5)%float]|];
    eexists; split; reflexivity.
Qed.

(** C7.  With the totals and the change as the engine computes them, in
    doubles, the aggregator labels the trend "up" exactly when
    [change > 5], "down" exactly when [change < -5] and "stable" otherwise,
    and reports the change as [toFixed(1)] prints it; when the previous
    period's total is 0 it reports a change of 0 and "stable".  With a
    previous total of 1000 and a current total of 1200 the change is 20,
    the label is "up" and the trend detector returns the spending-up
    nudge. *)
Theorem aggregator_trend (clock : nat -> Z) (outage : nat -> bool)
    (db : Store.t) (userId : ObjectId) (startDate endDate : Z) (w : World) :
  outage (queries w) = false ->
  outage (S (queries w)) = false ->
  let currentTotal := totalOf (amountsIn db userId startDate endDate) in
  let previousTotal :=
    totalOf
      (amountsIn db userId
         (Moment.subtract_days startDate (Moment.diff_days endDate startDate))
         (Moment.subtract_days startDate 1)) in
  let change :=
    ((currentTotal - previousTotal) / previousTotal * 100)%float in
  exists sp w',
    analyzeSpendingTrends outage db userId startDate endDate w = (Ok sp, w')
    /\ SpendingPatterns.currentPeriod sp = JS.roundTo 2 currentTotal
    /\ SpendingPatterns.previousPeriod sp = JS.roundTo 2 previousTotal
    /\ ((0 <? previousTotal)%float = true ->
        (SpendingPatterns.trend sp = "up"%string
         <-> (5 <? change)%float = true)
        /\ (SpendingPatterns.trend sp = "down"%string
            <-> (change <? -5)%float = true)
        /\ (SpendingPatterns.trend sp = "stable"%string
            <-> (5 <? change)%float = false /\ (change <? -5)%float = false)
        /\ SpendingPatterns.changePercentage sp = JS.roundTo 1 change)
    /\ ((previousTotal =? 0)%float = true ->
        SpendingPatterns.changePercentage sp = 0%float
        /\ SpendingPatterns.trend sp = "stable"%string)
    /\ (currentTotal = 1200%float -> previousTotal = 1000%float ->
        change = 20%float
        /\ SpendingPatterns.trend sp = "up"%string
        /\ exists n w'',
             analyzeSpendingTrendsForNudge clock outage db userId startDate
               endDate w = (Ok (Some n), w'')
             /\ isTrendUp n = true).
Proof.
  intros H0 H1. cbv zeta.
  destruct (@analyzeSpendingTrends_Ok outage db userId startDate endDate w
              H0 H1) as (sp & Hrun & Hsp).
  destruct (@trend_nudge_cases clock outage db userId startDate endDate w
              H0 H1) as (r & w'' & Hnudge & _ & Hrest).
  revert Hsp Hnudge Hrest. cbv zeta.
  generalize (totalOf (amountsIn db userId startDate endDate)).
  generalize
    (totalOf
       (amountsIn db userId
          (Moment.subtract_days startDate
             (Moment.diff_days endDate startDate))
          (Moment.subtract_days startDate 1))).
  intros previousTotal currentTotal.
  set (change := ((currentTotal - previousTotal) / previousTotal * 100)%float).
  intros Hsp Hnudge Hrest.
  exists sp. eexists. split; [exact Hrun|].
  assert (Hscenario : currentTotal = 1200%float ->
                      previousTotal = 1000%float ->
                      change = 20%float).
  { intros Hc Hp. unfold change. rewrite Hc, Hp. reflexivity. }
  assert (Hnudge20 : currentTotal = 1200%float ->
                     previousTotal = 1000%float ->
                     exists n w3,
                       analyzeSpendingTrendsForNudge clock outage db userId
                         startDate endDate w = (Ok (Some n), w3)
                       /\ isTrendUp n = true).
  { intros Hc Hp. specialize (Hscenario Hc Hp).
    destruct Hrest as (_ & Hup & _); [now rewrite Hp|].
    destruct Hup as (n & -> & Hn & _); [now rewrite Hscenario|].
    now exists n, w''. }
  destruct (0 <? previousTotal)%float eqn:Epos.
  - destruct (5 <? change)%float eqn:Eup;
      [|destruct (change <? -5)%float eqn:Edown]; subst sp;
      cbn [SpendingPatterns.trend SpendingPatterns.changePercentage
             SpendingPatterns.currentPeriod SpendingPatterns.previousPeriod];
      (split; [reflexivity|]); (split; [reflexivity|]).
    + split; [intros _|split].
      * split; [tauto|]. split; [|split; [|reflexivity]].
        -- split; [discriminate|]. intros H.
           apply (@below_not_above change (-5) 5 eq_refl) in H. congruence.
        -- split; [discriminate|]. intros [H _]. discriminate.
      * intros Hz. rewrite eqb_compare in Hz. rewrite ltb_compare in Epos.
        rewrite (compare_antisym previousTotal 0) in Epos.
        destruct (previousTotal ?= 0)%float; discriminate.
      * intros Hc Hp. split; [auto|]. split; [reflexivity|]. auto.
    + split; [intros _|split].
      * split; [split; discriminate|]. split; [tauto|].
        split; [|reflexivity]. split; [discriminate|]. intros [_ H].
        discriminate.
      * intros Hz. rewrite eqb_compare in Hz. rewrite ltb_compare in Epos.
        rewrite (compare_antisym previousTotal 0) in Epos.
        destruct (previousTotal ?= 0)%float; discriminate.
      * intros Hc Hp. specialize (Hscenario Hc Hp).
        rewrite Hscenario in Eup. discriminate Eup.
    + split; [intros _|split].
      * split; [split; discriminate|]. split; [split; discriminate|].
        split; [tauto|reflexivity].
      * intros Hz. rewrite eqb_compare in Hz. rewrite ltb_compare in Epos.
        rewrite (compare_antisym previousTotal 0) in Epos.
        destruct (previousTotal ?= 0)%float; discriminate.
      * intros Hc Hp. specialize (Hscenario Hc Hp).
        rewrite Hscenario in Eup. discriminate Eup.
  - subst sp.
    cbn [SpendingPatterns.trend SpendingPatterns.changePercentage
           SpendingPatterns.currentPeriod SpendingPatterns.previousPeriod].
    split; [reflexivity|]. split; [reflexivity|].
    split; [discriminate|].
    split; [intros _; split; reflexivity|].
    intros _ Hp. rewrite Hp in Epos. discriminate Epos.
Qed.

(* ------------------------------------------------------------------ *)
(** ** The category-pattern detector *)

Section Patterns.

Variable clock : nat -> Z.
Variable toString : CategoryRef.t -> string.

Lemma smallPurchasesNudge_shape (k : string) (c : Category.t)
    (es : list GatheredExpense) (w : World) :
  exists o w',
    smallPurchasesNudge clock k c es w = (Ok o, w')
    /\ Forall (fun x => metadataCategory x = Some k
                        /\ Nudge.type x = CATEGORY_PATTERN
                        /\ stamped x) o.
Proof.
  unfold smallPurchasesNudge.
  destruct (10 <=? _)%nat; cbv [bind ret Date_now]; do 2 eexists;
    (split; [reflexivity|]); repeat constructor.
  exists ("small_purchases_" ++ k)%string, (clock (reads w)). reflexivity.
Qed.

Lemma spikeNudge_shape (k : string) (c : Category.t)
    (es : list GatheredExpense) (w : World) :
  exists o w',
    spikeNudge clock k c es w = (Ok o, w')
    /\ Forall (fun x => metadataCategory x = Some k
                        /\ Nudge.type x = CATEGORY_PATTERN
                        /\ stamped x) o.
Proof.
  unfold spikeNudge.
  destruct (3 <=? _)%nat; [destruct (JS.gt _ _)|];
    cbv [bind ret Date_now]; do 2 eexists;
    (split; [reflexivity|]); repeat constructor.
  exists ("unusual_spike_" ++ k)%string, (clock (reads w)). reflexivity.
Qed.

(** One turn of the loop over the groups. *)
Lemma categoryPatternNudgesFor_run (categories : list Category.t)
    (k : string) (es : list GatheredExpense) (w : World) :
  exists o w',
    categoryPatternNudgesFor clock categories (k, es) w = (Ok o, w')
    /\ Forall (fun x => metadataCategory x = Some k
                        /\ Nudge.type x = CATEGORY_PATTERN
                        /\ stamped x) o
    /\ (find (fun c => Category._id c =? k)%string categories = None ->
        o = [] /\ w' = w).
Proof.
  unfold categoryPatternNudgesFor.
  destruct (find (fun c => Category._id c =? k)%string categories) as [c|].
  - destruct (smallPurchasesNudge_shape k c es w)
      as (small & w1 & Hsmall & Hs).
    destruct (spikeNudge_shape k c es w1) as (spike & w2 & Hspike & Hp).
    erewrite bind_Ok_intro by eassumption.
    erewrite bind_Ok_intro by eassumption.
    do 2 eexists. split; [reflexivity|]. split; [|discriminate].
    apply Forall_app. split; assumption.
  - do 2 eexists. split; [reflexivity|]. split; [constructor|].
    split; reflexivity.
Qed.

(** The keys under which the expenses are filed are printed references;
    the grouping fails only on a reference that is [null]. *)
Lemma group_push_keys (P : string -> Prop) (key : string)
    (e : GatheredExpense) (groups : list (string * list GatheredExpense)) :
  P key ->
  Forall (fun g => P (fst g)) groups ->
  Forall (fun g => P (fst g)) (group_push key e groups).
Proof.
  intros Hk. induction 1 as [|[k es] r Hg Hr IH]; simpl.
  - repeat constructor. exact Hk.
  - destruct (k =? key)%string; constructor; simpl in *; assumption.
Qed.

Lemma groupByCategory_keys (expenses : list GatheredExpense) :
  match groupByCategory toString expenses with
  | Ok groups =>
      Forall (fun e => Expense.categoryId e <> None) expenses
      /\ Forall (fun g => exists ref, fst g = toString ref) groups
  | Throw err =>
      err = TypeError
      /\ ~ Forall (fun e => Expense.categoryId e <> None) expenses
  end.
Proof.
  unfold groupByCategory.
  assert (G : forall acc,
            match acc with
            | Ok groups =>
                Forall (fun g : string * list GatheredExpense =>
                          exists ref, fst g = toString ref) groups
            | Throw err => err = TypeError
            end ->
            match
              fold_left
                (fun acc expense =>
                   match acc with
                   | Throw err => Throw err
                   | Ok groups =>
                       match Expense.categoryId expense with
                       | None => Throw TypeError
                       | Some ref =>
                           Ok (group_push (toString ref) expense groups)
                       end
                   end) expenses acc
            with
            | Ok groups =>
                (exists g0, acc = Ok g0)
                /\ Forall (fun e => Expense.categoryId e <> None) expenses
                /\ Forall (fun g => exists ref, fst g = toString ref) groups
            | Throw err =>
                err = TypeError
                /\ ((exists g0, acc = Ok g0) ->
                    ~ Forall (fun e => Expense.categoryId e <> None)
                        expenses)
            end).
  { induction expenses as [|e r IH]; intros acc Hacc; simpl.
    - destruct acc as [g0|err].
      + split; [now exists g0|]. split; [constructor|assumption].
      + split; [assumption|]. intros [g0 H]. discriminate.
    - destruct acc as [g0|err].
      + destruct (Expense.categoryId e) as [ref|] eqn:Eref.
        * specialize (IH (Ok (group_push (toString ref) e g0))).
          cbv beta iota in IH.
          match type of IH with ?A -> _ =>
            assert (HA : A)
              by (apply group_push_keys
                    with (P := fun k => exists ref0, k = toString ref0);
                  [now exists ref|assumption])
          end.
          specialize (IH HA).
          destruct (fold_left _ r _) as [groups|err'].
          -- destruct IH as (_ & Hall & Hk).
             split; [now exists g0|]. split; [|assumption].
             constructor; [congruence|assumption].
          -- destruct IH as [He Hn]. split; [assumption|]. intros _ Hall.
             inversion Hall; subst. apply Hn; [eexists; reflexivity|assumption].
        * specialize (IH (Throw TypeError) eq_refl).
          destruct (fold_left _ r _) as [groups|err'].
          -- destruct IH as ([g1 H] & _). discriminate.
          -- destruct IH as [He _]. split; [assumption|]. intros _ Hall.
             inversion Hall; subst. congruence.
      + specialize (IH (Throw err) Hacc).
        destruct (fold_left _ r _) as [groups|err'].
        * destruct IH as ([g1 H] & _). discriminate.
        * destruct IH as [He _]. split; [assumption|].
          intros [g1 H]. discriminate. }
  specialize (G (Ok []) (Forall_nil _)).
  match type of G with
  | match ?X with _ => _ end => destruct X as [groups|err]
  end.
  - destruct G as (_ & Hall & Hk). split; assumption.
  - destruct G as [He Hn]. split; [assumption|]. apply Hn. now exists [].
Qed.

Lemma detectCategoryPatterns_wf (userId : ObjectId)
    (expenses : list GatheredExpense) (categories : list Category.t)
    (w w' : World) (ns : list Nudge.t) :
  detectCategoryPatterns clock toString userId expenses categories w
  = (Ok ns, w') ->
  Forall wellFormed ns.
Proof.
  unfold detectCategoryPatterns.
  destruct (groupByCategory toString expenses) as [groups|]; [|discriminate].
  apply for_of_Forall. intros [k es] w0 out w1 H.
  destruct (categoryPatternNudgesFor_run categories k es w0)
    as (o & w2 & H' & Hshape & _).
  rewrite H in H'. inversion H'; subst.
  eapply Forall_impl; [|exact Hshape]. cbv beta.
  intros n (_ & Ht & Hs). split; [assumption|]. rewrite Ht. discriminate.
Qed.

(** A printed document is the identifier of no category. *)
Lemma hex_not_brace (s : string) :
  isObjectId s = true -> startsWith "{" s = false.
Proof.
  unfold isObjectId. destruct s as [|c r]; [reflexivity|].
  intros H. apply andb_true_iff in H. destruct H as [_ H].
  simpl in H. apply andb_true_iff in H. destruct H as [Hc _].
  cbn [startsWith]. destruct (Ascii.eqb "{" c) eqn:E; [|reflexivity].
  apply Ascii.eqb_eq in E. subst c. vm_compute in Hc. discriminate Hc.
Qed.

Lemma printed_key_unlisted (categories : list Category.t) (ref : CategoryRef.t) :
  printsDocuments toString ->
  Forall (fun c => isObjectId (Category._id c) = true) categories ->
  find (fun c => Category._id c =? toString ref)%string categories = None.
Proof.
  intros Hp. induction 1 as [|c r Hc _ IH]; [reflexivity|]. simpl.
  destruct (String.eqb_spec (Category._id c) (toString ref)) as [E|_];
    [|exact IH].
  apply hex_not_brace in Hc. rewrite E, (Hp ref) in Hc. discriminate.
Qed.

(** With documents printed as documents, every group is passed over. *)
Lemma detectCategoryPatterns_silent (userId : ObjectId)
    (expenses : list GatheredExpense) (categories : list Category.t)
    (w : World) :
  printsDocuments toString ->
  Forall (fun c => isObjectId (Category._id c) = true) categories ->
  (Forall (fun e => Expense.categoryId e <> None) expenses
   /\ detectCategoryPatterns clock toString userId expenses categories w
      = (Ok [], w))
  \/ (~ Forall (fun e => Expense.categoryId e <> None) expenses
      /\ detectCategoryPatterns clock toString userId expenses categories w
         = (Throw TypeError, w)).
Proof.
  intros Hp Hids. unfold detectCategoryPatterns.
  pose proof (groupByCategory_keys expenses) as Hg.
  destruct (groupByCategory toString expenses) as [groups|err].
  - destruct Hg as [Hall Hk]. left. split; [assumption|].
    clear Hall. induction Hk as [|[k es] r (ref & Hkey) _ IH];
      [reflexivity|].
    simpl in Hkey. subst k. cbn [for_of].
    destruct (categoryPatternNudgesFor_run categories (toString ref) es w)
      as (o & w1 & Hrun & _ & Hnone).
    destruct (Hnone (printed_key_unlisted ref Hp Hids)) as [-> ->].
    unfold bind at 1. rewrite Hrun.
    unfold bind at 1. rewrite IH. reflexivity.
  - destruct Hg as [-> Hn]. right. split; [assumption|reflexivity].
Qed.

End Patterns.

(** C5 (the claim holds of the rule, not of the program).  The expenses
    are filed under [expense.categoryId.toString()], which on the
    populated reference is the printed document, and a group is looked up
    among the categories by [c._id.toString()], 24 hexadecimal digits: no
    group finds its category, so the detector returns no nudge at all (or
    throws on a reference that is [null]), whatever the amounts.  For
    three expenses of 100, 600 and 100 in the category Bills the amounts
    sort to 600, 100, 100, the median is 100 and 600 is above five times
    100; the spike test on that group gives the spending-spike nudge, but
    the detector never reaches it. *)
Theorem spike_detector_misses (clock : nat -> Z)
    (toString : CategoryRef.t -> string) (userId : ObjectId)
    (expenses : list GatheredExpense) (categories : list Category.t)
    (w : World) :
  printsDocuments toString ->
  Forall (fun c => isObjectId (Category._id c) = true) categories ->
  (Forall (fun e => Expense.categoryId e <> None) expenses ->
   detectCategoryPatterns clock toString userId expenses categories w
   = (Ok [], w))
  /\ (~ Forall (fun e => Expense.categoryId e <> None) expenses ->
      detectCategoryPatterns clock toString userId expenses categories w
      = (Throw TypeError, w))
  /\ (let amounts :=
        JS.sort_numbers descending
          (map (@Expense.amount _) Example.spikeInBills) in
      let median := nth (List.length amounts / 2) amounts JS.NaN in
      let largest := nth 0 amounts JS.NaN in
      amounts = [600; 100; 100]%float
      /\ median = 100%float
      /\ largest = 600%float
      /\ JS.gt largest (median * 5) = true
      /\ In Example.bills Example.gatheredCategories
      /\ Forall (fun e => Expense.categoryId e
                          = Some (Example.refOf Example.bills))
           Example.spikeInBills
      /\ (exists n w',
            spikeNudge clock (Category._id Example.bills) Example.bills
              Example.spikeInBills w = (Ok [n], w')
            /\ isSpendingSpike n = true
            /\ Nudge.priority n = MEDIUM
            /\ Nudge.actionable n = true)
      /\ detectCategoryPatterns clock Example.toString userId
           Example.spikeInBills Example.gatheredCategories w
         = (Ok [], w)).
Proof.
  intros Hp Hids.
  assert (Hexample :
            detectCategoryPatterns clock Example.toString userId
              Example.spikeInBills Example.gatheredCategories w
            = (Ok [], w)).
  { destruct (@detectCategoryPatterns_silent clock Example.toString userId
                Example.spikeInBills Example.gatheredCategories w)
      as [[_ H]|[H _]]; [intros ref; reflexivity|repeat constructor|exact H|].
    elim H. repeat constructor; discriminate. }
  destruct (detectCategoryPatterns_silent clock userId expenses w Hp Hids)
    as [[Hall Hrun]|[Hall Hrun]];
    (split; [intros H; first [exact Hrun|contradiction]|]);
    (split; [intros H; first [exact Hrun|contradiction]|]);
    cbv zeta; (split; [reflexivity|]); (split; [reflexivity|]);
    (split; [reflexivity|]); (split; [reflexivity|]);
    (split; [simpl; tauto|]); (split; [repeat constructor|]);
    (split; [|exact Hexample]);
    do 2 eexists; cbv [spikeNudge bind ret Date_now];
    (split; [reflexivity|repeat split]).
Qed.

(* ------------------------------------------------------------------ *)
(** ** Every nudge of every evaluator is well formed *)

Section Evaluators.

Variable clock : nat -> Z.
Variable outage : nat -> bool.
Variable db : Store.t.
Variable toString : CategoryRef.t -> string.

Lemma detectWeekendSpending_wf (userId : ObjectId)
    (expenses : list GatheredExpense) (w w' : World) (ns : list Nudge.t) :
  option_to_list (detectWeekendSpending clock userId expenses) w = (Ok ns, w')
  -> Forall wellFormed ns.
Proof.
  unfold option_to_list, detectWeekendSpending.
  destruct (_ || _)%bool; [|destruct (JS.gt _ _)];
    cbv [bind ret Date_now]; intros H; inversion H; subst;
    repeat constructor; try discriminate.
  exists "weekend_spending"%string, (clock (reads w)). reflexivity.
Qed.

Lemma detectBudgetOverspend_wf (userId : ObjectId)
    (categories : list Category.t) (startDate endDate : Z) (w w' : World)
    (ns : list Nudge.t) :
  detectBudgetOverspend clock outage db userId categories startDate endDate w
  = (Ok ns, w') ->
  Forall wellFormed ns.
Proof.
  unfold detectBudgetOverspend. apply for_of_Forall.
  intros c w0 out w1 H. apply budgetNudgesFor_shape in H.
  destruct H as [_ H]. eapply Forall_impl; [|exact H]. cbv beta.
  intros n (_ & Ht & Hs). split; [assumption|]. rewrite Ht. discriminate.
Qed.

Lemma analyzeSpendingTrendsForNudge_wf (userId : ObjectId)
    (startDate endDate : Z) (w w' : World) (ns : list Nudge.t) :
  option_to_list
    (analyzeSpendingTrendsForNudge clock outage db userId startDate endDate)
    w = (Ok ns, w') ->
  Forall wellFormed ns.
Proof.
  unfold option_to_list. intros H.
  apply bind_Ok in H. destruct H as (r & w1 & H & Hret).
  inversion Hret; subst. clear Hret.
  unfold analyzeSpendingTrendsForNudge in H.
  apply bind_Ok in H. destruct H as ([cur prev] & w2 & _ & H).
  destruct (JS.strict_eq prev 0); [inversion H; constructor|].
  destruct (JS.lt _ 15); [inversion H; constructor|].
  destruct (JS.gt _ 15); [|destruct (JS.lt _ (-10))];
    cbv [bind ret Date_now] in H; inversion H; subst;
    repeat constructor; try discriminate.
  - exists "spending_increase"%string, (clock (reads w2)). reflexivity.
  - exists "spending_decrease"%string, (clock (reads w2)). reflexivity.
Qed.

Lemma generateMotivationalNudges_wf (user : option User.t) (w w' : World)
    (ns : list Nudge.t) :
  generateMotivationalNudges clock user w = (Ok ns, w') ->
  Forall wellFormed ns.
Proof.
  unfold generateMotivationalNudges. destruct user as [u|]; [|discriminate].
  destruct (_ =? 7)%Z; destruct (_ && _)%bool;
    cbv [bind ret Date_now]; intros H; inversion H; subst;
    repeat constructor; try discriminate;
    try (exists "streak_7"%string; eexists; reflexivity);
    try (exists "personal_best"%string; eexists; reflexivity).
Qed.

Lemma evaluators_wf (userId : ObjectId) (expenses : list GatheredExpense)
    (categories : list Category.t) (user : option User.t)
    (startDate endDate : Z) :
  Forall (fun ev => forall w ns w', ev w = (Ok ns, w') -> Forall wellFormed ns)
    (evaluators clock outage db toString userId expenses categories user
       startDate endDate).
Proof.
  unfold evaluators. repeat constructor; intros w ns w'.
  - apply detectWeekendSpending_wf.
  - apply detectBudgetOverspend_wf.
  - apply analyzeSpendingTrendsForNudge_wf.
  - apply generateMotivationalNudges_wf.
  - apply detectCategoryPatterns_wf.
  - intros H. inversion H. constructor.
Qed.

End Evaluators.

(* ------------------------------------------------------------------ *)
(** ** The [try] block of [generateAllNudges] *)

Lemma collect_run (evs : list (M (list Nudge.t))) :
  forall (nudges : list Nudge.t) (w : World),
    collect evs nudges w
    = let '(os, _, w') := runUntilThrow evs w in
      (Ok (nudges ++ List.concat os)%list, w').
Proof.
  induction evs as [|ev r IH]; intros nudges w; simpl.
  - unfold ret. now rewrite app_nil_r.
  - unfold push_or_catch. destruct (ev w) as [[o|e] w1].
    + rewrite IH. destruct (runUntilThrow r w1) as [[os complete] w2].
      simpl. now rewrite app_assoc.
    + simpl. now rewrite app_nil_r.
Qed.

Lemma runUntilThrow_Forall {A} (P : A -> Prop) (cs : list (M A)) :
  Forall (fun c => forall w o w', c w = (Ok o, w') -> P o) cs ->
  forall w, Forall P (fst (fst (runUntilThrow cs w))).
Proof.
  induction 1 as [|c r Hc _ IH]; intros w; simpl; [constructor|].
  destruct (c w) as [[o|e] w1] eqn:E; [|constructor].
  specialize (IH w1). destruct (runUntilThrow r w1) as [[os complete] w2].
  simpl in *. constructor; [|assumption]. eapply Hc. eassumption.
Qed.

Lemma Forall_concat {A} (P : A -> Prop) (ls : list (list A)) :
  Forall (Forall P) ls -> Forall P (List.concat ls).
Proof.
  induction 1 as [|l r Hl _ IH]; simpl; [constructor|].
  apply Forall_app. now split.
Qed.

Section AllNudges.

Variable clock : nat -> Z.
Variable outage : nat -> bool.
Variable db : Store.t.
Variable toString : CategoryRef.t -> string.

Lemma generateAllNudges_run (userId : ObjectId)
    (expenses : list GatheredExpense) (categories : list Category.t)
    (user : option User.t) (startDate endDate : Z) (w : World) :
  generateAllNudges clock outage db toString userId expenses categories user
    startDate endDate w
  = let '(os, _, w') :=
      runUntilThrow
        (evaluators clock outage db toString userId expenses categories user
           startDate endDate) w in
    (Ok (List.concat os), w').
Proof.
  change (generateAllNudges clock outage db toString userId expenses
            categories user startDate endDate)
    with (collect
            (evaluators clock outage db toString userId expenses categories
               user startDate endDate) []).
  now rewrite collect_run.
Qed.

Lemma generateAllNudges_wf (userId : ObjectId)
    (expenses : list GatheredExpense) (categories : list Category.t)
    (user : option User.t) (startDate endDate : Z) (w w' : World)
    (ns : list Nudge.t) :
  generateAllNudges clock outage db toString userId expenses categories user
    startDate endDate w = (Ok ns, w') ->
  Forall wellFormed ns.
Proof.
  rewrite generateAllNudges_run.
  assert (H : Forall (Forall wellFormed)
                (fst (fst (runUntilThrow
                             (evaluators clock outage db toString userId
                                expenses categories user startDate endDate)
                             w))))
    by (apply runUntilThrow_Forall, evaluators_wf).
  destruct (runUntilThrow _ w) as [[os complete] w1]. simpl in H.
  intros E. inversion E; subst. now apply Forall_concat.
Qed.

End AllNudges.

(* ------------------------------------------------------------------ *)
(** ** The prioritised list *)

Lemma stamped_idStamp (n : Nudge.t) : stamped n -> exists t, idStamp n = Some t.
Proof.
  intros (p & t & H). exists t. unfold idStamp. rewrite H.
  apply JSFacts.stamp_of_id.
Qed.

Lemma priorityRank_range (n : Nudge.t) : (1 <= priorityRank n <= 3)%Z.
Proof. unfold priorityRank. destruct (Nudge.priority n); simpl; lia. Qed.

Lemma precedes_trans (a b c : Nudge.t) :
  precedes a b -> precedes b c -> precedes a c.
Proof.
  unfold precedes.
  intros [Hab|(Hab & ta & tb & Ha & Hb & Hle)]
         [Hbc|(Hbc & tb' & tc & Hb' & Hc & Hle')]; try (left; lia).
  right. split; [lia|]. exists ta, tc. repeat split; try assumption.
  rewrite Hb in Hb'. inversion Hb'; subst. lia.
Qed.

Lemma compare_positive (x y : Nudge.t) :
  stamped x -> stamped y ->
  JS.positive (compareNudges x y) = true -> precedes y x.
Proof.
  intros Hx Hy. apply stamped_idStamp in Hx, Hy.
  destruct Hx as (tx & Hx), Hy as (ty & Hy).
  unfold compareNudges, precedes. rewrite Hx, Hy.
  destruct (Z.eqb_spec (priorityRank x) (priorityRank y)) as [E|E];
    cbn [negb]; rewrite positive_inject_Z; intros H.
  - right. split; [congruence|]. exists ty, tx. repeat split; try assumption.
    lia.
  - left. lia.
Qed.

Lemma compare_not_positive (x y : Nudge.t) :
  stamped x -> stamped y ->
  JS.positive (compareNudges x y) = false -> precedes x y.
Proof.
  intros Hx Hy. apply stamped_idStamp in Hx, Hy.
  destruct Hx as (tx & Hx), Hy as (ty & Hy).
  unfold compareNudges, precedes. rewrite Hx, Hy.
  destruct (Z.eqb_spec (priorityRank x) (priorityRank y)) as [E|E];
    cbn [negb]; rewrite positive_inject_Z_false; intros H.
  - right. split; [assumption|]. exists tx, ty. repeat split; try assumption.
    lia.
  - left. lia.
Qed.

Lemma sameKey_unordered (rank stamp : Z) (x y : Nudge.t) :
  sameKey rank stamp x = true -> sameKey rank stamp y = true ->
  JS.positive (compareNudges x y) = false.
Proof.
  unfold sameKey, compareNudges. intros Hx Hy.
  apply andb_true_iff in Hx, Hy. destruct Hx as [Rx Sx], Hy as [Ry Sy].
  apply Z.eqb_eq in Rx, Ry.
  destruct (idStamp x) as [tx|]; [|discriminate].
  destruct (idStamp y) as [ty|]; [|discriminate].
  apply Z.eqb_eq in Sx, Sy. subst.
  rewrite Ry, Z.eqb_refl. cbn [negb].
  apply positive_inject_Z_false. lia.
Qed.

Lemma prioritizeNudges_perm (l : list Nudge.t) :
  Permutation (prioritizeNudges l) l.
Proof. apply sort_perm. Qed.

Lemma prioritizeNudges_sorted (l : list Nudge.t) :
  Forall stamped l -> StronglySorted precedes (prioritizeNudges l).
Proof.
  intros H. unfold prioritizeNudges.
  apply sort_sorted with (P := stamped); try assumption.
  - apply precedes_trans.
  - apply compare_positive.
  - apply compare_not_positive.
Qed.

Lemma prioritizeNudges_stable (rank stamp : Z) (l : list Nudge.t) :
  filter (sameKey rank stamp) (prioritizeNudges l)
  = filter (sameKey rank stamp) l.
Proof. apply filter_sort, sameKey_unordered. Qed.

Lemma precedes_byRank (a b : Nudge.t) : precedes a b -> byRank a b.
Proof. unfold precedes, byRank. intros [H|[H _]]; lia. Qed.

Lemma StronglySorted_impl {A} (R S : A -> A -> Prop) (l : list A) :
  (forall a b, R a b -> S a b) -> StronglySorted R l -> StronglySorted S l.
Proof.
  intros HRS. induction 1 as [|x r Hr IH Hx]; constructor; [assumption|].
  eapply Forall_impl; [|exact Hx]. intros b. apply HRS.
Qed.

Lemma Forall_firstn {A} (P : A -> Prop) (n : nat) (l : list A) :
  Forall P l -> Forall P (firstn n l).
Proof.
  intros H. revert n. induction H as [|x r Hx _ IH]; intros [|n]; simpl;
    constructor; auto.
Qed.

Lemma StronglySorted_firstn {A} (R : A -> A -> Prop) (n : nat) (l : list A) :
  StronglySorted R l -> StronglySorted R (firstn n l).
Proof.
  intros H. revert n. induction H as [|x r Hr IH Hx]; intros [|n]; simpl;
    try constructor; [apply IH|].
  now apply Forall_firstn.
Qed.

(* ------------------------------------------------------------------ *)
(** ** The entry point *)

Section Insights.

Variable clock : nat -> Z.
Variable outage : nat -> bool.
Variable db : Store.t.
Variable toString : CategoryRef.t -> string.

Lemma resolveDates_total (startDate endDate : option Z) (w : World) :
  exists s e w0, resolveDates clock startDate endDate w = (Ok (s, e), w0).
Proof.
  destruct startDate, endDate; cbv [resolveDates bind ret moment_now Date_now];
    eauto.
Qed.

(** The entry point, after the dates are resolved. *)
Lemma generateInsights_resolved (userId : ObjectId)
    (startDate endDate : option Z) (w w0 : World) (s e : Z) :
  resolveDates clock startDate endDate w = (Ok (s, e), w0) ->
  generateInsights clock outage db toString userId startDate endDate w
  = (gathered <- gather outage db userId s e ;;
     let '(expenses, categories, user) := gathered in
     nudges <-
       generateAllNudges clock outage db toString userId expenses categories
         user s e ;;
     spendingPatterns <- analyzeSpendingTrends outage db userId s e ;;
     categoryAlerts <-
       analyzeCategorySpending outage db userId categories s e ;;
     streakInfo <-
       match user with
       | Some u => ret (User.streak u)
       | None => throw TypeError
       end ;;
     ret (InsightResult.mk
            (JS.slice0 5 (prioritizeNudges nudges))
            (Insights.mk spendingPatterns categoryAlerts streakInfo)
            (Period.mk s e))) w0.
Proof.
  destruct startDate, endDate;
    cbv [resolveDates bind ret moment_now Date_now];
    intros H; inversion H; subst; reflexivity.
Qed.

Lemma generateInsights_Ok (userId : ObjectId) (startDate endDate : option Z)
    (w w' : World) (r : InsightResult.t) :
  generateInsights clock outage db toString userId startDate endDate w
  = (Ok r, w') ->
  exists s e w0 expenses categories u w1 collected w2 w3,
    resolveDates clock startDate endDate w = (Ok (s, e), w0)
    /\ gather outage db userId s e w0
       = (Ok (expenses, categories, Some u), w1)
    /\ generateAllNudges clock outage db toString userId expenses categories
         (Some u) s e w1 = (Ok collected, w2)
    /\ analyzeSpendingTrends outage db userId s e w2
       = (Ok (Insights.spendingPatterns (InsightResult.insights r)), w3)
    /\ analyzeCategorySpending outage db userId categories s e w3
       = (Ok (Insights.categoryAlerts (InsightResult.insights r)), w')
    /\ Insights.streakInfo (InsightResult.insights r) = User.streak u
    /\ InsightResult.nudges r = firstn 5 (prioritizeNudges collected)
    /\ InsightResult.period r = Period.mk s e.
Proof.
  destruct (resolveDates_total startDate endDate w) as (s & e & w0 & Hd).
  erewrite generateInsights_resolved by eassumption. intros H.
  apply bind_Ok in H. destruct H as ([[expenses categories] user] & w1 & Hg & H).
  apply bind_Ok in H. destruct H as (collected & w2 & Hn & H).
  apply bind_Ok in H. destruct H as (sp & w3 & Hsp & H).
  apply bind_Ok in H. destruct H as (alerts & w4 & Ha & H).
  apply bind_Ok in H. destruct H as (streak & w5 & Hs & H).
  destruct user as [u|]; [|discriminate].
  inversion Hs; subst. inversion H; subst. clear Hs H.
  exists s, e, w0, expenses, categories, u, w1, collected, w2, w3.
  simpl. repeat split; assumption.
Qed.

Lemma generateInsights_gather_Throw (userId : ObjectId)
    (startDate endDate : option Z) (w w0 w1 : World) (s e : Z) (err : Error) :
  resolveDates clock startDate endDate w = (Ok (s, e), w0) ->
  gather outage db userId s e w0 = (Throw err, w1) ->
  generateInsights clock outage db toString userId startDate endDate w
  = (Throw err, w1).
Proof.
  intros Hd Hg. erewrite generateInsights_resolved by eassumption.
  now apply bind_Throw.
Qed.

End Insights.

(** C1 (amended).  The nudge list that [generateInsights] returns is the
    list of the nudges collected from the evaluators on the gathered data
    (the concatenation of the outputs of all of them when none throws),
    sorted stably by priority
    rank, high before medium before low, nudges of one rank by descending
    stamp of their identifier, nudges of one rank and one stamp (built in
    the same millisecond) in the order in which they were built, and then
    cut to its first 5 entries: it has at most 5 entries and no nudge of a
    lower priority comes before one of a higher priority. *)
Theorem prioritized_nudges (clock : nat -> Z) (outage : nat -> bool)
    (db : Store.t) (toString : CategoryRef.t -> string) (userId : ObjectId)
    (startDate endDate : option Z) (w w' : World) (r : InsightResult.t) :
  generateInsights clock outage db toString userId startDate endDate w
  = (Ok r, w') ->
  exists s e w0 expenses categories user w1 outputs complete w2,
    resolveDates clock startDate endDate w = (Ok (s, e), w0)
    /\ gather outage db userId s e w0 = (Ok (expenses, categories, user), w1)
    /\ runUntilThrow
         (evaluators clock outage db toString userId expenses categories user
            s e) w1 = (outputs, complete, w2)
    /\ let collected := List.concat outputs in
       let sorted := prioritizeNudges collected in
       InsightResult.nudges r = firstn 5 sorted
       /\ Permutation sorted collected
       /\ StronglySorted precedes sorted
       /\ (forall rank stamp,
             filter (sameKey rank stamp) sorted
             = filter (sameKey rank stamp) collected)
       /\ (List.length (InsightResult.nudges r) <= 5)%nat
       /\ StronglySorted byRank (InsightResult.nudges r).
Proof.
  intros H. apply generateInsights_Ok in H.
  destruct H as (s & e & w0 & expenses & categories & u & w1 & collected
                 & w2 & w3 & Hd & Hg & Hn & _ & _ & _ & Hr & _).
  assert (Hwf : Forall wellFormed collected)
    by (eapply generateAllNudges_wf; eassumption).
  rewrite generateAllNudges_run in Hn.
  destruct (runUntilThrow _ w1) as [[outputs complete] w2'] eqn:Erun.
  inversion Hn; subst collected w2'. clear Hn.
  exists s, e, w0, expenses, categories, (Some u), w1, outputs, complete, w2.
  split; [exact Hd|]. split; [exact Hg|]. split; [exact Erun|]. cbv zeta.
  assert (Hsorted : StronglySorted precedes
                      (prioritizeNudges (List.concat outputs))).
  { apply prioritizeNudges_sorted. eapply Forall_impl; [|exact Hwf].
    now intros n [Hs _]. }
  split; [exact Hr|]. split; [apply prioritizeNudges_perm|].
  split; [exact Hsorted|]. split; [intros; apply prioritizeNudges_stable|].
  rewrite Hr. split; [apply firstn_le_length|].
  apply StronglySorted_firstn.
  eapply StronglySorted_impl; [|exact Hsorted]. apply precedes_byRank.
Qed.

(** C8 (amended).  For every invocation, once the dates are resolved:
    an error of the data gather reaches the caller as it is and nothing is
    returned; when a bundle is returned, the gather succeeded and the bundle
    holds the first 5 of the prioritised collected nudges, the trend and
    category statistics and the streak; but an error raised inside an
    evaluator does not reach the caller: [generateAllNudges] catches it and
    returns the nudges of the evaluators that ran before it, without the
    output of that evaluator or of the later ones. *)
Theorem insight_errors (clock : nat -> Z) (outage : nat -> bool)
    (db : Store.t) (toString : CategoryRef.t -> string) (userId : ObjectId)
    (startDate endDate : option Z) (w : World) :
  exists s e w0,
    resolveDates clock startDate endDate w = (Ok (s, e), w0)
    /\ (forall err w1,
          gather outage db userId s e w0 = (Throw err, w1) ->
          generateInsights clock outage db toString userId startDate endDate w
          = (Throw err, w1))
    /\ (forall r w',
          generateInsights clock outage db toString userId startDate endDate w
          = (Ok r, w') ->
          exists expenses categories u w1 collected w2 w3,
            gather outage db userId s e w0
            = (Ok (expenses, categories, Some u), w1)
            /\ generateAllNudges clock outage db toString userId expenses
                 categories (Some u) s e w1 = (Ok collected, w2)
            /\ InsightResult.nudges r = firstn 5 (prioritizeNudges collected)
            /\ analyzeSpendingTrends outage db userId s e w2
               = (Ok (Insights.spendingPatterns (InsightResult.insights r)),
                  w3)
            /\ analyzeCategorySpending outage db userId categories s e w3
               = (Ok (Insights.categoryAlerts (InsightResult.insights r)),
                  w')
            /\ Insights.streakInfo (InsightResult.insights r) = User.streak u)
    /\ (forall expenses categories user w1,
          generateAllNudges clock outage db toString userId expenses
            categories user s e w1
          = let '(outputs, _, w2) :=
              runUntilThrow
                (evaluators clock outage db toString userId expenses
                   categories user s e) w1 in
            (Ok (List.concat outputs), w2)).
Proof.
  destruct (resolveDates_total clock startDate endDate w) as (s & e & w0 & Hd).
  exists s, e, w0. split; [exact Hd|]. split; [|split].
  - intros err w1 Hg. eapply generateInsights_gather_Throw; eassumption.
  - intros r w' H. apply generateInsights_Ok in H.
    destruct H as (s' & e' & w0' & expenses & categories & u & w1 & collected
                   & w2 & w3 & Hd' & Hg & Hn & Hsp & Ha & Hs & Hr & _).
    rewrite Hd in Hd'. inversion Hd'; subst s' e' w0'.
    exists expenses, categories, u, w1, collected, w2, w3. tauto.
  - intros. apply generateAllNudges_run.
Qed.

(** C10.  No nudge that [generateInsights] returns has the type
    [SAVINGS_MILESTONE], a declared member of [NUDGE_TYPES]: the
    savings-milestone detector returns the empty list whatever it is given. *)
Theorem no_savings_milestone (clock : nat -> Z) (outage : nat -> bool)
    (db : Store.t) (toString : CategoryRef.t -> string) (userId : ObjectId)
    (startDate endDate : option Z) (w w' : World) (r : InsightResult.t) :
  generateInsights clock outage db toString userId startDate endDate w
  = (Ok r, w') ->
  Forall (fun n => Nudge.type n <> SAVINGS_MILESTONE) (InsightResult.nudges r)
  /\ (forall u w0, detectSavingsMilestones u w0 = (Ok [], w0))
  /\ NUDGE_TYPES_value SAVINGS_MILESTONE = "savings_milestone"%string.
Proof.
  intros H. split; [|split; reflexivity].
  apply generateInsights_Ok in H.
  destruct H as (s & e & w0 & expenses & categories & u & w1 & collected
                 & w2 & w3 & _ & _ & Hn & _ & _ & _ & Hr & _).
  apply generateAllNudges_wf in Hn. rewrite Hr.
  apply Forall_firstn.
  apply (Permutation_Forall (Permutation_sym (prioritizeNudges_perm collected))).
  eapply Forall_impl; [|exact Hn]. now intros n [_ Ht].
Qed.

(* ------------------------------------------------------------------ *)

(* ------------------------------------------------------------------ *)
(** ** The request of the example *)

Import Example.


Lemma answer_run :
  generateInsights sameMillisecond noOutage db toString userId None None start
  = (Ok (fst answer), snd answer).
Proof. vm_compute. reflexivity. Qed.

Lemma collected_in_one_millisecond :
  exists collected w,
    generateAllNudges sameMillisecond noOutage db toString userId
      gatheredExpenses gatheredCategories (Some user) windowStart windowEnd
      gatheredAt = (Ok collected, w)
    /\ map Nudge.id collected
       = [ "budget_warning_64b7f0c2a1d3e4f5a6b70001_1710936000000";
           "budget_overage_64b7f0c2a1d3e4f5a6b70003_1710936000000";
           "spending_increase_1710936000000";
           "streak_7_1710936000000";
           "personal_best_1710936000000" ]%string.
Proof. do 2 eexists. split; vm_compute; reflexivity. Qed.

(** C1, as stated, fails when nudges of one priority are built within one
    millisecond: the two streak nudges (and the two medium ones) come out in
    the order in which they were built, not in the reverse of it. *)
Lemma same_millisecond_keeps_construction_order :
  exists r w' collected w1,
    generateInsights sameMillisecond noOutage db toString userId None None
      start = (Ok r, w')
    /\ generateAllNudges sameMillisecond noOutage db toString userId
         gatheredExpenses gatheredCategories (Some user) windowStart windowEnd
         gatheredAt = (Ok collected, w1)
    /\ InsightResult.nudges r = firstn 5 (prioritizeNudges collected)
    /\ map Nudge.id (InsightResult.nudges r)
       = [ "budget_overage_64b7f0c2a1d3e4f5a6b70003_1710936000000";
           "budget_warning_64b7f0c2a1d3e4f5a6b70001_1710936000000";
           "spending_increase_1710936000000";
           "streak_7_1710936000000";
           "personal_best_1710936000000" ]%string
    /\ map Nudge.id (firstn 5 (specPrioritize collected))
       = [ "budget_overage_64b7f0c2a1d3e4f5a6b70003_1710936000000";
           "spending_increase_1710936000000";
           "budget_warning_64b7f0c2a1d3e4f5a6b70001_1710936000000";
           "personal_best_1710936000000";
           "streak_7_1710936000000" ]%string
    /\ InsightResult.nudges r <> firstn 5 (specPrioritize collected).
Proof.
  do 4 eexists. split; [vm_compute; reflexivity|].
  split; [vm_compute; reflexivity|].
  split; [vm_compute; reflexivity|].
  split; [vm_compute; reflexivity|].
  split; [vm_compute; reflexivity|].
  intros H. apply (f_equal (map Nudge.id)) in H. vm_compute in H.
  discriminate.
Qed.

(** With a clock that advances between any two nudges, the same request
    does give nudges of one priority in the reverse of the order in which
    they were built. *)
Lemma ticking_clock_reverses_construction_order :
  exists r w' collected w1,
    generateInsights ticking noOutage db toString userId None None start
    = (Ok r, w')
    /\ generateAllNudges ticking noOutage db toString userId gatheredExpenses
         gatheredCategories (Some user) windowStart windowEnd gatheredAt
       = (Ok collected, w1)
    /\ InsightResult.nudges r = firstn 5 (prioritizeNudges collected)
    /\ InsightResult.nudges r = firstn 5 (specPrioritize collected).
Proof.
  do 4 eexists. repeat (split; [vm_compute; reflexivity|]).
  vm_compute; reflexivity.
Qed.

(** C2, as stated, fails on its last clause: the warning nudge and the
    overage nudge of one run have the same type. *)
Lemma budget_warning_has_overage_type :
  exists warning overage w',
    detectBudgetOverspend sameMillisecond noOutage db userId
      gatheredCategories windowStart windowEnd gatheredAt
    = (Ok [warning; overage], w')
    /\ isBudgetWarning warning = true
    /\ Nudge.priority warning = MEDIUM
    /\ isBudgetOverage overage = true
    /\ Nudge.priority overage = HIGH
    /\ Nudge.type warning = BUDGET_OVERAGE
    /\ Nudge.type warning = Nudge.type overage.
Proof.
  do 3 eexists. repeat (split; [vm_compute; reflexivity|]).
  vm_compute; reflexivity.
Qed.

(** C8, as stated, fails when an evaluator throws: the sixth query of the
    store, made by the trend detector, is rejected; the error is caught in
    [generateAllNudges], and the caller receives a bundle whose nudges are
    those of the two evaluators before it, without the two streak nudges the
    next evaluator gives. *)
Lemma evaluator_error_is_swallowed :
  exists r w' outputs w2 w3 streakNudges w4,
    generateInsights ticking sixthQueryFails db toString userId None None
      start = (Ok r, w')
    /\ gather sixthQueryFails db userId windowStart windowEnd (mkWorld 2 0)
       = (Ok (gatheredExpenses, gatheredCategories, Some user), gatheredAt)
    /\ runUntilThrow
         (evaluators ticking sixthQueryFails db toString userId
            gatheredExpenses gatheredCategories (Some user) windowStart
            windowEnd) gatheredAt = (outputs, false, w2)
    /\ List.length outputs = 2%nat
    /\ analyzeSpendingTrendsForNudge ticking sixthQueryFails db userId
         windowStart windowEnd (mkWorld 10 5) = (Throw (StoreError 5), w3)
    /\ InsightResult.nudges r = firstn 5 (prioritizeNudges (List.concat outputs))
    /\ map Nudge.id (InsightResult.nudges r)
       = [ "budget_overage_64b7f0c2a1d3e4f5a6b70003_1710936000009";
           "budget_warning_64b7f0c2a1d3e4f5a6b70001_1710936000006" ]%string
    /\ generateMotivationalNudges ticking (Some user) w2
       = (Ok streakNudges, w4)
    /\ List.length streakNudges = 2%nat.
Proof.
  do 7 eexists. repeat (split; [vm_compute; reflexivity|]).
  vm_compute; reflexivity.
Qed.

(** C9, as stated, fails in both directions: the gatherer returns an active
    category whose budget is 0, and does not return a budgeted category of
    the user that is not active. *)
Lemma gathered_categories_ignore_budget :
  exists w',
    getUserCategories noOutage db userId (mkWorld 2 1)
    = (Ok gatheredCategories, w')
    /\ In entertainment gatheredCategories
    /\ Category.monthlyBudget entertainment = Some 0%float
    /\ ~ In travel gatheredCategories
    /\ Category.userId travel = userId
    /\ Category.monthlyBudget travel = Some 3000%float.
Proof.
  eexists. split; [vm_compute; reflexivity|].
  split; [right; left; reflexivity|]. split; [reflexivity|].
  split; [|split; reflexivity].
  intros [H|[H|[H|[]]]]; discriminate H.
Qed.

(* ------------------------------------------------------------------ *)
(** ** The theorems at the example *)

Lemma prioritized_nudges_witness :
  (List.length (InsightResult.nudges (fst answer)) <= 5)%nat
  /\ StronglySorted byRank (InsightResult.nudges (fst answer)).
Proof.
  assert (E : generateInsights sameMillisecond noOutage db toString userId
                None None start = (Ok (fst answer), snd answer))
    by (vm_compute; reflexivity).
  destruct (@prioritized_nudges _ _ _ _ _ _ _ _ _ _ E)
    as (s & e & w0 & expenses & categories & u & w1 & outputs & complete & w2
        & _ & _ & _ & _ & _ & _ & _ & Hlen & Hsorted).
  exact (conj Hlen Hsorted).
Defined.

(** Three purchases of 15.79, 48.41 and 35.8 against a budget of 100 add up
    to 99.99999999999999 in doubles: a warning, not an overage.  A fare of
    16.08 against a budget of 20.10 comes to 79.99999999999999 percent:
    nothing. *)
Lemma budget_detector_witness :
  (exists n w',
     budgetNudgesFor sameMillisecond noOutage Sample.cents Sample.centsUserId
       Sample.snacks gatheredAt = (Ok [n], w')
     /\ isBudgetWarning n = true
     /\ Nudge.type n = BUDGET_OVERAGE
     /\ Nudge.priority n = MEDIUM)
  /\ (exists w',
        budgetNudgesFor sameMillisecond noOutage Sample.cents
          Sample.centsUserId Sample.transit gatheredAt = (Ok [], w')).
Proof.
  split.
  - destruct (@budget_detector sameMillisecond noOutage Sample.cents
                Sample.centsUserId Sample.snacks 100%float gatheredAt
                eq_refl eq_refl eq_refl)
      as [(ns & w' & Hrun & _ & Hwarning & _) _].
    destruct Hwarning as (n & days & -> & Hw & _ & Ht & Hp & _).
    + vm_compute. reflexivity.
    + vm_compute. reflexivity.
    + exists n, w'. repeat split; assumption.
  - destruct (@budget_detector sameMillisecond noOutage Sample.cents
                Sample.centsUserId Sample.transit 20.10%float gatheredAt
                eq_refl eq_refl eq_refl)
      as [(ns & w' & Hrun & _ & _ & Hnone) _].
    rewrite Hnone in Hrun by (vm_compute; reflexivity).
    now exists w'.
Defined.

(** From 3.00 to 3.45 the change is 15.000000000000005 in doubles: the
    spending-up nudge.  From 1.20 to 1.02 it is -14.999999999999996:
    nothing. *)
Lemma trend_detector_witness :
  (exists n w',
     analyzeSpendingTrendsForNudge sameMillisecond noOutage
       (Sample.twoPeriods 3.00 3.45) otherUserId windowStart windowEnd
       gatheredAt = (Ok (Some n), w')
     /\ isTrendUp n = true
     /\ Nudge.priority n = MEDIUM)
  /\ (exists w',
        analyzeSpendingTrendsForNudge sameMillisecond noOutage
          (Sample.twoPeriods 1.20 1.02) otherUserId windowStart windowEnd
          gatheredAt = (Ok None, w')).
Proof.
  split.
  - destruct (@trend_detector sameMillisecond noOutage
                (Sample.twoPeriods 3.00 3.45) otherUserId windowStart
                windowEnd gatheredAt eq_refl eq_refl)
      as (r & w' & Hrun & _ & Hrest).
    destruct Hrest as (_ & Hup & _).
    + vm_compute. reflexivity.
    + destruct Hup as (n & -> & Hn & _ & _ & Hp & _).
      * vm_compute. reflexivity.
      * exists n, w'. repeat split; assumption.
  - destruct (@trend_detector sameMillisecond noOutage
                (Sample.twoPeriods 1.20 1.02) otherUserId windowStart
                windowEnd gatheredAt eq_refl eq_refl)
      as (r & w' & Hrun & _ & Hrest).
    destruct Hrest as (Hsmall & _).
    + vm_compute. reflexivity.
    + rewrite Hsmall in Hrun by (vm_compute; reflexivity).
      now exists w'.
Defined.


(** The three expenses in Bills, with the categories of the example. *)
Lemma spike_detector_misses_witness :
  detectCategoryPatterns sameMillisecond toString userId spikeInBills
    gatheredCategories start = (Ok [], start).
Proof.
  destruct (@spike_detector_misses sameMillisecond toString userId
              spikeInBills gatheredCategories start)
    as (Hok & _).
  - intros ref. reflexivity.
  - repeat constructor.
  - apply Hok. repeat constructor; discriminate.
Defined.

(** The second user of the example spent 1000 and then 1200.  From 1.00 to
    1.05 the change is 5.000000000000004 in doubles: the label is "up". *)
Lemma aggregator_trend_witness :
  (exists sp w' n w'',
     analyzeSpendingTrends noOutage db otherUserId windowStart windowEnd start
     = (Ok sp, w')
     /\ SpendingPatterns.trend sp = "up"%string
     /\ analyzeSpendingTrendsForNudge sameMillisecond noOutage db otherUserId
          windowStart windowEnd start = (Ok (Some n), w'')
     /\ isTrendUp n = true)
  /\ (exists sp w',
        analyzeSpendingTrends noOutage (Sample.twoPeriods 1.00 1.05)
          otherUserId windowStart windowEnd start = (Ok sp, w')
        /\ SpendingPatterns.trend sp = "up"%string).
Proof.
  split.
  - destruct (@aggregator_trend sameMillisecond noOutage db otherUserId
                windowStart windowEnd start eq_refl eq_refl)
      as (sp & w' & Hrun & _ & _ & _ & _ & Hscenario).
    destruct Hscenario as (_ & Hup & n & w'' & Hnudge & Hn).
    + vm_compute. reflexivity.
    + vm_compute. reflexivity.
    + exists sp, w', n, w''. repeat split; assumption.
  - destruct (@aggregator_trend sameMillisecond noOutage
                (Sample.twoPeriods 1.00 1.05) otherUserId windowStart
                windowEnd start eq_refl eq_refl)
      as (sp & w' & Hrun & _ & _ & Hlabel & _).
    destruct Hlabel as ([_ Hup] & _); [vm_compute; reflexivity|].
    exists sp, w'. split; [exact Hrun|]. apply Hup. vm_compute. reflexivity.
Defined.

Lemma gathered_categories_witness :
  exists categories w',
    getUserCategories noOutage db userId start = (Ok categories, w')
    /\ (In food categories
        <-> In food (Store.categories db)
            /\ Category.userId food = userId /\ Category.isActive food = true).
Proof.
  destruct (@gathered_categories sameMillisecond noOutage db userId start
              eq_refl) as (categories & w' & Hrun & Hin & _).
  exists categories, w'. split; [exact Hrun|]. apply Hin.
Defined.

Lemma no_savings_milestone_witness :
  Forall (fun n => Nudge.type n <> SAVINGS_MILESTONE)
    (InsightResult.nudges (fst answer)).
Proof.
  assert (E : generateInsights sameMillisecond noOutage db toString userId
                None None start = (Ok (fst answer), snd answer))
    by (vm_compute; reflexivity).
  exact (proj1 (@no_savings_milestone _ _ _ _ _ _ _ _ _ _ E)).
Defined.

(** * Further properties: the models, the service and its callers *)
(* ================================================================== *)

(* ------------------------------------------------------------------ *)
(** ** The streak kept by the user schema *)
(* ------------------------------------------------------------------ *)

Lemma daysDiff_div (today last : Z) :
  JS.Math_floor (inject_Z (today - last) / inject_Z (1000 * 60 * 60 * 24))
  = ((today - last) / Moment.msPerDay)%Z.
Proof.
  unfold JS.Math_floor. rewrite <- Zdiv_Qdiv. reflexivity.
Qed.

Lemma streakPreSave_untouched (clock : nat -> Z) (s : User.streak_t)
    (w : World) :
  streakPreSave clock false false s w = (Ok s, w).
Proof. reflexivity. Qed.

Lemma streakPreSave_touched (clock : nat -> Z) (isNew modified : bool)
    (s : User.streak_t) (w : World) :
  isNew || modified = true ->
  exists s',
    streakPreSave clock isNew modified s w
    = (Ok s', mkWorld (S (reads w)) (queries w))
    /\ User.lastActiveDate s' = Some (clock (reads w))
    /\ (User.lastActiveDate s = None ->
        User.current s' = 1%Z /\ User.longest s' = 1%Z)
    /\ (forall last,
          User.lastActiveDate s = Some last ->
          let elapsed := (clock (reads w) - last)%Z in
          ((Moment.msPerDay <= elapsed < 2 * Moment.msPerDay)%Z ->
           User.current s' = (User.current s + 1)%Z
           /\ User.longest s'
              = Z.max (User.longest s) (User.current s + 1))
          /\ ((2 * Moment.msPerDay <= elapsed)%Z ->
              User.current s' = 1%Z /\ User.longest s' = User.longest s)
          /\ ((elapsed < Moment.msPerDay)%Z ->
              User.current s' = User.current s
              /\ User.longest s' = User.longest s)).
Proof.
  intros Hf. unfold streakPreSave. rewrite Hf.
  unfold bind, Date_now, ret. cbn [reads queries].
  eexists. split; [reflexivity|]. cbn [User.lastActiveDate].
  split; [reflexivity|]. split.
  - intros Hn. rewrite Hn. cbn. auto.
  - intros last Hl. rewrite Hl. rewrite daysDiff_div.
    set (elapsed := (clock (reads w) - last)%Z).
    unfold Moment.msPerDay in *.
    assert (Hd : forall q, (q * 86400000 <= elapsed < (q + 1) * 86400000)%Z ->
                           (elapsed / 86400000 = q)%Z).
    { intros q Hq. symmetry. apply Z.div_unique with (r := (elapsed - q * 86400000)%Z); lia. }
    split; [|split]; intros H.
    + rewrite (Hd 1%Z) by lia.
      change (1 =? 1)%Z with true. cbn [User.longest User.current].
      split; [reflexivity|].
      destruct (Z.ltb_spec (User.longest s) (User.current s + 1)); lia.
    + assert (2 <= elapsed / 86400000)%Z by (apply Z.div_le_lower_bound; lia).
      destruct (Z.eqb_spec (elapsed / 86400000) 1); [lia|].
      destruct (Z.ltb_spec 1 (elapsed / 86400000)); [|lia].
      split; reflexivity.
    + assert (elapsed / 86400000 < 1)%Z by (apply Z.div_lt_upper_bound; lia).
      destruct (Z.eqb_spec (elapsed / 86400000) 1); [lia|].
      destruct (Z.ltb_spec 1 (elapsed / 86400000)); [lia|].
      split; reflexivity.
Qed.

Lemma streakPreSave_invariant (clock : nat -> Z) (isNew modified : bool)
    (s : User.streak_t) (w : World) :
  streakInvariant s ->
  exists s' w',
    streakPreSave clock isNew modified s w = (Ok s', w')
    /\ streakInvariant s'
    /\ (isNew || modified = true -> User.lastActiveDate s' <> None)
    /\ (isNew || modified = false -> s' = s).
Proof.
  intros [Hle Hone].
  destruct (isNew || modified) eqn:Hf.
  - destruct (streakPreSave_touched clock isNew modified s w Hf)
      as (s' & Hrun & Hlast & Hnone & Hsome).
    exists s', (mkWorld (S (reads w)) (queries w)).
    split; [exact Hrun|]. split; [|split; [congruence|discriminate]].
    destruct (User.lastActiveDate s) as [last|] eqn:Hl.
    + specialize (Hsome last eq_refl). cbv zeta in Hsome.
      destruct Hsome as (H1 & H2 & H3).
      assert (1 <= User.current s)%Z by (apply Hone; discriminate).
      unfold streakInvariant.
      destruct (Z_lt_le_dec (clock (reads w) - last) Moment.msPerDay).
      * destruct (H3 l) as [-> ->]. split; [lia|]. intros _. lia.
      * destruct (Z_lt_le_dec (clock (reads w) - last) (2 * Moment.msPerDay)).
        -- destruct H1 as [-> ->]; [lia|]. split; lia.
        -- destruct (H2 l0) as [-> ->]. split; lia.
    + destruct (Hnone eq_refl) as [Hc Hg]. unfold streakInvariant.
      rewrite Hc, Hg. split; lia.
  - apply orb_false_iff in Hf. destruct Hf as [-> ->].
    exists s, w. split; [reflexivity|]. split; [split; assumption|].
    split; [discriminate|reflexivity].
Qed.

Lemma streakAfterSaves_invariant (clock : nat -> Z)
    (saves : list (bool * bool)) :
  forall (s : User.streak_t) (w : World),
    streakInvariant s ->
    exists s' w',
      streakAfterSaves clock saves s w = (Ok s', w')
      /\ streakInvariant s'
      /\ (existsb (fun f => fst f || snd f) saves = true ->
          User.lastActiveDate s' <> None)
      /\ (User.lastActiveDate s <> None -> User.lastActiveDate s' <> None)
      /\ (existsb (fun f => fst f || snd f) saves = false -> s' = s).
Proof.
  induction saves as [|[isNew modified] r IH]; intros s w Hinv.
  - exists s, w. cbn. repeat split; try apply Hinv; auto; discriminate.
  - destruct (streakPreSave_invariant clock isNew modified w Hinv)
      as (s1 & w1 & Hrun & Hinv1 & Htouched & Hsame).
    destruct (IH s1 w1 Hinv1) as (s' & w' & Hrest & Hinv' & Hex & Hkeep & Hnone).
    exists s', w'. cbn [streakAfterSaves].
    erewrite bind_Ok_intro by exact Hrun. split; [exact Hrest|].
    split; [exact Hinv'|]. cbn [existsb fst snd].
    destruct (isNew || modified) eqn:Hf; cbn [orb].
    + repeat split; auto; discriminate.
    + rewrite (Hsame eq_refl) in *. repeat split; auto.
Qed.

(** X1.  Whatever the saves of a user document, from the streak of a new
    document the middleware keeps [current <= longest]; once a save has
    touched the streak the last active date is set and the streak counts at
    least one day; saves that do not touch it leave the defaults. *)
Theorem streak_saves_invariant (clock : nat -> Z)
    (saves : list (bool * bool)) (w : World) :
  exists s w',
    streakAfterSaves clock saves newStreak w = (Ok s, w')
    /\ (User.current s <= User.longest s)%Z
    /\ (existsb (fun f => fst f || snd f) saves = true ->
        User.lastActiveDate s <> None /\ (1 <= User.current s)%Z)
    /\ (existsb (fun f => fst f || snd f) saves = false -> s = newStreak).
Proof.
  assert (Hinv : streakInvariant newStreak).
  { split; cbn; [lia|congruence]. }
  destruct (streakAfterSaves_invariant clock saves w Hinv)
    as (s & w' & Hrun & [Hle Hone] & Hex & _ & Hnone).
  exists s, w'. repeat split; auto.
Qed.

Lemma motivational_counts (clock : nat -> Z) (u : User.t) (w : World) :
  let C := User.current (User.streak u) in
  let L := User.longest (User.streak u) in
  exists ns w',
    generateMotivationalNudges clock (Some u) w = (Ok ns, w')
    /\ List.length (filter isStreakMilestone ns)
       = (if (C =? 7)%Z then 1 else 0)%nat
    /\ List.length (filter isPersonalBest ns)
       = (if ((C =? L) && (L - 1 <? C) && (0 <? C))%Z then 1 else 0)%nat.
Proof.
  intros C L. unfold generateMotivationalNudges. fold C L.
  destruct (C =? 7)%Z eqn:E7;
    destruct ((C =? L) && (L - 1 <? C) && (0 <? C))%Z eqn:Eb;
    cbv [bind ret Date_now]; do 2 eexists;
    (split; [reflexivity|]); split; reflexivity.
Qed.

(** X2.  A save that touches the streak of a user who was active before,
    followed by the streak evaluator on the saved document: a full day but
    less than two since the last active date adds a day to the streak, and
    the personal-best nudge then comes exactly when the streak had been
    within a day of the longest one, the milestone nudge exactly when the
    streak had been 6; two days or more reset the streak to 1, with no
    milestone nudge and a personal-best nudge only when the longest streak
    is 1; less than a day leaves both counts. *)
Theorem streak_save_then_nudges (clock : nat -> Z) (isNew modified : bool)
    (id : ObjectId) (s0 : User.streak_t) (last : Z) (w : World) :
  isNew || modified = true ->
  streakInvariant s0 ->
  User.lastActiveDate s0 = Some last ->
  let elapsed := (clock (reads w) - last)%Z in
  exists s w1 ns w2,
    streakPreSave clock isNew modified s0 w = (Ok s, w1)
    /\ generateMotivationalNudges clock (Some (User.mk id s)) w1 = (Ok ns, w2)
    /\ User.lastActiveDate s = Some (clock (reads w))
    /\ ((Moment.msPerDay <= elapsed < 2 * Moment.msPerDay)%Z ->
        User.current s = (User.current s0 + 1)%Z
        /\ (List.length (filter isPersonalBest ns) = 1%nat
            <-> (User.longest s0 <= User.current s0 + 1)%Z)
        /\ (List.length (filter isStreakMilestone ns) = 1%nat
            <-> User.current s0 = 6%Z))
    /\ ((2 * Moment.msPerDay <= elapsed)%Z ->
        User.current s = 1%Z
        /\ User.longest s = User.longest s0
        /\ (List.length (filter isPersonalBest ns) = 1%nat
            <-> User.longest s0 = 1%Z)
        /\ filter isStreakMilestone ns = [])
    /\ ((elapsed < Moment.msPerDay)%Z ->
        User.current s = User.current s0
        /\ User.longest s = User.longest s0).
Proof.
  intros Hf [Hle Hone] Hlast elapsed.
  assert (H1 : (1 <= User.current s0)%Z) by (apply Hone; congruence).
  destruct (streakPreSave_touched clock isNew modified s0 w Hf)
    as (s & Hrun & Hnow & _ & Hsome).
  specialize (Hsome last Hlast). cbv zeta in Hsome. fold elapsed in Hsome.
  destruct Hsome as (Hday & Hmore & Hless).
  destruct (motivational_counts clock (User.mk id s)
              (mkWorld (S (reads w)) (queries w)))
    as (ns & w2 & Hns & Hmile & Hbest).
  cbn [User.streak] in Hmile, Hbest.
  exists s, (mkWorld (S (reads w)) (queries w)), ns, w2.
  split; [exact Hrun|]. split; [exact Hns|]. split; [exact Hnow|].
  split; [|split].
  - intros H. destruct (Hday H) as [Hc Hl]. split; [exact Hc|].
    rewrite Hmile, Hbest, Hc, Hl. split.
    + destruct (Z.eqb_spec (User.current s0 + 1)
                  (Z.max (User.longest s0) (User.current s0 + 1)));
        cbn [andb]; [|split; [discriminate|lia]].
      destruct (Z.ltb_spec
                  (Z.max (User.longest s0) (User.current s0 + 1) - 1)
                  (User.current s0 + 1));
        destruct (Z.ltb_spec 0 (User.current s0 + 1)); cbn [andb];
        split; try discriminate; try reflexivity; lia.
    + destruct (Z.eqb_spec (User.current s0 + 1) 7);
        split; try discriminate; try reflexivity; lia.
  - intros H. destruct (Hmore H) as [Hc Hl]. split; [exact Hc|].
    split; [exact Hl|]. rewrite Hbest, Hc, Hl. split.
    + destruct (Z.eqb_spec 1 (User.longest s0)); cbn [andb].
      * rewrite <- e. cbn. split; [lia|reflexivity].
      * split; [discriminate|lia].
    + rewrite Hc in Hmile. cbn in Hmile.
      destruct (filter isStreakMilestone ns); [reflexivity|discriminate].
  - exact Hless.
Qed.

Lemma streak_save_then_nudges_witness :
  exists s w1 ns w2,
    streakPreSave Example.sameMillisecond false true Sample.sixDays
      Example.start = (Ok s, w1)
    /\ generateMotivationalNudges Example.sameMillisecond
         (Some (User.mk Example.userId s)) w1 = (Ok ns, w2)
    /\ User.current s = 7%Z
    /\ List.length (filter isPersonalBest ns) = 1%nat
    /\ List.length (filter isStreakMilestone ns) = 1%nat.
Proof.
  destruct (@streak_save_then_nudges Example.sameMillisecond false true
              Example.userId Sample.sixDays
              (Example.now - Moment.msPerDay)%Z Example.start)
    as (s & w1 & ns & w2 & Hrun & Hns & _ & Hday & _).
  - reflexivity.
  - split; [vm_compute; discriminate|intros _; vm_compute; discriminate].
  - reflexivity.
  - exists s, w1, ns, w2. split; [exact Hrun|]. split; [exact Hns|].
    destruct Hday as (Hc & Hb & Hm).
    + vm_compute. split; [discriminate|reflexivity].
    + split; [exact Hc|]. split.
      * apply Hb. vm_compute. discriminate.
      * apply Hm. reflexivity.
Defined.

(** X3.  Saves that touch the streak less than a day after the one before
    never advance it: however many they are, the current and the longest
    streak stay as they were, while the last active date moves on. *)
Theorem streak_within_a_day (clock : nat -> Z) (saves : list (bool * bool))
    (s0 : User.streak_t) (k0 : nat) (w : World) :
  (forall k, (0 <= clock (S k) - clock k < Moment.msPerDay)%Z) ->
  User.lastActiveDate s0 = Some (clock k0) ->
  reads w = S k0 ->
  exists s w',
    streakAfterSaves clock saves s0 w = (Ok s, w')
    /\ User.current s = User.current s0
    /\ User.longest s = User.longest s0
    /\ exists k, User.lastActiveDate s = Some (clock k)
                 /\ reads w' = S k
                 /\ (k0 <= k)%nat.
Proof.
  intros Hclock. revert s0 k0 w.
  induction saves as [|[isNew modified] r IH]; intros s0 k0 w Hlast Hw.
  - exists s0, w. cbn. repeat split. exists k0. auto.
  - cbn [streakAfterSaves].
    destruct (isNew || modified) eqn:Hf.
    + destruct (streakPreSave_touched clock isNew modified s0 w Hf)
        as (s1 & Hrun & Hnow & _ & Hsome).
      specialize (Hsome _ Hlast). cbv zeta in Hsome.
      destruct Hsome as (_ & _ & Hless).
      rewrite Hw in Hless, Hnow, Hrun.
      destruct Hless as [Hc Hl]; [apply Hclock|].
      destruct (IH s1 (S k0) (mkWorld (S (S k0)) (queries w)) Hnow eq_refl)
        as (s & w' & Hrest & Hc' & Hl' & k & Hk & Hr & Hge).
      exists s, w'. erewrite bind_Ok_intro by exact Hrun.
      split; [exact Hrest|]. split; [congruence|]. split; [congruence|].
      exists k. repeat split; auto. lia.
    + apply orb_false_iff in Hf. destruct Hf as [-> ->].
      destruct (IH s0 k0 w Hlast Hw) as (s & w' & Hrest & Hrem).
      exists s, w'. split; [exact Hrest|exact Hrem].
Qed.

Lemma streak_within_a_day_witness :
  exists s w',
    streakAfterSaves Sample.every23Hours
      [(false, true); (false, true); (false, true)] Sample.threeDays
      (mkWorld 1 0) = (Ok s, w')
    /\ User.current s = 3%Z
    /\ User.longest s = 5%Z.
Proof.
  destruct (@streak_within_a_day Sample.every23Hours
              [(false, true); (false, true); (false, true)] Sample.threeDays
              0%nat (mkWorld 1 0))
    as (s & w' & Hrun & Hc & Hl & _).
  - intros k. unfold Sample.every23Hours, Moment.msPerDay. lia.
  - reflexivity.
  - reflexivity.
  - exists s, w'. split; [exact Hrun|]. split; assumption.
Defined.

(* ------------------------------------------------------------------ *)

(* ------------------------------------------------------------------ *)
(** ** What each evaluator builds *)
(* ------------------------------------------------------------------ *)

Section Built.

Variable clock : nat -> Z.
Variable outage : nat -> bool.
Variable db : Store.t.
Variable toString : CategoryRef.t -> string.
Variable categories : list Category.t.

Local Open Scope string_scope.

Lemma detectWeekendSpending_built (userId : ObjectId)
    (expenses : list GatheredExpense) (w w' : World) (ns : list Nudge.t) :
  option_to_list (detectWeekendSpending clock userId expenses) w = (Ok ns, w')
  -> Forall (builtAs clock categories WEEKEND_SPENDING) ns.
Proof.
  unfold option_to_list, detectWeekendSpending.
  destruct (_ || _)%bool; [|destruct (JS.gt _ _)];
    cbv [bind ret Date_now]; intros H; inversion H; subst;
    forall_built.
  built_nudge "weekend_spending" (reads w).
Qed.

Lemma budgetNudgesFor_built (userId : ObjectId) (category : Category.t)
    (w w' : World) (ns : list Nudge.t) :
  In category categories ->
  budgetNudgesFor clock outage db userId category w = (Ok ns, w') ->
  Forall (builtAs clock categories BUDGET_OVERAGE) ns.
Proof.
  intros Hin. unfold budgetNudgesFor.
  destruct (Category.monthlyBudget category) as [budget|];
    [|intros H; inversion H; forall_built].
  destruct (JS.falsy budget || JS.le budget 0);
    [intros H; inversion H; forall_built|].
  intros H. apply bind_Ok in H. destruct H as (spent & w1 & _ & H).
  destruct (JS.ge (spent / budget * 100) 100);
    [|destruct (JS.ge (spent / budget * 100) 80)];
    cbv [bind ret Date_now moment_now] in H; inversion H; subst;
    forall_built.
  - built_nudge ("budget_overage_" ++ Category._id category)
      (reads w1).
    inversion Hcid; subst. exists category. auto.
  - built_nudge ("budget_warning_" ++ Category._id category)
      (S (S (reads w1))).
    inversion Hcid; subst. exists category. auto.
Qed.

Lemma detectBudgetOverspend_built (userId : ObjectId)
    (startDate endDate : Z) (w w' : World) (ns : list Nudge.t) :
  detectBudgetOverspend clock outage db userId categories startDate endDate w
  = (Ok ns, w') ->
  Forall (builtAs clock categories BUDGET_OVERAGE) ns.
Proof.
  unfold detectBudgetOverspend. apply for_of_Forall_In.
  intros c Hin w0 out w1. now apply budgetNudgesFor_built.
Qed.

Lemma analyzeSpendingTrendsForNudge_built (userId : ObjectId)
    (startDate endDate : Z) (w w' : World) (ns : list Nudge.t) :
  option_to_list
    (analyzeSpendingTrendsForNudge clock outage db userId startDate endDate)
    w = (Ok ns, w') ->
  Forall (builtAs clock categories SPENDING_TREND) ns.
Proof.
  unfold option_to_list. intros H.
  apply bind_Ok in H. destruct H as (r & w1 & H & Hret).
  inversion Hret; subst. clear Hret.
  unfold analyzeSpendingTrendsForNudge in H.
  apply bind_Ok in H. destruct H as ([cur prev] & w2 & _ & H).
  destruct (JS.strict_eq prev 0); [inversion H; forall_built|].
  destruct (JS.lt _ 15); [inversion H; forall_built|].
  destruct (JS.gt _ 15); [|destruct (JS.lt _ (-10))];
    cbv [bind ret Date_now] in H; inversion H; subst;
    forall_built.
  - built_nudge "spending_increase" (reads w2).
  - built_nudge "spending_decrease" (reads w2).
Qed.

Lemma generateMotivationalNudges_built (user : option User.t) (w w' : World)
    (ns : list Nudge.t) :
  generateMotivationalNudges clock user w = (Ok ns, w') ->
  Forall (builtAs clock categories STREAK_CELEBRATION) ns.
Proof.
  unfold generateMotivationalNudges. destruct user as [u|]; [|discriminate].
  destruct (_ =? 7)%Z; destruct (_ && _)%bool;
    cbv [bind ret Date_now]; intros H; inversion H; subst;
    forall_built;
    first [built_nudge "streak_7" (reads w)
          |built_nudge "personal_best" (reads w)
          |built_nudge "personal_best" (S (reads w))].
Qed.

Lemma categoryPatternNudgesFor_built (entry : string * list GatheredExpense)
    (w w' : World) (ns : list Nudge.t) :
  categoryPatternNudgesFor clock categories entry w = (Ok ns, w') ->
  Forall (builtAs clock categories CATEGORY_PATTERN) ns.
Proof.
  destruct entry as [k es]. unfold categoryPatternNudgesFor.
  destruct (find (fun c => Category._id c =? k)%string categories) as [c|]
    eqn:Hfind; [|intros H; inversion H; forall_built].
  apply find_some in Hfind. destruct Hfind as [Hin Hk].
  apply String.eqb_eq in Hk.
  intros H. apply bind_Ok in H. destruct H as (small & w1 & Hsmall & H).
  apply bind_Ok in H. destruct H as (spike & w2 & Hspike & H).
  inversion H; subst ns w'. clear H. apply Forall_app. split.
  - unfold smallPurchasesNudge in Hsmall.
    destruct (10 <=? _)%nat; cbv [bind ret Date_now] in Hsmall;
      inversion Hsmall; subst; forall_built.
    built_nudge ("small_purchases_" ++ Category._id c) (reads w).
    inversion Hcid; subst. exists c. auto.
  - unfold spikeNudge in Hspike.
    destruct (3 <=? _)%nat; [destruct (JS.gt _ _)|];
      cbv [bind ret Date_now] in Hspike;
      inversion Hspike; subst; forall_built.
    built_nudge ("unusual_spike_" ++ Category._id c) (reads w1).
    inversion Hcid; subst. exists c. auto.
Qed.

Lemma detectCategoryPatterns_built (userId : ObjectId)
    (expenses : list GatheredExpense) (w w' : World) (ns : list Nudge.t) :
  detectCategoryPatterns clock toString userId expenses categories w
  = (Ok ns, w') ->
  Forall (builtAs clock categories CATEGORY_PATTERN) ns.
Proof.
  unfold detectCategoryPatterns.
  destruct (groupByCategory toString expenses) as [groups|]; [|discriminate].
  apply for_of_Forall. intros entry w0 out w1.
  apply categoryPatternNudgesFor_built.
Qed.

Lemma evaluators_built (userId : ObjectId) (expenses : list GatheredExpense)
    (user : option User.t) (startDate endDate : Z) :
  Forall2
    (fun ev type =>
       forall w ns w',
         ev w = (Ok ns, w') -> Forall (builtAs clock categories type) ns)
    (evaluators clock outage db toString userId expenses categories user
       startDate endDate)
    evaluatorTypes.
Proof.
  unfold evaluators, evaluatorTypes. repeat constructor; intros w ns w'.
  - apply detectWeekendSpending_built.
  - apply detectBudgetOverspend_built.
  - apply analyzeSpendingTrendsForNudge_built.
  - apply generateMotivationalNudges_built.
  - apply detectCategoryPatterns_built.
  - intros H. inversion H. constructor.
Qed.

End Built.

(* ------------------------------------------------------------------ *)
(** ** Runs of the evaluators, type by type *)
(* ------------------------------------------------------------------ *)

Lemma runUntilThrow_Forall2 {A T} (P : T -> A -> Prop) (cs : list (M A))
    (ts : list T) :
  Forall2 (fun c t => forall w o w', c w = (Ok o, w') -> P t o) cs ts ->
  forall w,
    Forall2 (fun o t => P t o) (fst (fst (runUntilThrow cs w)))
      (firstn (List.length (fst (fst (runUntilThrow cs w)))) ts).
Proof.
  induction 1 as [|c t cs ts Hc _ IH]; intros w; simpl; [constructor|].
  destruct (c w) as [[o|e] w1] eqn:E; [|constructor].
  specialize (IH w1). destruct (runUntilThrow cs w1) as [[os complete] w2].
  simpl in *. constructor; [|assumption]. eapply Hc. eassumption.
Qed.

Lemma runUntilThrow_stops {A} (cs : list (M A)) (i : nat) (c : M A) :
  nth_error cs i = Some c ->
  (forall w, exists e w', c w = (Throw e, w')) ->
  forall w, (List.length (fst (fst (runUntilThrow cs w))) <= i)%nat.
Proof.
  revert i. induction cs as [|c0 cs IH]; intros i Hi Hc w.
  - simpl. lia.
  - destruct i as [|i]; simpl in Hi |- *.
    + inversion Hi; subst c0. destruct (Hc w) as (e & w' & ->). simpl. lia.
    + destruct (c0 w) as [[o|e] w1]; [|simpl; lia].
      specialize (IH i Hi Hc w1).
      destruct (runUntilThrow cs w1) as [[os complete] w2]. simpl in *. lia.
Qed.

Lemma Forall2_Forall_r {A B} (Q : A -> B -> Prop) (R : B -> Prop)
    (l : list A) (l' : list B) :
  Forall2 Q l l' -> Forall R l' ->
  Forall (fun a => exists b, R b /\ Q a b) l.
Proof.
  induction 1 as [|a b l l' Hab _ IH]; intros HR; [constructor|].
  inversion HR; subst. constructor; [|now apply IH]. now exists b.
Qed.

Section Collected.

Variable clock : nat -> Z.
Variable outage : nat -> bool.
Variable db : Store.t.
Variable toString : CategoryRef.t -> string.

(** Every nudge collected is built as the evaluator of its type builds
    it. *)
Lemma generateAllNudges_built (userId : ObjectId)
    (expenses : list GatheredExpense) (categories : list Category.t)
    (user : option User.t) (startDate endDate : Z) (w w' : World)
    (ns : list Nudge.t) :
  generateAllNudges clock outage db toString userId expenses categories user
    startDate endDate w = (Ok ns, w') ->
  Forall (fun n => builtAs clock categories (Nudge.type n) n) ns.
Proof.
  rewrite generateAllNudges_run.
  pose proof (runUntilThrow_Forall2
                (fun type ns => Forall (builtAs clock categories type) ns)
                (evaluators_built clock outage db toString categories userId
                   expenses user startDate endDate) w) as H.
  destruct (runUntilThrow _ w) as [[os complete] w1]. simpl in H.
  intros E. inversion E; subst. apply Forall_concat.
  clear E. induction H as [|o t os ts Ho _ IH]; constructor; [|exact IH].
  eapply Forall_impl; [|exact Ho]. cbv beta. intros n Hn.
  destruct Hn as (Hs & Hc & Ht & Ha). rewrite Ht. repeat split; auto;
    apply Ha.
Qed.

Lemma gather_Ok (userId : ObjectId) (startDate endDate : Z) (w w' : World)
    (expenses : list GatheredExpense) (categories : list Category.t)
    (user : option User.t) :
  gather outage db userId startDate endDate w
  = (Ok (expenses, categories, user), w') ->
  expenses
  = map (populate db)
      (filter (expenseMatch userId startDate endDate) (Store.expenses db))
  /\ categories = filter (categoryMatch userId) (Store.categories db)
  /\ user = find (fun u => User._id u =? userId)%string (Store.users db).
Proof.
  unfold gather, Promise_all3, getUserExpenses, getUserCategories,
    getUserInfo, query.
  destruct (outage (queries w)); cbn [reads queries];
    (destruct (outage (S (queries w))); cbn [reads queries]);
    (destruct (outage (S (S (queries w)))); cbn [reads queries]);
    intros H; inversion H.
  repeat split.
Qed.

End Collected.

Lemma groupByCategory_orphan (toString : CategoryRef.t -> string)
    (expenses : list GatheredExpense) (x : GatheredExpense) :
  In x expenses -> Expense.categoryId x = None ->
  groupByCategory toString expenses = Throw TypeError.
Proof.
  unfold groupByCategory. generalize (@nil (string * list GatheredExpense)).
  induction expenses as [|e r IH]; intros groups Hin Hx; [now elim Hin|].
  cbn [fold_left].
  assert (Hthrow : forall l : list GatheredExpense,
            fold_left
              (fun acc expense =>
                 match acc with
                 | Throw err => Throw err
                 | Ok groups =>
                     match Expense.categoryId expense with
                     | None => Throw TypeError
                     | Some ref =>
                         Ok (group_push (toString ref) expense groups)
                     end
                 end) l (Throw TypeError) = Throw TypeError).
  { induction l as [|a l IHl]; [reflexivity|exact IHl]. }
  destruct Hin as [->|Hin].
  - rewrite Hx. apply Hthrow.
  - destruct (Expense.categoryId e) as [ref|]; [now apply IH|apply Hthrow].
Qed.

(** X7.  One gathered expense whose category reference is [null] makes the
    category-pattern evaluator throw before it looks at any category, and
    the nudges that [generateAllNudges] then returns hold no
    category-pattern nudge at all, whatever the other expenses are. *)
Theorem orphan_expense_silences_patterns (clock : nat -> Z)
    (outage : nat -> bool) (db : Store.t)
    (toString : CategoryRef.t -> string) (userId : ObjectId)
    (expenses : list GatheredExpense) (categories : list Category.t)
    (user : option User.t) (startDate endDate : Z) (x : GatheredExpense)
    (w : World) :
  In x expenses ->
  Expense.categoryId x = None ->
  (forall w0,
     detectCategoryPatterns clock toString userId expenses categories w0
     = (Throw TypeError, w0))
  /\ exists ns w',
       generateAllNudges clock outage db toString userId expenses categories
         user startDate endDate w = (Ok ns, w')
       /\ Forall (fun n => Nudge.type n <> CATEGORY_PATTERN) ns.
Proof.
  intros Hin Hx.
  assert (Hthrow : forall w0,
            detectCategoryPatterns clock toString userId expenses categories
              w0 = (Throw TypeError, w0)).
  { intros w0. unfold detectCategoryPatterns.
    now rewrite (groupByCategory_orphan toString expenses x Hin Hx). }
  split; [exact Hthrow|].
  rewrite generateAllNudges_run.
  set (evs := evaluators clock outage db toString userId expenses categories
                user startDate endDate).
  pose proof (runUntilThrow_Forall2
                (fun type ns => Forall (builtAs clock categories type) ns)
                (evaluators_built clock outage db toString categories userId
                   expenses user startDate endDate) w) as Hbuilt.
  fold evs in Hbuilt.
  assert (Hstop : (List.length (fst (fst (runUntilThrow evs w))) <= 4)%nat).
  { apply runUntilThrow_stops
      with (c := detectCategoryPatterns clock toString userId expenses
                   categories).
    - reflexivity.
    - intros w0. exists TypeError, w0. apply Hthrow. }
  destruct (runUntilThrow evs w) as [[os complete] w1]. simpl in *.
  exists (List.concat os), w1. split; [reflexivity|].
  apply Forall_concat.
  assert (Htypes : Forall (fun t => t <> CATEGORY_PATTERN)
                     (firstn (List.length os) evaluatorTypes)).
  { revert Hstop. generalize (List.length os). intros k Hk.
    do 5 (destruct k as [|k]; [simpl; forall_built; discriminate|]). lia. }
  pose proof (Forall2_Forall_r Hbuilt Htypes) as H.
  eapply Forall_impl; [|exact H]. cbv beta.
  intros o (t & Ht & Ho). eapply Forall_impl; [|exact Ho]. cbv beta.
  intros n (_ & _ & Hn & _). congruence.
Qed.

Lemma orphan_expense_silences_patterns_witness :
  detectCategoryPatterns Example.sameMillisecond Example.toString
    Example.userId Sample.withOrphan Example.gatheredCategories Example.start
  = (Throw TypeError, Example.start)
  /\ exists ns w',
       generateAllNudges Example.sameMillisecond Example.noOutage
         Example.db Example.toString Example.userId Sample.withOrphan
         Example.gatheredCategories (Some Example.user)
         Example.windowStart Example.windowEnd Example.gatheredAt
       = (Ok ns, w')
       /\ Forall (fun n => Nudge.type n <> CATEGORY_PATTERN) ns.
Proof.
  destruct (@orphan_expense_silences_patterns Example.sameMillisecond
              Example.noOutage Example.db Example.toString Example.userId
              Sample.withOrphan Example.gatheredCategories
              (Some Example.user) Example.windowStart Example.windowEnd
              Sample.orphan Example.gatheredAt)
    as (Hthrow & ns & w' & Hrun & Hnone).
  - unfold Sample.withOrphan. apply in_or_app. right. left. reflexivity.
  - reflexivity.
  - split; [apply Hthrow|].
    exists ns, w'. split; [exact Hrun|exact Hnone].
Defined.

(* ------------------------------------------------------------------ *)
(** ** The nudges that [generateInsights] returns *)
(* ------------------------------------------------------------------ *)

Lemma builtAs_stamped (clock : nat -> Z) (categories : list Category.t)
    (type : NUDGE_TYPES) (n : Nudge.t) :
  builtAs clock categories type n -> stamped n.
Proof. intros ((p & k & H) & _). exists p, (clock k). exact H. Qed.

Section Returned.

Variable clock : nat -> Z.
Variable outage : nat -> bool.
Variable db : Store.t.
Variable toString : CategoryRef.t -> string.

(** The returned nudges are among the collected ones, which are built on
    the categories of the user that are active. *)
Lemma returned_built (userId : ObjectId) (startDate endDate : option Z)
    (w w' : World) (r : InsightResult.t) :
  generateInsights clock outage db toString userId startDate endDate w
  = (Ok r, w') ->
  Forall
    (fun n =>
       builtAs clock (filter (categoryMatch userId) (Store.categories db))
         (Nudge.type n) n)
    (InsightResult.nudges r).
Proof.
  intros H. apply generateInsights_Ok in H.
  destruct H as (s & e & w0 & expenses & categories & u & w1 & collected
                 & w2 & w3 & _ & Hg & Hn & _ & _ & _ & Hr & _).
  apply gather_Ok in Hg. destruct Hg as (_ & Hc & _). subst categories.
  apply generateAllNudges_built in Hn.
  rewrite Hr. apply Forall_firstn.
  eapply Permutation_Forall; [|exact Hn].
  apply Permutation_sym, prioritizeNudges_perm.
Qed.

Lemma not_positive_of_precedes (x y : Nudge.t) :
  precedes x y -> JS.positive (compareNudges x y) = false.
Proof.
  unfold precedes, compareNudges.
  intros [H|(H & tx & ty & Hx & Hy & Hle)].
  - destruct (Z.eqb_spec (priorityRank x) (priorityRank y)) as [E|E];
      [lia|].
    cbn [negb]. apply positive_inject_Z_false. lia.
  - rewrite H, Z.eqb_refl, Hx, Hy. cbn [negb].
    apply positive_inject_Z_false. lia.
Qed.

Lemma sort_sorted_id (l : list Nudge.t) :
  StronglySorted precedes l -> prioritizeNudges l = l.
Proof.
  unfold prioritizeNudges.
  induction 1 as [|x r Hr IH Hx]; [reflexivity|].
  cbn [JS.sort]. rewrite IH.
  destruct r as [|y r']; [reflexivity|].
  cbn [JS.sort_insert]. inversion Hx; subst.
  now rewrite not_positive_of_precedes.
Qed.

Lemma StronglySorted_app_inv {A} (R : A -> A -> Prop) (l1 l2 : list A) :
  StronglySorted R (l1 ++ l2) ->
  forall x y, In x l1 -> In y l2 -> R x y.
Proof.
  induction l1 as [|a l1 IH]; intros H x y Hx Hy; [now elim Hx|].
  simpl in H. inversion H; subst. destruct Hx as [->|Hx].
  - rewrite Forall_forall in H3. apply H3. apply in_or_app. now right.
  - now apply IH.
Qed.

End Returned.

(** X8.  A category that a returned nudge names in its metadata is a
    category of the store that belongs to the user of the request and is
    active. *)
Theorem nudges_name_own_categories (clock : nat -> Z) (outage : nat -> bool)
    (db : Store.t) (toString : CategoryRef.t -> string) (userId : ObjectId)
    (startDate endDate : option Z) (w w' : World) (r : InsightResult.t) :
  generateInsights clock outage db toString userId startDate endDate w
  = (Ok r, w') ->
  Forall
    (fun n =>
       forall cid,
         metadataCategory n = Some cid ->
         exists c,
           In c (Store.categories db)
           /\ Category._id c = cid
           /\ Category.userId c = userId
           /\ Category.isActive c = true)
    (InsightResult.nudges r).
Proof.
  intros H. apply returned_built in H.
  eapply Forall_impl; [|exact H]. cbv beta.
  intros n (_ & Hnames & _) cid Hcid.
  destruct (Hnames cid Hcid) as (c & Hin & Hc).
  apply filter_In in Hin. destruct Hin as [Hin Hm].
  unfold categoryMatch in Hm. apply andb_true_iff in Hm.
  destruct Hm as [Hu Ha]. apply String.eqb_eq in Hu.
  exists c. auto.
Qed.

Lemma nudges_name_own_categories_witness :
  Forall
    (fun n =>
       forall cid,
         metadataCategory n = Some cid ->
         exists c,
           In c (Store.categories Example.db)
           /\ Category._id c = cid
           /\ Category.userId c = Example.userId
           /\ Category.isActive c = true)
    (InsightResult.nudges (fst Example.answer)).
Proof.
  exact (@nudges_name_own_categories Example.sameMillisecond Example.noOutage
           Example.db Example.toString Example.userId None None Example.start
           (snd Example.answer) (fst Example.answer) answer_run).
Defined.

(** X9.  The identifier of a returned nudge ends in an underscore and a
    printed reading of the clock, and the stamp that the prioritisation
    parses back out of the identifier is that reading. *)
Theorem nudge_stamp_round_trip (clock : nat -> Z) (outage : nat -> bool)
    (db : Store.t) (toString : CategoryRef.t -> string) (userId : ObjectId)
    (startDate endDate : option Z) (w w' : World) (r : InsightResult.t) :
  generateInsights clock outage db toString userId startDate endDate w
  = (Ok r, w') ->
  Forall
    (fun n =>
       exists p k,
         Nudge.id n = (p ++ "_" ++ JS.Number_toString (clock k))%string
         /\ idStamp n = Some (clock k))
    (InsightResult.nudges r).
Proof.
  intros H. apply returned_built in H.
  eapply Forall_impl; [|exact H]. cbv beta.
  intros n ((p & k & Hid) & _). exists p, k. split; [exact Hid|].
  unfold idStamp. rewrite Hid. apply JSFacts.stamp_of_id.
Qed.

Lemma nudge_stamp_round_trip_witness :
  Forall
    (fun n =>
       exists p k,
         Nudge.id n
         = (p ++ "_" ++ JS.Number_toString (Example.sameMillisecond k))%string
         /\ idStamp n = Some (Example.sameMillisecond k))
    (InsightResult.nudges (fst Example.answer)).
Proof.
  exact (@nudge_stamp_round_trip Example.sameMillisecond Example.noOutage
           Example.db Example.toString Example.userId None None Example.start
           (snd Example.answer) (fst Example.answer) answer_run).
Defined.

(** X10.  The cut to five nudges drops only nudges that come after every
    nudge kept: the kept and the dropped nudges together are the collected
    ones, each kept nudge precedes each dropped one in the order of the
    prioritisation, and nothing is dropped unless five are kept. *)
Theorem truncation_keeps_best (clock : nat -> Z) (outage : nat -> bool)
    (db : Store.t) (toString : CategoryRef.t -> string) (userId : ObjectId)
    (startDate endDate : option Z) (w w' : World) (r : InsightResult.t) :
  generateInsights clock outage db toString userId startDate endDate w
  = (Ok r, w') ->
  exists s e w0 expenses categories user w1 collected w2 dropped,
    resolveDates clock startDate endDate w = (Ok (s, e), w0)
    /\ gather outage db userId s e w0 = (Ok (expenses, categories, user), w1)
    /\ generateAllNudges clock outage db toString userId expenses categories
         user s e w1 = (Ok collected, w2)
    /\ Permutation (InsightResult.nudges r ++ dropped) collected
    /\ (forall kept late,
          In kept (InsightResult.nudges r) -> In late dropped ->
          precedes kept late /\ byRank kept late)
    /\ (dropped <> [] -> List.length (InsightResult.nudges r) = 5%nat).
Proof.
  intros H. apply generateInsights_Ok in H.
  destruct H as (s & e & w0 & expenses & categories & u & w1 & collected
                 & w2 & w3 & Hd & Hg & Hn & _ & _ & _ & Hr & _).
  exists s, e, w0, expenses, categories, (Some u), w1, collected, w2,
    (skipn 5 (prioritizeNudges collected)).
  split; [exact Hd|]. split; [exact Hg|]. split; [exact Hn|].
  rewrite Hr. split; [|split].
  - rewrite firstn_skipn. apply prioritizeNudges_perm.
  - intros kept late Hk Hl.
    assert (Hp : precedes kept late).
    { apply StronglySorted_app_inv
        with (l1 := firstn 5 (prioritizeNudges collected))
             (l2 := skipn 5 (prioritizeNudges collected)); try assumption.
      rewrite firstn_skipn. apply prioritizeNudges_sorted.
      apply generateAllNudges_wf in Hn.
      eapply Forall_impl; [|exact Hn]. intros n [Hs _]. exact Hs. }
    split; [exact Hp|now apply precedes_byRank].
  - intros Hne. rewrite length_firstn.
    destruct (Nat.le_gt_cases (List.length (prioritizeNudges collected)) 5)
      as [Hle|Hgt]; [|lia].
    elim Hne. now apply skipn_all2.
Qed.

(** A user with six categories over budget and a first streak of seven
    days: eight nudges are collected, the five kept are overage nudges, and
    the sixth overage nudge and the two streak nudges are dropped. *)
Lemma truncation_keeps_best_witness :
  exists r w' collected w2 dropped,
    generateInsights Example.sameMillisecond Example.noOutage Sample.sixOver
      Example.toString Sample.spenderId None None Example.start = (Ok r, w')
    /\ generateAllNudges Example.sameMillisecond Example.noOutage
         Sample.sixOver Example.toString Sample.spenderId
         (map (populate Sample.sixOver) (Store.expenses Sample.sixOver))
         Sample.sixCategories
         (Some (User.mk Sample.spenderId
                  (User.mkStreak 7 7 (Some (Example.date 3 20)))))
         Example.windowStart Example.windowEnd Example.gatheredAt
       = (Ok collected, w2)
    /\ List.length collected = 8%nat
    /\ List.length (InsightResult.nudges r) = 5%nat
    /\ List.length dropped = 3%nat
    /\ Permutation (InsightResult.nudges r ++ dropped) collected
    /\ Forall (fun kept => Nudge.priority kept = HIGH)
         (InsightResult.nudges r)
    /\ (forall kept late,
          In kept (InsightResult.nudges r) -> In late dropped ->
          precedes kept late /\ byRank kept late).
Proof.
  destruct (generateInsights Example.sameMillisecond Example.noOutage
              Sample.sixOver Example.toString Sample.spenderId None None
              Example.start) as [[r|err] w'] eqn:E;
    [|vm_compute in E; discriminate E].
  destruct (@truncation_keeps_best Example.sameMillisecond Example.noOutage
              Sample.sixOver Example.toString Sample.spenderId None None
              Example.start w' r E)
    as (s & e & w0 & expenses & categories & user & w1 & collected & w2
        & dropped & Hd & Hg & Hn & Hp & Hord & _).
  vm_compute in Hd. inversion Hd; subst s e w0. clear Hd.
  vm_compute in Hg. inversion Hg; subst expenses categories user w1.
  clear Hg.
  assert (Hc : List.length collected = 8%nat).
  { vm_compute in Hn. inversion Hn. reflexivity. }
  assert (Hr : List.length (InsightResult.nudges r) = 5%nat
               /\ Forall (fun kept => Nudge.priority kept = HIGH)
                    (InsightResult.nudges r)).
  { vm_compute in E. inversion E. split; [reflexivity|].
    repeat constructor. }
  destruct Hr as [Hr Hhigh].
  exists r, w', collected, w2, dropped.
  split; [reflexivity|].
  split; [rewrite <- Hn; vm_compute; reflexivity|].
  split; [exact Hc|]. split; [exact Hr|].
  split; [apply Permutation_length in Hp; rewrite length_app in Hp; lia|].
  split; [exact Hp|]. split; [exact Hhigh|exact Hord].
Defined.

(** X11.  The returned list is in the order of the prioritisation:
    prioritising it again changes nothing. *)
Theorem returned_list_is_prioritised (clock : nat -> Z)
    (outage : nat -> bool) (db : Store.t)
    (toString : CategoryRef.t -> string) (userId : ObjectId)
    (startDate endDate : option Z) (w w' : World) (r : InsightResult.t) :
  generateInsights clock outage db toString userId startDate endDate w
  = (Ok r, w') ->
  prioritizeNudges (InsightResult.nudges r) = InsightResult.nudges r.
Proof.
  intros H. apply generateInsights_Ok in H.
  destruct H as (s & e & w0 & expenses & categories & u & w1 & collected
                 & w2 & w3 & _ & _ & Hn & _ & _ & _ & Hr & _).
  rewrite Hr. apply sort_sorted_id. apply StronglySorted_firstn.
  apply prioritizeNudges_sorted. apply generateAllNudges_wf in Hn.
  eapply Forall_impl; [|exact Hn]. intros n [Hs _]. exact Hs.
Qed.

Lemma returned_list_is_prioritised_witness :
  prioritizeNudges (InsightResult.nudges (fst Example.answer))
  = InsightResult.nudges (fst Example.answer).
Proof.
  exact (@returned_list_is_prioritised Example.sameMillisecond
           Example.noOutage Example.db Example.toString Example.userId None
           None Example.start (snd Example.answer) (fst Example.answer)
           answer_run).
Defined.

(** X12.  [generateInsights] answers only for a user of the store: when it
    returns, the store holds a user with the identifier of the request,
    and the streak of the answer is the streak of the first such user;
    when the store holds no such user it throws, whatever the clock and
    the store do. *)
Theorem insights_for_stored_user (clock : nat -> Z) (outage : nat -> bool)
    (db : Store.t) (toString : CategoryRef.t -> string) (userId : ObjectId)
    (startDate endDate : option Z) (w : World) :
  (forall r w',
     generateInsights clock outage db toString userId startDate endDate w
     = (Ok r, w') ->
     exists u,
       find (fun u => User._id u =? userId)%string (Store.users db) = Some u
       /\ In u (Store.users db)
       /\ User._id u = userId
       /\ Insights.streakInfo (InsightResult.insights r) = User.streak u)
  /\ ((forall u, In u (Store.users db) -> User._id u <> userId) ->
      exists err w',
        generateInsights clock outage db toString userId startDate endDate w
        = (Throw err, w')).
Proof.
  assert (Hok : forall r w',
     generateInsights clock outage db toString userId startDate endDate w
     = (Ok r, w') ->
     exists u,
       find (fun u => User._id u =? userId)%string (Store.users db) = Some u
       /\ In u (Store.users db)
       /\ User._id u = userId
       /\ Insights.streakInfo (InsightResult.insights r) = User.streak u).
  { intros r w' H. apply generateInsights_Ok in H.
    destruct H as (s & e & w0 & expenses & categories & u & w1 & collected
                   & w2 & w3 & _ & Hg & _ & _ & _ & Hs & _).
    apply gather_Ok in Hg. destruct Hg as (_ & _ & Hu). symmetry in Hu.
    exists u. split; [exact Hu|]. apply find_some in Hu.
    destruct Hu as [Hin Hid]. apply String.eqb_eq in Hid. auto. }
  split; [exact Hok|]. intros Hnone.
  destruct (generateInsights clock outage db toString userId startDate
              endDate w) as [[r|err] w'] eqn:E.
  - destruct (Hok r w' eq_refl) as (u & _ & Hin & Hid & _).
    elim (Hnone u Hin Hid).
  - now exists err, w'.
Qed.

(** X13.  Unlike an error of an evaluator, an error of the two computations
    of the insight bundle is not caught: once the dates are resolved, the
    data gathered and the nudges collected, an error thrown by
    [analyzeSpendingTrends] or by [analyzeCategorySpending] is the error
    that [generateInsights] throws. *)
Theorem aggregator_errors_propagate (clock : nat -> Z) (outage : nat -> bool)
    (db : Store.t) (toString : CategoryRef.t -> string) (userId : ObjectId)
    (startDate endDate : option Z) (s e : Z) (w w0 w1 w2 : World)
    (expenses : list GatheredExpense) (categories : list Category.t)
    (user : option User.t) (collected : list Nudge.t) :
  resolveDates clock startDate endDate w = (Ok (s, e), w0) ->
  gather outage db userId s e w0 = (Ok (expenses, categories, user), w1) ->
  generateAllNudges clock outage db toString userId expenses categories user
    s e w1 = (Ok collected, w2) ->
  (forall err w3,
     analyzeSpendingTrends outage db userId s e w2 = (Throw err, w3) ->
     generateInsights clock outage db toString userId startDate endDate w
     = (Throw err, w3))
  /\ (forall sp w3 err w4,
        analyzeSpendingTrends outage db userId s e w2 = (Ok sp, w3) ->
        analyzeCategorySpending outage db userId categories s e w3
        = (Throw err, w4) ->
        generateInsights clock outage db toString userId startDate endDate w
        = (Throw err, w4)).
Proof.
  intros Hd Hg Hn. erewrite generateInsights_resolved by eassumption.
  erewrite bind_Ok_intro by eassumption. cbv beta iota.
  erewrite bind_Ok_intro by eassumption.
  split.
  - intros err w3 Ht. now apply bind_Throw.
  - intros sp w3 err w4 Ht Ha. erewrite bind_Ok_intro by eassumption.
    now apply bind_Throw.
Qed.

Lemma aggregator_errors_propagate_witness :
  exists w',
    generateInsights Example.ticking Sample.eighthQueryFails Example.db
      Example.toString Example.userId None None Example.start
    = (Throw (StoreError 7), w').
Proof.
  eexists.
  edestruct (@aggregator_errors_propagate Example.ticking
               Sample.eighthQueryFails Example.db Example.toString
               Example.userId None None Example.windowStart Example.windowEnd
               Example.start (mkWorld 2 0) Example.gatheredAt)
    as [Hthrow _].
  - vm_compute. reflexivity.
  - vm_compute. reflexivity.
  - vm_compute. reflexivity.
  - apply Hthrow. vm_compute. reflexivity.
Defined.

(* ------------------------------------------------------------------ *)
(** ** The window of a request and the period before it *)
(* ------------------------------------------------------------------ *)

Lemma startOf_day_multiple (t : Z) :
  Moment.startOf_day t = (Moment.msPerDay * (t / Moment.msPerDay))%Z.
Proof.
  unfold Moment.startOf_day, Moment.msPerDay.
  pose proof (Z.div_mod t 86400000). lia.
Qed.

(** X14.  A request without dates gets the window from the start of the day
    thirty days before the first reading of the clock to the end of the day
    of the second reading: it starts at a midnight, ends a millisecond
    before one and, when both readings fall on one day, spans thirty-one
    whole days. *)
Theorem default_window (clock : nat -> Z) (outage : nat -> bool)
    (db : Store.t) (toString : CategoryRef.t -> string) (userId : ObjectId)
    (w w' : World) (r : InsightResult.t) :
  generateInsights clock outage db toString userId None None w = (Ok r, w') ->
  let first := clock (reads w) in
  let second := clock (S (reads w)) in
  let p := InsightResult.period r in
  (Period.start p
   = Moment.msPerDay * (first / Moment.msPerDay) - 30 * Moment.msPerDay)%Z
  /\ (Period.end_ p
      = Moment.msPerDay * (second / Moment.msPerDay) + Moment.msPerDay - 1)%Z
  /\ (Period.start p mod Moment.msPerDay = 0)%Z
  /\ (Period.end_ p mod Moment.msPerDay = Moment.msPerDay - 1)%Z
  /\ ((first / Moment.msPerDay = second / Moment.msPerDay)%Z ->
      (Period.end_ p - Period.start p + 1 = 31 * Moment.msPerDay)%Z).
Proof.
  intros H first second p. apply generateInsights_Ok in H.
  destruct H as (s & e & w0 & expenses & categories & u & w1 & collected
                 & w2 & w3 & Hd & _ & _ & _ & _ & _ & _ & Hp).
  cbv [resolveDates bind ret moment_now Date_now] in Hd.
  cbn [reads queries] in Hd. inversion Hd; subst s e w0. clear Hd.
  subst p. rewrite Hp. cbn [Period.start Period.end_].
  fold first second. unfold Moment.endOf_day.
  rewrite !startOf_day_multiple. unfold Moment.subtract_days.
  assert (Hdiv : ((first - 30 * Moment.msPerDay) / Moment.msPerDay
                  = first / Moment.msPerDay - 30)%Z).
  { unfold Moment.msPerDay.
    replace (first - 30 * 86400000)%Z with (first + (-30) * 86400000)%Z
      by lia.
    rewrite Z.div_add by lia. lia. }
  rewrite Hdiv. unfold Moment.msPerDay.
  split; [lia|]. split; [lia|]. split; [|split].
  - replace (86400000 * (first / 86400000 - 30))%Z
      with (0 + (first / 86400000 - 30) * 86400000)%Z by lia.
    rewrite Z.mod_add by lia. reflexivity.
  - replace (86400000 * (second / 86400000) + 86400000 - 1)%Z
      with (86399999 + (second / 86400000) * 86400000)%Z by lia.
    rewrite Z.mod_add by lia. reflexivity.
  - intros Hsame. lia.
Qed.

Lemma default_window_witness :
  InsightResult.period (fst Example.answer)
  = Period.mk Example.windowStart Example.windowEnd
  /\ (Example.windowEnd - Example.windowStart + 1 = 31 * Moment.msPerDay)%Z.
Proof.
  destruct (@default_window Example.sameMillisecond Example.noOutage
              Example.db Example.toString Example.userId Example.start
              (snd Example.answer) (fst Example.answer) answer_run)
    as (_ & _ & _ & _ & Hspan).
  split; [reflexivity|]. apply Hspan. reflexivity.
Defined.

(** X15.  The period that the trend compares with a window [startDate,
    endDate] ends a whole day before the window starts and is as many days
    long as whole days fit in the window, less one: no expense counts in
    both totals, an expense dated strictly between the end of that period
    and the start of the window counts in neither, and for a window of
    thirty-one days less a millisecond the period before it is twenty-nine
    days long. *)
Theorem previous_period_gap (userId : ObjectId) (startDate endDate : Z)
    (x : StoredExpense) :
  (startDate <= endDate)%Z ->
  let previousStart := previousPeriodStart startDate endDate in
  let previousEnd := previousPeriodEnd startDate in
  previousEnd = (startDate - Moment.msPerDay)%Z
  /\ (previousEnd - previousStart
      = (Moment.diff_days endDate startDate - 1) * Moment.msPerDay)%Z
  /\ (expenseMatch userId previousStart previousEnd x = true ->
      expenseMatch userId startDate endDate x = false)
  /\ ((previousEnd < Expense.date x < startDate)%Z ->
      expenseMatch userId startDate endDate x = false
      /\ expenseMatch userId previousStart previousEnd x = false)
  /\ ((endDate - startDate + 1 = 31 * Moment.msPerDay)%Z ->
      previousStart = (startDate - 30 * Moment.msPerDay)%Z
      /\ (previousEnd - previousStart = 29 * Moment.msPerDay)%Z).
Proof.
  intros Hle previousStart previousEnd.
  subst previousStart previousEnd.
  unfold previousPeriodStart, previousPeriodEnd, Moment.subtract_days,
    Moment.diff_days, expenseMatch, in_range, Moment.msPerDay.
  split; [lia|]. split; [lia|]. split; [|split].
  - intros H. apply andb_true_iff in H. destruct H as [_ H].
    apply andb_true_iff in H. destruct H as [_ H]. apply Z.leb_le in H.
    destruct (Z.leb_spec startDate (Expense.date x)); [lia|].
    cbn [andb]. apply andb_false_r.
  - intros [H1 H2]. split.
    + destruct (Z.leb_spec startDate (Expense.date x)); [lia|].
      cbn [andb]. apply andb_false_r.
    + destruct (Z.leb_spec (Expense.date x) (startDate - 1 * 86400000));
        [lia|].
      rewrite andb_false_r. apply andb_false_r.
  - intros Hspan.
    assert (Hq : (Z.quot (endDate - startDate) 86400000 = 30)%Z).
    { replace (endDate - startDate)%Z with (31 * 86400000 - 1)%Z by lia.
      reflexivity. }
    rewrite Hq. lia.
Qed.

Lemma previous_period_gap_witness :
  expenseMatch Example.userId Example.windowStart Example.windowEnd
    Sample.inTheGap = false
  /\ expenseMatch Example.userId
       (previousPeriodStart Example.windowStart Example.windowEnd)
       (previousPeriodEnd Example.windowStart) Sample.inTheGap = false
  /\ (previousPeriodEnd Example.windowStart
      - previousPeriodStart Example.windowStart Example.windowEnd
      = 29 * Moment.msPerDay)%Z.
Proof.
  destruct (@previous_period_gap Example.userId Example.windowStart
              Example.windowEnd Sample.inTheGap)
    as (_ & _ & _ & Hgap & Hspan).
  - vm_compute. discriminate.
  - destruct Hgap as [H1 H2].
    + vm_compute. split; reflexivity.
    + destruct Hspan as [_ H29]; [reflexivity|].
      split; [exact H1|]. split; [exact H2|exact H29].
Defined.

(* ------------------------------------------------------------------ *)

(* ------------------------------------------------------------------ *)
(** ** The two readings of the trend *)
(* ------------------------------------------------------------------ *)

Lemma Forall_filter {A} (P : A -> Prop) (p : A -> bool) (l : list A) :
  Forall P l -> Forall P (filter p l).
Proof.
  induction 1 as [|x r Hx _ IH]; simpl; [constructor|].
  destruct (p x); [constructor|]; assumption.
Qed.

(** Two doubles of which neither is [NaN] compare. *)
Lemma compare_total (x y : float) :
  (x ?= x)%float = FEq -> (y ?= y)%float = FEq ->
  (x ?= y)%float <> FNotComparable.
Proof.
  rewrite !compare_spec.
  destruct (Prim2SF x) as [[]|[]| |[] mx ex], (Prim2SF y) as [[]|[]| |[] my ey];
    simpl; try discriminate;
    intros _ _; compare_cases; simpl; discriminate.
Qed.

(** A sum of doubles above zero is not below zero: rounding a sum of two
    positive numbers gives a positive double, zero, infinity or nothing. *)
Lemma binary_round_not_below (m : positive) (e : Z) :
  SFltb (binary_round prec emax false m e) (S754_zero false) = false.
Proof.
  unfold binary_round, binary_round_aux.
  destruct (shl_align m e _) as [mz ez].
  destruct (shr_fexp prec emax (Z.pos mz) ez loc_Exact) as [mrs' e'].
  destruct (shr_fexp prec emax _ e' loc_Exact) as [mrs'' e''].
  destruct (shr_m mrs'') as [|p|p]; [reflexivity| |reflexivity].
  destruct (e'' <=? emax - prec)%Z; reflexivity.
Qed.

Lemma add_not_below (acc a : float) :
  (acc <? 0)%float = false -> (0 <? a)%float = true ->
  (acc + a <? 0)%float = false.
Proof.
  rewrite !ltb_spec, add_spec.
  change (Prim2SF 0) with (S754_zero false).
  destruct (Prim2SF acc) as [[]|[]| |[] ma ea],
    (Prim2SF a) as [[]|[]| |[] mb eb];
    try discriminate; try reflexivity.
  intros _ _. unfold SF64add, SFadd. cbn [cond_Zopp Z.add].
  apply binary_round_not_below.
Qed.

Lemma sumOf_not_below (amounts : list float) :
  Forall (fun a => (0 <? a)%float = true) amounts ->
  (sumOf amounts <? 0)%float = false.
Proof.
  intros Hall. unfold sumOf.
  assert (G : forall acc,
            (acc <? 0)%float = false ->
            (fold_left PrimFloat.add amounts acc <? 0)%float = false).
  { induction Hall as [|a r Ha _ IH]; intros acc Hacc; simpl; [exact Hacc|].
    apply IH. now apply add_not_below. }
  now apply G.
Qed.

(** A total as the engine reads it is a number, and over amounts above
    zero it is zero or above zero. *)
Lemma or_zero_number (x : float) :
  (JS.or_zero x ?= JS.or_zero x)%float = FEq.
Proof.
  unfold JS.or_zero, JS.falsy. rewrite !eqb_compare.
  pose proof (compare_self x 0) as H.
  destruct (x ?= 0)%float eqn:E0, (x ?= x)%float eqn:Ex;
    simpl; try contradiction; try reflexivity; exact Ex.
Qed.

Lemma or_zero_not_below (x : float) :
  (x <? 0)%float = false -> (JS.or_zero x <? 0)%float = false.
Proof. unfold JS.or_zero. now destruct (JS.falsy x). Qed.

Lemma total_sign (amounts : list float) :
  Forall (fun a => (0 <? a)%float = true) amounts ->
  (totalOf amounts =? 0)%float = true \/ (0 <? totalOf amounts)%float = true.
Proof.
  intros Hall. unfold totalOf.
  pose proof (or_zero_not_below (sumOf_not_below Hall)) as Hlow.
  pose proof (or_zero_number (sumOf amounts)) as Hnum.
  pose proof (@compare_total (JS.or_zero (sumOf amounts)) 0 Hnum eq_refl)
    as Htot.
  revert Hlow Htot. generalize (JS.or_zero (sumOf amounts)). intros t.
  rewrite !ltb_compare, eqb_compare, (compare_antisym t 0).
  destruct (t ?= 0)%float; intros Hlow Htot; try discriminate; auto.
Qed.

Lemma zero_not_above (t : float) :
  (t =? 0)%float = true -> (0 <? t)%float = false.
Proof.
  rewrite ltb_compare, eqb_compare, (compare_antisym t 0).
  now destruct (t ?= 0)%float.
Qed.

Lemma above_not_zero (t : float) :
  (0 <? t)%float = true -> (t =? 0)%float = false.
Proof.
  rewrite ltb_compare, eqb_compare, (compare_antisym t 0).
  now destruct (t ?= 0)%float.
Qed.

(** X16.  The trend nudge and the trend label of the insight bundle are
    computed apart, with different thresholds, but over stored amounts
    above zero they never contradict each other: a spending-up nudge comes
    only with the label "up", a spending-down nudge only with the label
    "down", and with the label "stable" there is no trend nudge. *)
Theorem trend_nudge_agrees_with_label (clock : nat -> Z)
    (outage : nat -> bool) (db : Store.t) (userId : ObjectId)
    (startDate endDate : Z) (w w2 : World) :
  Forall (fun x => (0 <? Expense.amount x)%float = true) (Store.expenses db) ->
  outage (queries w) = false ->
  outage (S (queries w)) = false ->
  outage (queries w2) = false ->
  outage (S (queries w2)) = false ->
  exists nudge w' sp w2',
    analyzeSpendingTrendsForNudge clock outage db userId startDate endDate w
    = (Ok nudge, w')
    /\ analyzeSpendingTrends outage db userId startDate endDate w2
       = (Ok sp, w2')
    /\ (forall n,
          nudge = Some n ->
          (isTrendUp n = true
           /\ SpendingPatterns.trend sp = "up"%string
           /\ SpendingPatterns.isIncreasing sp = true)
          \/ (isTrendDown n = true
              /\ SpendingPatterns.trend sp = "down"%string
              /\ SpendingPatterns.isIncreasing sp = false))
    /\ (SpendingPatterns.trend sp = "stable"%string -> nudge = None).
Proof.
  intros Hpos H0 H1 H2 H3.
  destruct (@analyzeSpendingTrends_Ok outage db userId startDate endDate w2
              H2 H3) as (sp & Hrun & Hsp).
  destruct (@trend_nudge_cases clock outage db userId startDate endDate w
              H0 H1) as (r & w' & Hnudge & Hzero & Hrest).
  assert (Hprev :
            let t :=
              totalOf
                (amountsIn db userId
                   (Moment.subtract_days startDate
                      (Moment.diff_days endDate startDate))
                   (Moment.subtract_days startDate 1)) in
            (t =? 0)%float = true \/ (0 <? t)%float = true).
  { apply total_sign. unfold amountsIn. apply Forall_map.
    now apply Forall_filter. }
  revert Hsp Hzero Hrest Hprev. cbv zeta.
  generalize (totalOf (amountsIn db userId startDate endDate)).
  generalize
    (totalOf
       (amountsIn db userId
          (Moment.subtract_days startDate
             (Moment.diff_days endDate startDate))
          (Moment.subtract_days startDate 1))).
  intros previousTotal currentTotal.
  set (change := ((currentTotal - previousTotal) / previousTotal * 100)%float).
  intros Hsp Hzero Hrest Hprev.
  exists r, w', sp. eexists. split; [exact Hnudge|]. split; [exact Hrun|].
  destruct Hprev as [Hz|Hp].
  - rewrite (zero_not_above Hz) in Hsp. rewrite (Hzero Hz). subst sp.
    split; [discriminate|reflexivity].
  - rewrite Hp in Hsp.
    destruct (Hrest (above_not_zero Hp)) as (Hsmall & Hup & Hdown & Hnone).
    destruct (abs change <? 15)%float eqn:Eabs.
    { rewrite (Hsmall eq_refl). split; [discriminate|reflexivity]. }
    destruct (15 <? change)%float eqn:E15.
    { destruct (Hup eq_refl) as (n & -> & Hn & _).
      rewrite (@above_mark change 5 15 eq_refl E15) in Hsp. subst sp.
      split; [|discriminate]. intros n' Hn'. inversion Hn'; subst n'.
      left. auto. }
    destruct (change <? -10)%float eqn:E10.
    { destruct (Hdown eq_refl eq_refl) as (n & -> & Hn & _).
      pose proof (@below_mark change (-10) (-5) eq_refl E10) as E5.
      rewrite (@below_not_above change (-5) 5 eq_refl E5), E5 in Hsp.
      subst sp.
      split; [|discriminate]. intros n' Hn'. inversion Hn'; subst n'.
      right. auto. }
    rewrite (Hnone eq_refl eq_refl). split; [discriminate|reflexivity].
Qed.

Lemma trend_nudge_agrees_with_label_witness :
  exists n w' sp w2',
    analyzeSpendingTrendsForNudge Example.sameMillisecond Example.noOutage
      Example.db Example.otherUserId Example.windowStart Example.windowEnd
      Example.start = (Ok (Some n), w')
    /\ analyzeSpendingTrends Example.noOutage Example.db Example.otherUserId
         Example.windowStart Example.windowEnd w' = (Ok sp, w2')
    /\ isTrendUp n = true
    /\ SpendingPatterns.trend sp = "up"%string.
Proof.
  destruct (@trend_nudge_agrees_with_label Example.sameMillisecond
              Example.noOutage Example.db Example.otherUserId
              Example.windowStart Example.windowEnd Example.start
              (mkWorld 1 2))
    as (nudge & w' & sp & w2' & Hnudge & Hrun & Hagree & _);
    try reflexivity.
  - repeat constructor.
  - destruct nudge as [n|] eqn:En.
    + assert (Hw : w' = mkWorld 1 2).
      { vm_compute in Hnudge. now inversion Hnudge. }
      subst w'. exists n, (mkWorld 1 2), sp, w2'.
      split; [exact Hnudge|]. split; [exact Hrun|].
      destruct (Hagree n eq_refl) as [(Hid & Ht & _)|(Hid & Ht & _)].
      * split; assumption.
      * exfalso. vm_compute in Hnudge. inversion Hnudge; subst n.
        vm_compute in Hid. discriminate Hid.
    + exfalso. vm_compute in Hnudge. discriminate Hnudge.
Defined.

(* ------------------------------------------------------------------ *)
(** ** The category alerts of the insight bundle *)
(* ------------------------------------------------------------------ *)

(** The guard of the budget detector and of the category alerts lets
    through the budgets above zero and no others. *)
Lemma budget_guard_gt (budget : float) :
  JS.falsy budget || JS.le budget 0 = negb (0 <? budget)%float.
Proof.
  unfold JS.falsy, JS.le.
  rewrite ltb_compare, leb_compare, !eqb_compare.
  rewrite (compare_antisym budget 0).
  pose proof (compare_self budget 0) as Hs.
  pose proof (@compare_total budget 0) as Ht.
  destruct (budget ?= 0)%float, (budget ?= budget)%float;
    try contradiction; try reflexivity.
  elim Ht; reflexivity.
Qed.

Section Alerts.

Variable outage : nat -> bool.
Variable db : Store.t.
Variable userId : ObjectId.
Variable startDate endDate : Z.

Lemma getCategorySpending_Ok (categoryId : ObjectId) (w : World) :
  outage (queries w) = false ->
  getCategorySpending outage db userId categoryId startDate endDate w
  = (Ok (totalOf (amountsOf db userId categoryId startDate endDate)),
     mkWorld (reads w) (S (queries w))).
Proof.
  intros H. rewrite <- category_total.
  unfold getCategorySpending, Expense_aggregate_total, bind, ret, query.
  now rewrite H.
Qed.

Lemma categoryAlertsFor_run (c : Category.t) (w : World) :
  outage (queries w) = false ->
  exists alerts w',
    categoryAlertsFor outage db userId startDate endDate c w = (Ok alerts, w')
    /\ Forall2 (raisedFor db userId startDate endDate) alerts
         (filter (alerted db userId startDate endDate) [c]).
Proof.
  intros Hout. unfold categoryAlertsFor, alerted, percentageOf.
  cbn [filter].
  destruct (Category.monthlyBudget c) as [b|] eqn:Hb.
  - rewrite budget_guard_gt. destruct (0 <? b)%float eqn:Egt; cbn [negb andb].
    + erewrite bind_Ok_intro by (apply getCategorySpending_Ok; exact Hout).
      set (spent :=
             totalOf (amountsOf db userId (Category._id c) startDate endDate)).
      unfold JS.ge.
      destruct (100 <=? spent / b * 100)%float eqn:E100.
      * assert (E80 : (80 <=? spent / b * 100)%float = true).
        { destruct (80 <=? spent / b * 100)%float eqn:E; [reflexivity|].
          apply below_80_below_100 in E. congruence. }
        rewrite E80. do 2 eexists. split; [reflexivity|].
        constructor; [|constructor]. exists b. split; [exact Hb|].
        cbv zeta. fold spent. now rewrite E100.
      * destruct (80 <=? spent / b * 100)%float eqn:E80.
        -- do 2 eexists. split; [reflexivity|].
           constructor; [|constructor]. exists b. split; [exact Hb|].
           cbv zeta. fold spent. now rewrite E100.
        -- do 2 eexists. split; [reflexivity|constructor].
    + do 2 eexists. split; [reflexivity|constructor].
  - do 2 eexists. split; [reflexivity|constructor].
Qed.

Lemma analyzeCategorySpending_run (categories : list Category.t) :
  (forall n, outage n = false) ->
  forall w,
    exists alerts w',
      analyzeCategorySpending outage db userId categories startDate endDate w
      = (Ok alerts, w')
      /\ Forall2 (raisedFor db userId startDate endDate) alerts
           (filter (alerted db userId startDate endDate) categories).
Proof.
  intros Hout. unfold analyzeCategorySpending.
  induction categories as [|c r IH]; intros w.
  - do 2 eexists. split; [reflexivity|constructor].
  - destruct (categoryAlertsFor_run c w (Hout _))
      as (a & w1 & Hrun & Ha).
    destruct (IH w1) as (rest & w2 & Hrest & Hr).
    exists (a ++ rest)%list, w2. cbn [for_of].
    erewrite bind_Ok_intro by exact Hrun.
    erewrite bind_Ok_intro by exact Hrest.
    split; [reflexivity|].
    change (c :: r) with ([c] ++ r)%list. rewrite filter_app.
    now apply Forall2_app.
Qed.

End Alerts.

(** X17.  When the store answers, the category alerts of the insight bundle
    are, in the order of the categories, one alert for each category with a
    budget above zero whose amounts in the window come, in doubles, to a
    percentage of the budget that is 80 or more; an alert carries the
    identifier, the name and the budget of its category, the total as
    [toFixed(2)] prints it and the percentage as [toFixed(1)] prints it,
    and is marked over budget exactly when the percentage itself is 100 or
    more. *)
Theorem category_alerts (outage : nat -> bool) (db : Store.t)
    (userId : ObjectId) (categories : list Category.t) (startDate endDate : Z)
    (w : World) :
  (forall n, outage n = false) ->
  exists alerts w',
    analyzeCategorySpending outage db userId categories startDate endDate w
    = (Ok alerts, w')
    /\ Forall2 (raisedFor db userId startDate endDate) alerts
         (filter (alerted db userId startDate endDate) categories).
Proof.
  intros Hout.
  apply (@analyzeCategorySpending_run outage db userId startDate endDate
           categories Hout w).
Qed.

(** Of the user whose amounts are not whole numbers, the snacks come to
    99.99999999999999 percent of their budget: an alert that prints 100
    percent and is not over budget; the fare comes to 79.99999999999999
    percent: no alert; the coffee comes to 80.00000000000001 percent: an
    alert. *)
Lemma category_alerts_witness :
  exists forSnacks forCoffee w',
    analyzeCategorySpending Example.noOutage Sample.cents Sample.centsUserId
      [Sample.snacks; Sample.transit; Sample.coffee] (Example.date 3 1)
      (Example.date 3 31) Example.start
    = (Ok [forSnacks; forCoffee], w')
    /\ CategoryAlert.name forSnacks = "Snacks"%string
    /\ CategoryAlert.percentage forSnacks = 100%float
    /\ CategoryAlert.overBudget forSnacks = false
    /\ CategoryAlert.name forCoffee = "Coffee"%string
    /\ CategoryAlert.overBudget forCoffee = false.
Proof.
  destruct (@category_alerts Example.noOutage Sample.cents Sample.centsUserId
              [Sample.snacks; Sample.transit; Sample.coffee]
              (Example.date 3 1) (Example.date 3 31) Example.start)
    as (alerts & w' & Hrun & Hall).
  - reflexivity.
  - change (filter _ [Sample.snacks; Sample.transit; Sample.coffee])
      with [Sample.snacks; Sample.coffee] in Hall.
    inversion Hall as [|a1 c1 r1 l1 H1 Hr1]; subst.
    inversion Hr1 as [|a2 c2 r2 l2 H2 Hr2]; subst.
    inversion Hr2; subst.
    exists a1, a2, w'. split; [exact Hrun|].
    destruct H1 as (b1 & Hb1 & Ha1). destruct H2 as (b2 & Hb2 & Ha2).
    inversion Hb1; subst b1. inversion Hb2; subst b2.
    cbv zeta in Ha1, Ha2. subst a1 a2. vm_compute. repeat split.
Defined.

(* ------------------------------------------------------------------ *)
(** ** [getFinancialTips] *)
(* ------------------------------------------------------------------ *)

Lemma NUDGE_TYPES_eqb_eq (a b : NUDGE_TYPES) :
  NUDGE_TYPES_eqb a b = true <-> a = b.
Proof.
  destruct a, b; split; intros H; try reflexivity; try discriminate H.
Qed.

Lemma filter_length_le' {A} (p : A -> bool) (l : list A) :
  (List.length (filter p l) <= List.length l)%nat.
Proof.
  induction l as [|x r IH]; simpl; [lia|]. destruct (p x); simpl; lia.
Qed.

Lemma Forall_filter_both {A} (P : A -> Prop) (p : A -> bool) (l : list A) :
  Forall P l -> Forall (fun x => P x /\ p x = true) (filter p l).
Proof.
  induction 1 as [|x r Hx _ IH]; simpl; [constructor|].
  destruct (p x) eqn:E; [constructor|]; auto.
Qed.

(** X18.  The tips that [getFinancialTips] answers with are nudges of the
    engine for the thirty days up to the request: at most five, with the
    two counts of the answer consistent; streak celebrations and
    spending-decrease congratulations are never among them; without a
    category in the request the tips are exactly the other returned
    nudges, in their order; with one, every tip's metadata names a
    category whose lower-cased name contains the lower-cased word, so
    that nudges without a category are left out. *)
Theorem financial_tips (clock : nat -> Z) (outage : nat -> bool)
    (db : Store.t) (toString : CategoryRef.t -> string)
    (toLowerCase : string -> string) (userId : ObjectId)
    (category : option string) (w w' : World) (t : Tips.t) :
  getFinancialTips clock outage db toString toLowerCase userId category w
  = (Ok t, w') ->
  exists r,
    generateInsights clock outage db toString userId
      (Some (clock (reads w) - 30 * Moment.msPerDay)%Z)
      (Some (clock (S (reads w))))
      (mkWorld (S (S (reads w))) (queries w)) = (Ok r, w')
    /\ Tips.totalTips t = List.length (Tips.tips t)
    /\ (Tips.highPriorityCount t <= Tips.totalTips t)%nat
    /\ (Tips.totalTips t <= 5)%nat
    /\ Forall (fun tip => Tip.type tip <> STREAK_CELEBRATION
                          /\ startsWith "spending_decrease_" (Tip.id tip)
                             = false) (Tips.tips t)
    /\ (category = None \/ category = Some ""%string ->
        map Tip.id (Tips.tips t)
        = map Nudge.id
            (filter
               (fun n =>
                  negb (NUDGE_TYPES_eqb (Nudge.type n) STREAK_CELEBRATION
                        || isTrendDown n))
               (InsightResult.nudges r)))
    /\ (forall c,
          category = Some c -> c <> ""%string ->
          Forall (fun tip =>
                    exists name,
                      categoryName (Tip.metadata tip) = Some name
                      /\ includes (toLowerCase name) (toLowerCase c) = true)
            (Tips.tips t)).
Proof.
  unfold getFinancialTips. intros H.
  cbv [bind Date_now] in H. cbn [reads queries] in H.
  change (30 * 24 * 60 * 60 * 1000)%Z with (30 * Moment.msPerDay)%Z in H.
  destruct (generateInsights clock outage db toString userId
              (Some (clock (reads w) - 30 * Moment.msPerDay)%Z)
              (Some (clock (S (reads w))))
              (mkWorld (S (S (reads w))) (queries w)))
    as [[r|err] w1] eqn:Hrun; [|discriminate].
  unfold ret in H. inversion H; subst t w'. clear H.
  exists r. split; [reflexivity|].
  cbn [Tips.totalTips Tips.tips Tips.highPriorityCount].
  pose proof Hrun as Hbuilt. apply returned_built in Hbuilt.
  assert (Hfive : (List.length (InsightResult.nudges r) <= 5)%nat).
  { apply generateInsights_Ok in Hrun.
    destruct Hrun as (s & e & w0 & expenses & categories & u & w2 & collected
                      & w3 & w4 & _ & _ & _ & _ & _ & _ & Hr & _).
    rewrite Hr, length_firstn. lia. }
  set (actionable := filter Nudge.actionable (InsightResult.nudges r)).
  assert (Hact : Forall (fun n => Nudge.type n <> STREAK_CELEBRATION
                                  /\ isTrendDown n = false) actionable).
  { subst actionable.
    eapply Forall_impl; [|apply (Forall_filter_both Nudge.actionable Hbuilt)].
    cbv beta. intros n [(_ & _ & _ & Hiff) Ha]. split.
    - intros Ht. rewrite (proj2 Hiff) in Ha; [discriminate|now left].
    - destruct (isTrendDown n) eqn:Ed; [|reflexivity].
      rewrite (proj2 Hiff) in Ha; [discriminate|now right]. }
  assert (Hlen : (List.length actionable <= 5)%nat).
  { subst actionable.
    pose proof (filter_length_le' Nudge.actionable (InsightResult.nudges r)).
    lia. }
  assert (Hsame : actionable
                  = filter
                      (fun n =>
                         negb (NUDGE_TYPES_eqb (Nudge.type n)
                                 STREAK_CELEBRATION
                               || isTrendDown n))
                      (InsightResult.nudges r)).
  { subst actionable. apply filter_ext_in. intros n Hn.
    rewrite Forall_forall in Hbuilt.
    destruct (Hbuilt n Hn) as (_ & _ & _ & Hiff).
    destruct (Nudge.actionable n) eqn:Ea.
    - symmetry. apply negb_true_iff. apply orb_false_iff. split.
      + apply not_true_iff_false. intros Ht. apply NUDGE_TYPES_eqb_eq in Ht.
        discriminate (proj2 Hiff (or_introl Ht)).
      + apply not_true_iff_false. intros Ht.
        discriminate (proj2 Hiff (or_intror Ht)).
    - symmetry. apply negb_false_iff. apply orb_true_iff.
      destruct (proj1 Hiff eq_refl) as [Ht|Hd]; [left|now right].
      now apply NUDGE_TYPES_eqb_eq. }
  assert (Hmap : forall l,
            Forall (fun n => Nudge.type n <> STREAK_CELEBRATION
                             /\ isTrendDown n = false) l ->
            Forall (fun tip => Tip.type tip <> STREAK_CELEBRATION
                               /\ startsWith "spending_decrease_"
                                    (Tip.id tip) = false)
              (map formatTip l)).
  { induction 1 as [|n l Hn _ IH]; simpl; constructor; auto. }
  assert (Hids : forall l, map Tip.id (map formatTip l) = map Nudge.id l).
  { intros l. rewrite map_map. reflexivity. }
  split; [reflexivity|]. split; [apply filter_length_le'|].
  rewrite length_map.
  destruct category as [c|]; [destruct (String.eqb_spec c "")|].
  - subst c. split; [exact Hlen|]. split; [now apply Hmap|].
    split; [intros _; now rewrite Hids, Hsame|].
    intros c' Hc' Hne. inversion Hc'; subst c'. now elim Hne.
  - split.
    { pose proof (filter_length_le' (matchesCategory toLowerCase c)
                    actionable). lia. }
    split; [apply Hmap, Forall_filter, Hact|].
    split; [intros [H|H]; [discriminate|inversion H; contradiction]|].
    intros c' Hc' _. inversion Hc'; subst c'.
    generalize actionable. intros l. induction l as [|x l IH];
      simpl; [constructor|].
    destruct (matchesCategory toLowerCase c x) eqn:Em; [|exact IH].
    simpl. constructor; [|exact IH].
    unfold matchesCategory in Em. cbn [formatTip Tip.metadata].
    destruct (categoryName (Nudge.metadata x)) as [name|]; [|discriminate].
    now exists name.
  - split; [exact Hlen|]. split; [now apply Hmap|].
    split; [intros _; now rewrite Hids, Hsame|]. discriminate.
Qed.

Lemma financial_tips_witness :
  exists t w',
    getFinancialTips Example.sameMillisecond Example.noOutage Example.db
      Example.toString (fun s => s) Example.userId None Example.start
    = (Ok t, w')
    /\ (Tips.totalTips t <= 5)%nat
    /\ Forall (fun tip => Tip.type tip <> STREAK_CELEBRATION) (Tips.tips t).
Proof.
  destruct (getFinancialTips Example.sameMillisecond Example.noOutage
              Example.db Example.toString (fun s => s) Example.userId None
              Example.start) as [[t|err] w'] eqn:E.
  - exists t, w'. split; [reflexivity|].
    apply financial_tips in E.
    destruct E as (r & _ & _ & _ & Hfive & Hnone & _).
    split; [exact Hfive|].
    eapply Forall_impl; [|exact Hnone]. cbv beta. tauto.
  - exfalso. vm_compute in E. discriminate E.
Defined.

(* ------------------------------------------------------------------ *)
(** ** [getBudgetHealthScore] *)
(* ------------------------------------------------------------------ *)

Section Health.

Variable outage : nat -> bool.
Variable db : Store.t.
Variable userId : ObjectId.
Variable startDate endDate : Z.

(** One turn of the loop adds one category to one of the three counts and
    its score to the total. *)
Lemma scoreCategory_step (category : Category.t) (tally tally' : Tally.t)
    (w w' : World) :
  scoreCategory outage db userId startDate endDate category tally w
  = (Ok tally', w') ->
  queries w' = S (queries w)
  /\ exists a b c : nat,
       (a + b + c = 1)%nat
       /\ Tally.onTrackCount tally' = (Tally.onTrackCount tally + a)%nat
       /\ Tally.warningCount tally' = (Tally.warningCount tally + b)%nat
       /\ Tally.overBudgetCount tally'
          = (Tally.overBudgetCount tally + c)%nat
       /\ Tally.totalScore tally'
          = (Tally.totalScore tally
             + 100 * Z.of_nat a + 60 * Z.of_nat b + 20 * Z.of_nat c)%Z.
Proof.
  unfold scoreCategory, Expense_aggregate_total, query, bind.
  destruct (outage (queries w)); [discriminate|].
  cbn [queries reads].
  destruct (JS.le _ 80); [|destruct (JS.le _ 100)];
    intros H; inversion H; subst;
    cbn [Tally.totalScore Tally.onTrackCount Tally.warningCount
         Tally.overBudgetCount queries reads];
    (split; [reflexivity|]);
    first [exists 1%nat, 0%nat, 0%nat; repeat split; lia
          |exists 0%nat, 1%nat, 0%nat; repeat split; lia
          |exists 0%nat, 0%nat, 1%nat; repeat split; lia].
Qed.

Lemma scoreCategories_inv (categories : list Category.t) :
  forall (tally tally' : Tally.t) (w w' : World),
    scoreCategories outage db userId startDate endDate categories tally w
    = (Ok tally', w') ->
    queries w' = (queries w + List.length categories)%nat
    /\ reads w' = reads w
    /\ exists a b c : nat,
         (a + b + c = List.length categories)%nat
         /\ Tally.onTrackCount tally' = (Tally.onTrackCount tally + a)%nat
         /\ Tally.warningCount tally' = (Tally.warningCount tally + b)%nat
         /\ Tally.overBudgetCount tally'
            = (Tally.overBudgetCount tally + c)%nat
         /\ Tally.totalScore tally'
            = (Tally.totalScore tally
               + 100 * Z.of_nat a + 60 * Z.of_nat b + 20 * Z.of_nat c)%Z.
Proof.
  induction categories as [|category r IH]; intros tally tally' w w' H.
  - inversion H; subst. cbn [List.length]. split; [lia|].
    split; [reflexivity|].
    exists 0%nat, 0%nat, 0%nat. repeat split; lia.
  - cbn [scoreCategories] in H. apply bind_Ok in H.
    destruct H as (t1 & w1 & Hstep & Hrest).
    assert (Hr : reads w1 = reads w).
    { revert Hstep.
      unfold scoreCategory, Expense_aggregate_total, query, bind.
      destruct (outage (queries w)); [discriminate|].
      destruct (JS.le _ 80); [|destruct (JS.le _ 100)];
        intros H; inversion H; reflexivity. }
    apply scoreCategory_step in Hstep.
    destruct Hstep as (Hq & a & b & c & Hsum & Ha & Hb & Hc & Ht).
    apply IH in Hrest.
    destruct Hrest as (Hq' & Hr' & a' & b' & c' & Hsum' & Ha' & Hb' & Hc'
                       & Ht').
    cbn [List.length]. split; [lia|]. split; [congruence|].
    exists (a + a')%nat, (b + b')%nat, (c + c')%nat.
    repeat split; lia.
Qed.

End Health.

Lemma Math_round_inject_Z (k : Z) : JS.Math_round (inject_Z k) = k.
Proof.
  unfold JS.Math_round.
  pose proof (Qfloor_le (inject_Z k + (1 # 2))) as Hl.
  pose proof (Qlt_floor (inject_Z k + (1 # 2))) as Hu.
  set (f := Qfloor (inject_Z k + (1 # 2))) in *.
  assert (H1 : inject_Z f < inject_Z (k + 1)).
  { rewrite inject_Z_plus. change (inject_Z 1) with 1. lra. }
  assert (H2 : inject_Z k < inject_Z (f + 1)) by lra.
  rewrite <- Zlt_Qlt in H1, H2. lia.
Qed.

Lemma Math_round_mono (x y : Q) :
  x <= y -> (JS.Math_round x <= JS.Math_round y)%Z.
Proof.
  intros H. unfold JS.Math_round. apply Qfloor_resp_le. lra.
Qed.

Lemma Math_round_between (x : Q) (lo hi : Z) :
  inject_Z lo <= x -> x <= inject_Z hi ->
  (lo <= JS.Math_round x <= hi)%Z.
Proof.
  intros Hlo Hhi. split.
  - rewrite <- (Math_round_inject_Z lo). now apply Math_round_mono.
  - rewrite <- (Math_round_inject_Z hi). now apply Math_round_mono.
Qed.

Lemma average_between (total n lo hi : Z) :
  (0 < n)%Z -> (lo * n <= total)%Z -> (total <= hi * n)%Z ->
  inject_Z lo <= inject_Z total / inject_Z n
  /\ inject_Z total / inject_Z n <= inject_Z hi.
Proof.
  intros Hn Hlo Hhi.
  assert (Hq : 0 < inject_Z n).
  { change 0 with (inject_Z 0). now rewrite <- Zlt_Qlt. }
  split.
  - apply Qle_shift_div_l; [exact Hq|].
    rewrite <- inject_Z_mult. now rewrite <- Zle_Qle.
  - apply Qle_shift_div_r; [exact Hq|].
    rewrite <- inject_Z_mult. now rewrite <- Zle_Qle.
Qed.

Lemma gradeOf_graded (score : Z) :
  fst (gradeOf score) <> "N/A"%string.
Proof.
  unfold gradeOf.
  destruct (90 <=? score)%Z; [discriminate|].
  destruct (80 <=? score)%Z; [discriminate|].
  destruct (70 <=? score)%Z; [discriminate|].
  destruct (60 <=? score)%Z; discriminate.
Qed.

(** X19.  The answer of [getBudgetHealthScore]: for a user without an active
    category with a budget above zero, a score of 0 and the grade "N/A"
    after a single query; otherwise the three counts add up to the number
    of those categories, the score is the rounded mean of 100 per category
    on track, 60 per category in warning and 20 per category over budget,
    so between 20 and 100, the grade is not "N/A", the score is 100 with
    the grade "A+" when every category is on track and 20 with the grade
    "D" when every category is over budget, and the period is the month of
    the request. *)
Theorem budget_health_score (clock : nat -> Z) (outage : nat -> bool)
    (db : Store.t) (format_MMMM_YYYY : Z -> string) (userId : ObjectId)
    (w w' : World) (h : Health.t) :
  getBudgetHealthScore clock outage db format_MMMM_YYYY userId w = (Ok h, w')
  ->
  let budgeted := filter (budgetedMatch userId) (Store.categories db) in
  let d := Health.details h in
  let onTrack := HealthDetails.onTrackCategories d in
  let warning := HealthDetails.warningCategories d in
  let over := HealthDetails.overBudgetCategories d in
  (budgeted = [] ->
   h = Health.mk 0 "N/A" "No budgets set to evaluate health"
         (HealthDetails.mk 0 0 0 0) None
   /\ queries w' = S (queries w))
  /\ (budgeted <> [] ->
      HealthDetails.totalCategories d = List.length budgeted
      /\ (onTrack + warning + over = List.length budgeted)%nat
      /\ Health.score h
         = JS.Math_round
             (inject_Z (100 * Z.of_nat onTrack + 60 * Z.of_nat warning
                        + 20 * Z.of_nat over)
              / inject_Z (Z.of_nat (List.length budgeted)))
      /\ (20 <= Health.score h <= 100)%Z
      /\ Health.grade h <> "N/A"%string
      /\ (warning = 0%nat -> over = 0%nat ->
          Health.score h = 100%Z /\ Health.grade h = "A+"%string)
      /\ (onTrack = 0%nat -> warning = 0%nat ->
          Health.score h = 20%Z /\ Health.grade h = "D"%string)
      /\ queries w' = (queries w + 1 + List.length budgeted)%nat
      /\ exists p,
           Health.period h = Some p
           /\ HealthPeriod.start p = Moment.startOf_month (clock (reads w))
           /\ HealthPeriod.end_ p
              = Moment.endOf_month (clock (S (reads w)))).
Proof.
  intros H budgeted. unfold getBudgetHealthScore in H.
  cbv [bind moment_now Date_now query] in H. cbn [reads queries] in H.
  destruct (outage (queries w)); [discriminate|].
  fold budgeted in H.
  destruct budgeted as [|c0 rest] eqn:Eb.
  - cbn in H. inversion H; subst. cbv zeta.
    split; [intros _; split; reflexivity|]. intros Hne. now elim Hne.
  - set (cats := c0 :: rest) in *.
    assert (Hlen : (List.length cats =? 0)%nat = false) by reflexivity.
    rewrite Hlen in H. clear Hlen.
    destruct (scoreCategories outage db userId
                (Moment.startOf_month (clock (reads w)))
                (Moment.endOf_month (clock (S (reads w)))) cats
                (Tally.mk 0 0 0 0)
                (mkWorld (S (S (reads w))) (S (queries w))))
      as [[tally|err] w1] eqn:Hloop; [|discriminate].
    apply scoreCategories_inv in Hloop.
    destruct Hloop as (Hq & Hr & a & b & c & Hsum & Ha & Hb & Hc & Ht).
    cbn [Tally.onTrackCount Tally.warningCount Tally.overBudgetCount
         Tally.totalScore Nat.add queries reads] in Hq, Hr, Ha, Hb, Hc, Ht.
    set (n := List.length cats) in *.
    assert (Hn : (0 < Z.of_nat n)%Z) by (subst n cats; cbn [List.length]; lia).
    set (score := JS.Math_round
                    (inject_Z (Tally.totalScore tally)
                     / inject_Z (Z.of_nat n))) in *.
    destruct (gradeOf score) as [grade message] eqn:Eg.
    cbv [ret] in H. inversion H. clear H.
    cbv zeta.
    cbn [Health.details Health.score Health.grade Health.period
         HealthDetails.totalCategories HealthDetails.onTrackCategories
         HealthDetails.warningCategories HealthDetails.overBudgetCategories].
    split; [discriminate|]. intros _.
    rewrite Ha, Hb, Hc.
    assert (Htotal : Tally.totalScore tally
                     = (100 * Z.of_nat a + 60 * Z.of_nat b
                        + 20 * Z.of_nat c)%Z) by lia.
    assert (Hbounds : (20 <= score <= 100)%Z).
    { subst score. apply Math_round_between;
        apply (@average_between (Tally.totalScore tally) (Z.of_nat n) 20
                 100); lia. }
    split; [reflexivity|]. split; [exact Hsum|].
    split; [subst score; now rewrite Htotal|].
    split; [exact Hbounds|].
    split.
    { pose proof (gradeOf_graded score) as Hg. now rewrite Eg in Hg. }
    split; [|split].
    + intros Hb0 Hc0.
      assert (Hs : score = 100%Z).
      { assert (100 <= score <= 100)%Z; [|lia].
        subst score. apply Math_round_between;
          apply (@average_between (Tally.totalScore tally) (Z.of_nat n) 100
                   100); lia. }
      split; [exact Hs|]. rewrite Hs in Eg. cbn in Eg. congruence.
    + intros Ha0 Hb0.
      assert (Hs : score = 20%Z).
      { assert (20 <= score <= 20)%Z; [|lia].
        subst score. apply Math_round_between;
          apply (@average_between (Tally.totalScore tally) (Z.of_nat n) 20
                   20); lia. }
      split; [exact Hs|]. rewrite Hs in Eg. cbn in Eg. congruence.
    + split; [cbn [queries]; rewrite Hq; unfold n; lia|].
      eexists. split; [reflexivity|]. split; reflexivity.
Qed.

Lemma budget_health_score_witness :
  exists h w',
    getBudgetHealthScore Example.sameMillisecond Example.noOutage Example.db
      (fun _ => "March 2024"%string) Example.userId Example.start
    = (Ok h, w')
    /\ (20 <= Health.score h <= 100)%Z
    /\ Health.grade h <> "N/A"%string.
Proof.
  destruct (getBudgetHealthScore Example.sameMillisecond Example.noOutage
              Example.db (fun _ => "March 2024"%string) Example.userId
              Example.start) as [[h|err] w'] eqn:E.
  - exists h, w'. split; [reflexivity|].
    apply budget_health_score in E. cbv zeta in E.
    destruct E as [_ E].
    destruct E as (_ & _ & _ & Hrange & Hgrade & _).
    + vm_compute. discriminate.
    + split; [exact Hrange|exact Hgrade].
  - exfalso. vm_compute in E. discriminate E.
Defined.

(* ------------------------------------------------------------------ *)
(** ** The two readings of a budget *)
(* ------------------------------------------------------------------ *)

Lemma scoreCategory_Ok (outage : nat -> bool) (db : Store.t)
    (userId : ObjectId) (startDate endDate : Z) (category : Category.t)
    (budget : float) (tally : Tally.t) (w : World) :
  Category.monthlyBudget category = Some budget ->
  outage (queries w) = false ->
  scoreCategory outage db userId startDate endDate category tally w
  = let percentage :=
      percentageOf db userId startDate endDate category budget in
    (Ok (if (percentage <=? 80)%float then
           Tally.mk (Tally.totalScore tally + 100)
             (S (Tally.onTrackCount tally)) (Tally.warningCount tally)
             (Tally.overBudgetCount tally)
         else if (percentage <=? 100)%float then
           Tally.mk (Tally.totalScore tally + 60)
             (Tally.onTrackCount tally) (S (Tally.warningCount tally))
             (Tally.overBudgetCount tally)
         else
           Tally.mk (Tally.totalScore tally + 20)
             (Tally.onTrackCount tally) (Tally.warningCount tally)
             (S (Tally.overBudgetCount tally))),
     mkWorld (reads w) (S (queries w))).
Proof.
  intros Hb Hout. unfold scoreCategory, Expense_aggregate_total.
  erewrite bind_Ok_intro by (apply query_Ok; exact Hout).
  rewrite Hb, category_total. unfold percentageOf, JS.le. cbv zeta.
  destruct (_ <=? 80)%float; [reflexivity|].
  destruct (_ <=? 100)%float; reflexivity.
Qed.

(** X20.  The budget evaluator and the health score put the same
    percentage of the month, computed in doubles, against the same two
    marks, 80 and 100, but with different comparisons: they agree below
    80, between the marks and above 100, while a category whose percentage
    is 80 gets a warning nudge and counts as on track, and a category
    whose percentage is 100 gets an overage nudge and counts as in
    warning; a percentage that is no number gets no nudge and counts as
    over budget. *)
Theorem budget_thresholds_differ (clock : nat -> Z) (outage : nat -> bool)
    (db : Store.t) (userId : ObjectId) (category : Category.t)
    (budget : float) (tally : Tally.t) (w w2 : World) :
  Category.monthlyBudget category = Some budget ->
  (0 <? budget)%float = true ->
  outage (queries w) = false ->
  outage (queries w2) = false ->
  let startOfMonth := Moment.startOf_month (clock (reads w)) in
  let endOfMonth := Moment.endOf_month (clock (S (reads w))) in
  let percentage :=
    percentageOf db userId startOfMonth endOfMonth category budget in
  exists ns w' tally' w2',
    budgetNudgesFor clock outage db userId category w = (Ok ns, w')
    /\ scoreCategory outage db userId startOfMonth endOfMonth category tally
         w2 = (Ok tally', w2')
    /\ ((percentage <? 80)%float = true ->
        ns = []
        /\ Tally.onTrackCount tally' = S (Tally.onTrackCount tally))
    /\ ((percentage =? 80)%float = true ->
        (exists n, ns = [n] /\ isBudgetWarning n = true)
        /\ Tally.onTrackCount tally' = S (Tally.onTrackCount tally))
    /\ ((80 <? percentage)%float = true ->
        (percentage <? 100)%float = true ->
        (exists n, ns = [n] /\ isBudgetWarning n = true)
        /\ Tally.warningCount tally' = S (Tally.warningCount tally))
    /\ ((percentage =? 100)%float = true ->
        (exists n, ns = [n] /\ isBudgetOverage n = true)
        /\ Tally.warningCount tally' = S (Tally.warningCount tally))
    /\ ((100 <? percentage)%float = true ->
        (exists n, ns = [n] /\ isBudgetOverage n = true)
        /\ Tally.overBudgetCount tally'
           = S (Tally.overBudgetCount tally))
    /\ ((percentage =? percentage)%float = false ->
        ns = []
        /\ Tally.overBudgetCount tally'
           = S (Tally.overBudgetCount tally)).
Proof.
  intros Hb Hpos Hout Hout2 startOfMonth endOfMonth percentage.
  rewrite (@scoreCategory_Ok outage db userId startOfMonth endOfMonth category
             budget tally w2 Hb Hout2).
  unfold budgetNudgesFor.
  rewrite Hb, (no_budget_guard Hpos).
  erewrite bind_Ok_intro
    by (apply getCategorySpendingThisMonth_Ok; exact Hout).
  fold startOfMonth endOfMonth.
  change (totalOf _ / budget * 100)%float with percentage.
  cbv zeta. fold percentage. unfold JS.ge.
  generalize percentage. clear percentage. intros p.
  rewrite !leb_compare, !ltb_compare, !eqb_compare.
  rewrite (compare_antisym p 80), (compare_antisym p 100).
  pose proof (@compare_marks p 80 100 eq_refl) as Hm.
  pose proof (compare_self p 80) as Hs.
  destruct (p ?= 80)%float, (p ?= 100)%float, (p ?= p)%float;
    try contradiction;
    cbv [bind ret Date_now moment_now]; do 4 eexists;
    (split; [reflexivity|]); (split; [reflexivity|]);
    cbn [Tally.onTrackCount Tally.warningCount Tally.overBudgetCount];
    repeat split; intros; try discriminate; try reflexivity;
    try (eexists; split; reflexivity).
Qed.

(** The budget of 1200 against 1200 spent is at 100 percent: an overage
    nudge and a count in warning.  The coffee at 1.12 of 1.40 comes to
    80.00000000000001 percent in doubles: a warning nudge and a count in
    warning, not on track. *)
Lemma budget_thresholds_differ_witness :
  (exists n w' tally' w2',
     budgetNudgesFor Example.sameMillisecond Example.noOutage Example.db
       Example.userId Sample.billsAt1200 Example.gatheredAt = (Ok [n], w')
     /\ isBudgetOverage n = true
     /\ scoreCategory Example.noOutage Example.db Example.userId
          (Moment.startOf_month Example.now) (Moment.endOf_month Example.now)
          Sample.billsAt1200 (Tally.mk 0 0 0 0) Example.start
        = (Ok tally', w2')
     /\ Tally.warningCount tally' = 1%nat
     /\ Tally.overBudgetCount tally' = 0%nat)
  /\ (exists n w' tally' w2',
        budgetNudgesFor Example.sameMillisecond Example.noOutage Sample.cents
          Sample.centsUserId Sample.coffee Example.gatheredAt = (Ok [n], w')
        /\ isBudgetWarning n = true
        /\ scoreCategory Example.noOutage Sample.cents Sample.centsUserId
             (Moment.startOf_month Example.now)
             (Moment.endOf_month Example.now)
             Sample.coffee (Tally.mk 0 0 0 0) Example.start
           = (Ok tally', w2')
        /\ Tally.warningCount tally' = 1%nat
        /\ Tally.onTrackCount tally' = 0%nat).
Proof.
  split.
  - destruct (@budget_thresholds_differ Example.sameMillisecond
                Example.noOutage Example.db Example.userId Sample.billsAt1200
                1200%float (Tally.mk 0 0 0 0) Example.gatheredAt
                Example.start)
      as (ns & w' & tally' & w2' & Hrun & Hscore & _ & _ & _ & H100 & _);
      try reflexivity.
    destruct H100 as [(n & Hn & Hid) Hw]; [reflexivity|].
    subst ns. exists n, w', tally', w2'.
    split; [exact Hrun|]. split; [exact Hid|]. split; [exact Hscore|].
    split; [exact Hw|].
    vm_compute in Hscore. inversion Hscore. reflexivity.
  - destruct (@budget_thresholds_differ Example.sameMillisecond
                Example.noOutage Sample.cents Sample.centsUserId
                Sample.coffee 1.40%float (Tally.mk 0 0 0 0)
                Example.gatheredAt Example.start)
      as (ns & w' & tally' & w2' & Hrun & Hscore & _ & _ & Hmid & _);
      try reflexivity.
    destruct Hmid as [(n & Hn & Hid) Hw]; [reflexivity|reflexivity|].
    subst ns. exists n, w', tally', w2'.
    split; [exact Hrun|]. split; [exact Hid|]. split; [exact Hscore|].
    split; [exact Hw|].
    vm_compute in Hscore. inversion Hscore. reflexivity.
Defined.

(* ------------------------------------------------------------------ *)
(** ** Category patterns in the answer *)
(* ------------------------------------------------------------------ *)

Section Unreported.

Variable clock : nat -> Z.
Variable outage : nat -> bool.
Variable db : Store.t.
Variable toString : CategoryRef.t -> string.

Hypothesis printed : printsDocuments toString.

Lemma evaluators_no_patterns (userId : ObjectId)
    (expenses : list GatheredExpense) (categories : list Category.t)
    (user : option User.t) (startDate endDate : Z) :
  Forall (fun c => isObjectId (Category._id c) = true) categories ->
  Forall
    (fun ev =>
       forall w ns w',
         ev w = (Ok ns, w') ->
         Forall (fun n => Nudge.type n <> CATEGORY_PATTERN) ns)
    (evaluators clock outage db toString userId expenses categories user
       startDate endDate).
Proof.
  intros Hids. unfold evaluators.
  assert (Hbuilt : forall type ns,
            type <> CATEGORY_PATTERN ->
            Forall (builtAs clock categories type) ns ->
            Forall (fun n => Nudge.type n <> CATEGORY_PATTERN) ns).
  { intros type ns Hty Hns. eapply Forall_impl; [|exact Hns]. cbv beta.
    intros n (_ & _ & Hn & _). congruence. }
  repeat constructor; intros w ns w' H.
  - apply Hbuilt with (type := WEEKEND_SPENDING); [discriminate|].
    eapply detectWeekendSpending_built. exact H.
  - apply Hbuilt with (type := BUDGET_OVERAGE); [discriminate|].
    eapply detectBudgetOverspend_built. exact H.
  - apply Hbuilt with (type := SPENDING_TREND); [discriminate|].
    eapply analyzeSpendingTrendsForNudge_built. exact H.
  - apply Hbuilt with (type := STREAK_CELEBRATION); [discriminate|].
    eapply generateMotivationalNudges_built. exact H.
  - destruct (detectCategoryPatterns_silent clock userId expenses w printed
                Hids) as [[_ E]|[_ E]];
      rewrite E in H; inversion H; constructor.
  - inversion H. constructor.
Qed.

Lemma collected_no_patterns (userId : ObjectId)
    (expenses : list GatheredExpense) (categories : list Category.t)
    (user : option User.t) (startDate endDate : Z) (w w' : World)
    (ns : list Nudge.t) :
  Forall (fun c => isObjectId (Category._id c) = true) categories ->
  generateAllNudges clock outage db toString userId expenses categories user
    startDate endDate w = (Ok ns, w') ->
  Forall (fun n => Nudge.type n <> CATEGORY_PATTERN) ns.
Proof.
  intros Hids. rewrite generateAllNudges_run.
  pose proof (runUntilThrow_Forall
                (fun ns => Forall (fun n => Nudge.type n <> CATEGORY_PATTERN)
                             ns)
                (evaluators_no_patterns userId expenses user startDate endDate
                   Hids) w) as H.
  destruct (runUntilThrow _ w) as [[os complete] w1]. simpl in H.
  intros E. inversion E; subst. now apply Forall_concat.
Qed.

End Unreported.

(** X6.  With documents printed as documents and categories identified by
    object identifiers, the engine never reports a category pattern:
    whatever the expenses, no nudge that [generateInsights] returns has the
    type [CATEGORY_PATTERN]; yet the test for small purchases, were it
    reached, gives a nudge of that type as soon as ten of the amounts of a
    group are below 200. *)
Theorem category_patterns_never_reported (clock : nat -> Z)
    (outage : nat -> bool) (db : Store.t)
    (toString : CategoryRef.t -> string) (userId : ObjectId)
    (startDate endDate : option Z) (w w' : World) (r : InsightResult.t) :
  printsDocuments toString ->
  Forall (fun c => isObjectId (Category._id c) = true) (Store.categories db) ->
  generateInsights clock outage db toString userId startDate endDate w
  = (Ok r, w') ->
  Forall (fun n => Nudge.type n <> CATEGORY_PATTERN) (InsightResult.nudges r)
  /\ (forall key category group w0,
        (10 <= List.length
                 (filter (fun e => (Expense.amount e <? 200)%float) group))%nat
        ->
        exists n w1,
          smallPurchasesNudge clock key category group w0 = (Ok [n], w1)
          /\ Nudge.type n = CATEGORY_PATTERN
          /\ isSmallPurchases n = true
          /\ metadataCategory n = Some key).
Proof.
  intros Hp Hids Hrun. split.
  - apply generateInsights_Ok in Hrun.
    destruct Hrun as (s & e & w0 & expenses & categories & u & w1 & collected
                      & w2 & w3 & _ & Hg & Hn & _ & _ & _ & Hr & _).
    apply gather_Ok in Hg. destruct Hg as (_ & Hc & _).
    rewrite Hr. apply Forall_firstn.
    eapply Permutation_Forall;
      [apply Permutation_sym, prioritizeNudges_perm|].
    eapply collected_no_patterns; [exact Hp| |exact Hn].
    rewrite Hc. now apply Forall_filter.
  - intros key category group w0 Hten. unfold smallPurchasesNudge, JS.lt.
    apply Nat.leb_le in Hten. rewrite Hten.
    cbv [bind ret Date_now]. do 2 eexists. split; [reflexivity|].
    repeat split.
Qed.

(** A user with ten purchases of 150 in one category: the answer holds no
    category pattern, though the ten gathered expenses pass the test for
    small purchases. *)
Lemma category_patterns_never_reported_witness :
  exists r w' n w1,
    generateInsights Example.sameMillisecond Example.noOutage Sample.tenSmall
      Example.toString Sample.shopperId None None Example.start = (Ok r, w')
    /\ Forall (fun n => Nudge.type n <> CATEGORY_PATTERN)
         (InsightResult.nudges r)
    /\ smallPurchasesNudge Example.sameMillisecond
         (Category._id Sample.treats) Sample.treats
         (map (populate Sample.tenSmall) (Store.expenses Sample.tenSmall))
         Example.start = (Ok [n], w1)
    /\ isSmallPurchases n = true.
Proof.
  destruct (generateInsights Example.sameMillisecond Example.noOutage
              Sample.tenSmall Example.toString Sample.shopperId None None
              Example.start) as [[r|err] w'] eqn:E;
    [|vm_compute in E; discriminate E].
  destruct (@category_patterns_never_reported Example.sameMillisecond
              Example.noOutage Sample.tenSmall Example.toString
              Sample.shopperId None None Example.start w' r)
    as [Hnone Hsmall].
  - intros ref. reflexivity.
  - repeat constructor.
  - exact E.
  - destruct (Hsmall (Category._id Sample.treats) Sample.treats
                (map (populate Sample.tenSmall)
                   (Store.expenses Sample.tenSmall)) Example.start)
      as (n & w1 & Hn & _ & Hid & _).
    + vm_compute. lia.
    + exists r, w', n, w1. repeat split; assumption.
Defined.
